(** * Call-Sense: the agent pipeline, its message bus and its memory fold

    A shallow embedding of the Python sources

      graph/state.py, graph/a2a.py, graph/tools.py, graph/agents.py,
      graph/supervisor.py, eval/metrics.py, agents/*.py and, of app.py,
      the function that reads the transcript of a row

    together with the properties of the orchestration layer.

    Conventions of the embedding.
    - Python [int] is [Z]; Python [float] is an exact rational [Q]
      (rounding, NaN and the infinities are outside the model; [float] of
      an [int] that does not fit a double raises [OverflowError]).
    - Python [str] is [string]; the character classes used by the code
      ([str.lower], [str.strip], the regular expression classes [\s] and
      [\w]) are given on ASCII.
    - A JSON-compatible Python object is a [pyval]; a [dict] with string
      keys is an association list in insertion order.
    - A function that mutates its [CallState] argument is a computation in
      the monad [M CallState], which threads the state, records every
      write, and keeps the state reached when an exception is raised. *)

From Stdlib Require Import ZArith QArith Qfield Lqa List String Ascii Bool Lia.
Import ListNotations.

Set Warnings "-register-all".

Local Open Scope string_scope.
Local Open Scope list_scope.
Local Open Scope Z_scope.

(* ================================================================== *)
(** * Python values                                                    *)
(* ================================================================== *)

Module Py.

(** The exceptions the code can meet.  [KeyError] carries the key (or
    the agent name) its message reports; [CapabilityError] stands for
    whatever an external capability raises (a subclass of [Exception]). *)
Inductive exn : Type :=
| KeyError (key : string)
| TypeError
| ValueError
| AttributeError
| JSONDecodeError
| ZeroDivisionError
| OverflowError
| CapabilityError.

(** [result A]: a Python expression either raises or yields a value. *)
Definition result (A : Type) : Type := (exn + A)%type.

Definition ok {A} (a : A) : result A := inr a.
Definition throw {A} (e : exn) : result A := inl e.

Definition rbind {A B} (r : result A) (f : A -> result B) : result B :=
  match r with
  | inl e => inl e
  | inr a => f a
  end.

(** JSON-compatible objects: what [json.loads] returns and what the
    dictionaries of the call state hold. *)
Inductive pyval : Type :=
| PNone
| PBool (b : bool)
| PInt (z : Z)
| PFloat (q : Q)
| PStr (s : string)
| PList (l : list pyval)
| PDict (d : list (string * pyval)).

Definition dict : Type := list (string * pyval).

(** [d.get(k)] *)
Fixpoint dict_get (k : string) (d : dict) : option pyval :=
  match d with
  | [] => None
  | (k', v) :: d' => if String.eqb k k' then Some v else dict_get k d'
  end.

(** [k in d] *)
Definition dict_has (k : string) (d : dict) : bool :=
  match dict_get k d with
  | Some _ => true
  | None => false
  end.

(** [d[k] = v]: an existing key keeps its place, a new key goes last. *)
Fixpoint dict_set (k : string) (v : pyval) (d : dict) : dict :=
  match d with
  | [] => [(k, v)]
  | (k', v') :: d' =>
      if String.eqb k k' then (k', v) :: d' else (k', v') :: dict_set k v d'
  end.

(** [d.get(k, default)] *)
Definition dict_get_default (k : string) (default : pyval) (d : dict) : pyval :=
  match dict_get k d with
  | Some v => v
  | None => default
  end.

(** [{**a, **b}] *)
Definition dict_merge (a b : dict) : dict :=
  fold_left (fun acc kv => dict_set (fst kv) (snd kv) acc) b a.

(** Truth value of an object ([bool(v)]). *)
Definition truthy (v : pyval) : bool :=
  match v with
  | PNone => false
  | PBool b => b
  | PInt z => negb (z =? 0)
  | PFloat q => negb (Qeq_bool q 0)
  | PStr s => negb (String.eqb s "")
  | PList l => match l with [] => false | _ => true end
  | PDict d => match d with [] => false | _ => true end
  end.

(** [hash(v)] raises [TypeError] on lists and dictionaries. *)
Definition hashable (v : pyval) : bool :=
  match v with
  | PList _ | PDict _ => false
  | _ => true
  end.

(** The numeric value of a number or a boolean ([True == 1 == 1.0]). *)
Definition numeric (v : pyval) : option Q :=
  match v with
  | PBool b => Some (if b then 1%Q else 0%Q)
  | PInt z => Some (inject_Z z)
  | PFloat q => Some q
  | _ => None
  end.

(** [a == b] where at least one side is hashable: the comparisons the code
    makes are set and dictionary look-ups and tests against a string
    literal.  A container never equals a scalar. *)
Definition atom_eqb (a b : pyval) : bool :=
  match a, b with
  | PNone, PNone => true
  | PStr s, PStr t => String.eqb s t
  | _, _ =>
      match numeric a, numeric b with
      | Some x, Some y => Qeq_bool x y
      | _, _ => false
      end
  end.

(** [v.get(k, default)]: only a [dict] has [get]. *)
Definition py_get (v : pyval) (k : string) (default : pyval) : result pyval :=
  match v with
  | PDict d => ok (dict_get_default k default d)
  | _ => throw AttributeError
  end.

(** [isinstance(v, dict)], [isinstance(v, list)] *)
Definition is_dict (v : pyval) : bool :=
  match v with PDict _ => true | _ => false end.

Definition is_list (v : pyval) : bool :=
  match v with PList _ => true | _ => false end.

End Py.
Export Py.

(* ================================================================== *)
(** * Python strings (ASCII)                                           *)
(* ================================================================== *)

Module PyStr.

Definition code (c : ascii) : nat := nat_of_ascii c.

(** [c.isspace()]: tab, newline, vertical tab, form feed, carriage
    return, the four separators 0x1c..0x1f and the space. *)
Definition is_space (c : ascii) : bool :=
  let n := code c in
  ((9 <=? n) && (n <=? 13) || (28 <=? n) && (n <=? 32))%nat.

(** [\w] on ASCII: letters, digits and the underscore. *)
Definition is_word (c : ascii) : bool :=
  let n := code c in
  ((48 <=? n) && (n <=? 57) || (65 <=? n) && (n <=? 90)
   || (97 <=? n) && (n <=? 122) || (n =? 95))%nat.

Definition lower_char (c : ascii) : ascii :=
  let n := code c in
  if ((65 <=? n) && (n <=? 90))%nat then ascii_of_nat (n + 32) else c.

(** [s.lower()] *)
Fixpoint lower (s : string) : string :=
  match s with
  | EmptyString => EmptyString
  | String c r => String (lower_char c) (lower r)
  end.

Definition is_empty (s : string) : bool := String.eqb s "".

(** [s.lstrip()], [s.rstrip()], [s.strip()] *)
Fixpoint lstrip (s : string) : string :=
  match s with
  | EmptyString => EmptyString
  | String c r => if is_space c then lstrip r else s
  end.

Fixpoint rstrip (s : string) : string :=
  match s with
  | EmptyString => EmptyString
  | String c r =>
      let r' := rstrip r in
      if is_space c && is_empty r' then EmptyString else String c r'
  end.

Definition strip (s : string) : string := rstrip (lstrip s).

(** [needle in hay] *)
Fixpoint contains (needle hay : string) : bool :=
  String.prefix needle hay
  || match hay with
     | EmptyString => false
     | String _ r => contains needle r
     end.

(** [any(kw in text for kw in kws)] *)
Definition contains_any (kws : list string) (text : string) : bool :=
  existsb (fun kw => contains kw text) kws.

(** [next((kw for kw in kws if kw in text), None)] *)
Definition first_keyword (kws : list string) (text : string) : option string :=
  find (fun kw => contains kw text) kws.

(** [re.sub(r"\s+", " ", s)]: every maximal run of white space becomes
    one space.  [in_run] tells that the previous character was white. *)
Fixpoint collapse_ws_from (in_run : bool) (s : string) : string :=
  match s with
  | EmptyString => EmptyString
  | String c r =>
      if is_space c
      then if in_run then collapse_ws_from true r
           else String " " (collapse_ws_from true r)
      else String c (collapse_ws_from false r)
  end.

Definition collapse_ws (s : string) : string := collapse_ws_from false s.

(** [s[n:]] *)
Fixpoint drop (n : nat) (s : string) : string :=
  match n, s with
  | O, _ => s
  | S n', String _ r => drop n' r
  | S _, EmptyString => EmptyString
  end.

(** [re.sub(tag1|tag2|..., "", s, flags=re.IGNORECASE)] for literal tags:
    at each position the first tag that matches is removed; [skip] counts
    the characters of a match still to be dropped. *)
Fixpoint remove_tags_from (tags : list string) (skip : nat) (s : string) : string :=
  match s with
  | EmptyString => EmptyString
  | String c r =>
      match skip with
      | S k => remove_tags_from tags k r
      | O =>
          match find (fun t => String.prefix t (lower s)) tags with
          | Some t => remove_tags_from tags (String.length t - 1) r
          | None => String c (remove_tags_from tags O r)
          end
      end
  end.

Definition remove_tags (tags : list string) (s : string) : string :=
  remove_tags_from tags O s.

(** [re.split(r"(?<=[.!?])\s+", s)]: a separator is a maximal run of
    white space that follows one of [. ! ?].  The head of the result is
    the part being read; [prev_end] tells that the previous character
    closes a sentence, [in_sep] that it belongs to a separator. *)
Definition ends_sentence (c : ascii) : bool :=
  (Ascii.eqb c "." || Ascii.eqb c "!" || Ascii.eqb c "?")%char.

Fixpoint split_sentences_from (prev_end in_sep : bool) (s : string) : list string :=
  match s with
  | EmptyString => [EmptyString]
  | String c r =>
      if is_space c && in_sep then split_sentences_from false true r
      else if is_space c && prev_end then
        EmptyString :: split_sentences_from false true r
      else
        match split_sentences_from (ends_sentence c) false r with
        | p :: ps => String c p :: ps
        | [] => [String c EmptyString]
        end
  end.

Definition split_sentences (s : string) : list string :=
  split_sentences_from false false s.

(** [re.split(r"\s+", s)[0]]: the characters before the first white one. *)
Fixpoint first_token (s : string) : string :=
  match s with
  | EmptyString => EmptyString
  | String c r => if is_space c then EmptyString else String c (first_token r)
  end.

(** [re.sub(r"[^a-z_]", "", s)] *)
Definition is_label_char (c : ascii) : bool :=
  let n := code c in
  ((97 <=? n) && (n <=? 122) || (n =? 95))%nat.

Fixpoint keep_label_chars (s : string) : string :=
  match s with
  | EmptyString => EmptyString
  | String c r =>
      if is_label_char c then String c (keep_label_chars r)
      else keep_label_chars r
  end.

(** [re.search(r".*account", s)] anchored at the start of [s]: [.] does
    not match a newline. *)
Fixpoint dotstar_account (s : string) : bool :=
  String.prefix "account" s
  || match s with
     | EmptyString => false
     | String c r => if Ascii.eqb c "010"%char then false else dotstar_account r
     end.

Definition starts_with_nonword (s : string) : bool :=
  match s with
  | EmptyString => true
  | String c _ => negb (is_word c)
  end.

(** [re.search(r"\b(cancel\b.*account|close my account)", s)]: both
    alternatives begin with a word character, so the leading [\b] asks
    that the previous character is not one. *)
Fixpoint search_cancel_account_from (prev_word : bool) (s : string) : bool :=
  (negb prev_word
   && (String.prefix "cancel" s
         && starts_with_nonword (drop 6 s) && dotstar_account (drop 6 s)
       || String.prefix "close my account" s))
  || match s with
     | EmptyString => false
     | String c r => search_cancel_account_from (is_word c) r
     end.

Definition search_cancel_account (s : string) : bool :=
  search_cancel_account_from false s.

(** The double quote, for texts that contain one. *)
Definition dq : string := String "034"%char EmptyString.

End PyStr.
Export PyStr.

(* ================================================================== *)
(** * The Python standard library, as far as the code uses it          *)
(* ================================================================== *)

(** Functions of the standard library whose text-level behaviour is not
    part of this repository.  Every theorem below holds for any
    implementation of them.
    - [json_loads s]: [json.loads(s)], [None] when it raises;
    - [py_repr v]: [str(v)] for an object that is not a string;
    - [float_of_str s], [int_of_str s]: [float(s)] and [int(s)] on a
      string, [None] when they raise [ValueError];
    - [textwrap_shorten text width placeholder]: [textwrap.shorten]. *)
Class PyLib : Type := {
  json_loads : string -> option pyval;
  py_repr : pyval -> string;
  float_of_str : string -> option Q;
  int_of_str : string -> option Z;
  textwrap_shorten : string -> Z -> string -> string
}.

Section Builtins.
Context {lib : PyLib}.

(** [str(v)] *)
Definition py_str (v : pyval) : string :=
  match v with
  | PStr s => s
  | _ => py_repr v
  end.

(** The first integer that [float] refuses: an [int] is rounded to the
    nearest double, ties to even, and [2^1024 - 2^970] is half-way
    between the largest double and [2^1024]. *)
Definition FLOAT_INT_LIMIT : Z := 2 ^ 1024 - 2 ^ 970.

(** [float(v)]; on an [int] that does not fit a double it raises
    [OverflowError]. *)
Definition py_float (v : pyval) : result Q :=
  match v with
  | PFloat q => ok q
  | PInt z =>
      if Z.abs z <? FLOAT_INT_LIMIT then ok (inject_Z z) else throw OverflowError
  | PBool b => ok (if b then 1%Q else 0%Q)
  | PStr s => match float_of_str s with Some q => ok q | None => throw ValueError end
  | PNone | PList _ | PDict _ => throw TypeError
  end.

(** [int(v)]: a float is truncated towards zero. *)
Definition py_int (v : pyval) : result Z :=
  match v with
  | PInt z => ok z
  | PBool b => ok (if b then 1 else 0)
  | PFloat q => ok (Z.quot (Qnum q) (Zpos (Qden q)))
  | PStr s => match int_of_str s with Some z => ok z | None => throw ValueError end
  | PNone | PList _ | PDict _ => throw TypeError
  end.

(** [json.loads(s)] *)
Definition py_json_loads (s : string) : result pyval :=
  match json_loads s with
  | Some v => ok v
  | None => throw JSONDecodeError
  end.

End Builtins.

(** [v.lower()]: only a [str] has [lower]. *)
Definition py_lower (v : pyval) : result string :=
  match v with
  | PStr s => ok (lower s)
  | _ => throw AttributeError
  end.

(* ================================================================== *)
(** * graph/state.py                                                   *)
(* ================================================================== *)

(** An A2A message: the dictionary [{"from", "to", "type", "payload"}]
    that [send_message] builds. *)
Record Message : Type := {
  m_from : string;
  m_to : string;
  m_type : string;
  m_payload : dict
}.

Record CallState : Type := {
  call_id : option string;
  raw_transcript : string;
  cleaned_transcript : string;
  utterances : list string;
  entities : dict;
  summary : string;
  sentiment : string;
  frustration_timeline : list dict;
  pain_points : list pyval;
  recommended_actions : list string;
  messages : list Message;
  evaluation : dict;
  start_ts : Q;
  step_count : Z;
  tool_calls : Z;
  tool_successes : Z
}.

(** [CallState(raw_transcript=raw)]; [now] is the clock reading taken by
    the default factory of [start_ts]. *)
Definition new_CallState (raw : string) (now : Q) : CallState := {|
  call_id := None;
  raw_transcript := raw;
  cleaned_transcript := "";
  utterances := [];
  entities := [];
  summary := "";
  sentiment := "";
  frustration_timeline := [];
  pain_points := [];
  recommended_actions := [];
  messages := [];
  evaluation := [];
  start_ts := now;
  step_count := 0;
  tool_calls := 0;
  tool_successes := 0
|}.

(** Attribute assignments [state.f = v]. *)
Definition set_cleaned_transcript (v : string) (s : CallState) : CallState :=
  {| call_id := call_id s; raw_transcript := raw_transcript s;
     cleaned_transcript := v; utterances := utterances s;
     entities := entities s; summary := summary s; sentiment := sentiment s;
     frustration_timeline := frustration_timeline s;
     pain_points := pain_points s;
     recommended_actions := recommended_actions s; messages := messages s;
     evaluation := evaluation s; start_ts := start_ts s;
     step_count := step_count s; tool_calls := tool_calls s;
     tool_successes := tool_successes s |}.

Definition set_utterances (v : list string) (s : CallState) : CallState :=
  {| call_id := call_id s; raw_transcript := raw_transcript s;
     cleaned_transcript := cleaned_transcript s; utterances := v;
     entities := entities s; summary := summary s; sentiment := sentiment s;
     frustration_timeline := frustration_timeline s;
     pain_points := pain_points s;
     recommended_actions := recommended_actions s; messages := messages s;
     evaluation := evaluation s; start_ts := start_ts s;
     step_count := step_count s; tool_calls := tool_calls s;
     tool_successes := tool_successes s |}.

Definition set_entities (v : dict) (s : CallState) : CallState :=
  {| call_id := call_id s; raw_transcript := raw_transcript s;
     cleaned_transcript := cleaned_transcript s; utterances := utterances s;
     entities := v; summary := summary s; sentiment := sentiment s;
     frustration_timeline := frustration_timeline s;
     pain_points := pain_points s;
     recommended_actions := recommended_actions s; messages := messages s;
     evaluation := evaluation s; start_ts := start_ts s;
     step_count := step_count s; tool_calls := tool_calls s;
     tool_successes := tool_successes s |}.

Definition set_summary (v : string) (s : CallState) : CallState :=
  {| call_id := call_id s; raw_transcript := raw_transcript s;
     cleaned_transcript := cleaned_transcript s; utterances := utterances s;
     entities := entities s; summary := v; sentiment := sentiment s;
     frustration_timeline := frustration_timeline s;
     pain_points := pain_points s;
     recommended_actions := recommended_actions s; messages := messages s;
     evaluation := evaluation s; start_ts := start_ts s;
     step_count := step_count s; tool_calls := tool_calls s;
     tool_successes := tool_successes s |}.

Definition set_sentiment (v : string) (s : CallState) : CallState :=
  {| call_id := call_id s; raw_transcript := raw_transcript s;
     cleaned_transcript := cleaned_transcript s; utterances := utterances s;
     entities := entities s; summary := summary s; sentiment := v;
     frustration_timeline := frustration_timeline s;
     pain_points := pain_points s;
     recommended_actions := recommended_actions s; messages := messages s;
     evaluation := evaluation s; start_ts := start_ts s;
     step_count := step_count s; tool_calls := tool_calls s;
     tool_successes := tool_successes s |}.

Definition set_frustration_timeline (v : list dict) (s : CallState) : CallState :=
  {| call_id := call_id s; raw_transcript := raw_transcript s;
     cleaned_transcript := cleaned_transcript s; utterances := utterances s;
     entities := entities s; summary := summary s; sentiment := sentiment s;
     frustration_timeline := v;
     pain_points := pain_points s;
     recommended_actions := recommended_actions s; messages := messages s;
     evaluation := evaluation s; start_ts := start_ts s;
     step_count := step_count s; tool_calls := tool_calls s;
     tool_successes := tool_successes s |}.

Definition set_pain_points (v : list pyval) (s : CallState) : CallState :=
  {| call_id := call_id s; raw_transcript := raw_transcript s;
     cleaned_transcript := cleaned_transcript s; utterances := utterances s;
     entities := entities s; summary := summary s; sentiment := sentiment s;
     frustration_timeline := frustration_timeline s;
     pain_points := v;
     recommended_actions := recommended_actions s; messages := messages s;
     evaluation := evaluation s; start_ts := start_ts s;
     step_count := step_count s; tool_calls := tool_calls s;
     tool_successes := tool_successes s |}.

Definition set_recommended_actions (v : list string) (s : CallState) : CallState :=
  {| call_id := call_id s; raw_transcript := raw_transcript s;
     cleaned_transcript := cleaned_transcript s; utterances := utterances s;
     entities := entities s; summary := summary s; sentiment := sentiment s;
     frustration_timeline := frustration_timeline s;
     pain_points := pain_points s;
     recommended_actions := v; messages := messages s;
     evaluation := evaluation s; start_ts := start_ts s;
     step_count := step_count s; tool_calls := tool_calls s;
     tool_successes := tool_successes s |}.

Definition set_messages (v : list Message) (s : CallState) : CallState :=
  {| call_id := call_id s; raw_transcript := raw_transcript s;
     cleaned_transcript := cleaned_transcript s; utterances := utterances s;
     entities := entities s; summary := summary s; sentiment := sentiment s;
     frustration_timeline := frustration_timeline s;
     pain_points := pain_points s;
     recommended_actions := recommended_actions s; messages := v;
     evaluation := evaluation s; start_ts := start_ts s;
     step_count := step_count s; tool_calls := tool_calls s;
     tool_successes := tool_successes s |}.

Definition set_evaluation (v : dict) (s : CallState) : CallState :=
  {| call_id := call_id s; raw_transcript := raw_transcript s;
     cleaned_transcript := cleaned_transcript s; utterances := utterances s;
     entities := entities s; summary := summary s; sentiment := sentiment s;
     frustration_timeline := frustration_timeline s;
     pain_points := pain_points s;
     recommended_actions := recommended_actions s; messages := messages s;
     evaluation := v; start_ts := start_ts s;
     step_count := step_count s; tool_calls := tool_calls s;
     tool_successes := tool_successes s |}.

Definition set_step_count (v : Z) (s : CallState) : CallState :=
  {| call_id := call_id s; raw_transcript := raw_transcript s;
     cleaned_transcript := cleaned_transcript s; utterances := utterances s;
     entities := entities s; summary := summary s; sentiment := sentiment s;
     frustration_timeline := frustration_timeline s;
     pain_points := pain_points s;
     recommended_actions := recommended_actions s; messages := messages s;
     evaluation := evaluation s; start_ts := start_ts s;
     step_count := v; tool_calls := tool_calls s;
     tool_successes := tool_successes s |}.

Definition set_tool_calls (v : Z) (s : CallState) : CallState :=
  {| call_id := call_id s; raw_transcript := raw_transcript s;
     cleaned_transcript := cleaned_transcript s; utterances := utterances s;
     entities := entities s; summary := summary s; sentiment := sentiment s;
     frustration_timeline := frustration_timeline s;
     pain_points := pain_points s;
     recommended_actions := recommended_actions s; messages := messages s;
     evaluation := evaluation s; start_ts := start_ts s;
     step_count := step_count s; tool_calls := v;
     tool_successes := tool_successes s |}.

Definition set_tool_successes (v : Z) (s : CallState) : CallState :=
  {| call_id := call_id s; raw_transcript := raw_transcript s;
     cleaned_transcript := cleaned_transcript s; utterances := utterances s;
     entities := entities s; summary := summary s; sentiment := sentiment s;
     frustration_timeline := frustration_timeline s;
     pain_points := pain_points s;
     recommended_actions := recommended_actions s; messages := messages s;
     evaluation := evaluation s; start_ts := start_ts s;
     step_count := step_count s; tool_calls := tool_calls s;
     tool_successes := v |}.

(** Long-term memory across calls.  The frequency tables are keyed by
    whatever hashable object the call state supplies. *)
Record MemoryState : Type := {
  pain_point_counts : list (pyval * Z);
  sentiment_counts : list (pyval * Z);
  product_issue_counts : list (pyval * Z);
  total_calls : Z;
  avg_faithfulness : Q;
  avg_coverage : Q;
  avg_consistency : Q
}.

(** [MemoryState()] *)
Definition new_MemoryState : MemoryState := {|
  pain_point_counts := [];
  sentiment_counts := [];
  product_issue_counts := [];
  total_calls := 0;
  avg_faithfulness := 0;
  avg_coverage := 0;
  avg_consistency := 0
|}.

Definition set_pain_point_counts (v : list (pyval * Z)) (m : MemoryState) : MemoryState :=
  {| pain_point_counts := v; sentiment_counts := sentiment_counts m;
     product_issue_counts := product_issue_counts m;
     total_calls := total_calls m; avg_faithfulness := avg_faithfulness m;
     avg_coverage := avg_coverage m; avg_consistency := avg_consistency m |}.

Definition set_sentiment_counts (v : list (pyval * Z)) (m : MemoryState) : MemoryState :=
  {| pain_point_counts := pain_point_counts m; sentiment_counts := v;
     product_issue_counts := product_issue_counts m;
     total_calls := total_calls m; avg_faithfulness := avg_faithfulness m;
     avg_coverage := avg_coverage m; avg_consistency := avg_consistency m |}.

Definition set_product_issue_counts (v : list (pyval * Z)) (m : MemoryState) : MemoryState :=
  {| pain_point_counts := pain_point_counts m;
     sentiment_counts := sentiment_counts m; product_issue_counts := v;
     total_calls := total_calls m; avg_faithfulness := avg_faithfulness m;
     avg_coverage := avg_coverage m; avg_consistency := avg_consistency m |}.

Definition set_total_calls (v : Z) (m : MemoryState) : MemoryState :=
  {| pain_point_counts := pain_point_counts m;
     sentiment_counts := sentiment_counts m;
     product_issue_counts := product_issue_counts m;
     total_calls := v; avg_faithfulness := avg_faithfulness m;
     avg_coverage := avg_coverage m; avg_consistency := avg_consistency m |}.

Definition set_avg_faithfulness (v : Q) (m : MemoryState) : MemoryState :=
  {| pain_point_counts := pain_point_counts m;
     sentiment_counts := sentiment_counts m;
     product_issue_counts := product_issue_counts m;
     total_calls := total_calls m; avg_faithfulness := v;
     avg_coverage := avg_coverage m; avg_consistency := avg_consistency m |}.

Definition set_avg_coverage (v : Q) (m : MemoryState) : MemoryState :=
  {| pain_point_counts := pain_point_counts m;
     sentiment_counts := sentiment_counts m;
     product_issue_counts := product_issue_counts m;
     total_calls := total_calls m; avg_faithfulness := avg_faithfulness m;
     avg_coverage := v; avg_consistency := avg_consistency m |}.

Definition set_avg_consistency (v : Q) (m : MemoryState) : MemoryState :=
  {| pain_point_counts := pain_point_counts m;
     sentiment_counts := sentiment_counts m;
     product_issue_counts := product_issue_counts m;
     total_calls := total_calls m; avg_faithfulness := avg_faithfulness m;
     avg_coverage := avg_coverage m; avg_consistency := v |}.

(* ================================================================== *)
(** * Mutation and exceptions                                          *)
(* ================================================================== *)

Module Effects.

Inductive outcome (A : Type) : Type :=
| Returned (a : A)
| Raised (e : exn).
Arguments Returned {A} a.
Arguments Raised {A} e.

(** What running a piece of code on a mutable object leaves behind:
    [writes], the value of the object after each assignment, oldest
    first; [final], its value at the end (also when the code raised);
    [out], the value returned or the exception raised. *)
Record run (S A : Type) : Type := {
  writes : list S;
  final : S;
  out : outcome A
}.
Arguments writes {S A} r.
Arguments final {S A} r.
Arguments out {S A} r.

Definition M (S A : Type) : Type := S -> run S A.

Definition ret {S A} (a : A) : M S A :=
  fun s => {| writes := []; final := s; out := Returned a |}.

Definition bind {S A B} (m : M S A) (k : A -> M S B) : M S B :=
  fun s =>
    let r := m s in
    match out r with
    | Returned a =>
        let r' := k a (final r) in
        {| writes := writes r ++ writes r'; final := final r'; out := out r' |}
    | Raised e => {| writes := writes r; final := final r; out := Raised e |}
    end.

(** Reading the object. *)
Definition get {S} : M S S :=
  fun s => {| writes := []; final := s; out := Returned s |}.

(** One assignment to the object. *)
Definition modify {S} (f : S -> S) : M S unit :=
  fun s => {| writes := [f s]; final := f s; out := Returned tt |}.

(** [raise e] *)
Definition raise {S A} (e : exn) : M S A :=
  fun s => {| writes := []; final := s; out := Raised e |}.

(** An expression that does not touch the object. *)
Definition lift {S A} (r : result A) : M S A :=
  match r with
  | inl e => raise e
  | inr a => ret a
  end.

(** [try: body  except Exception: handler].  The handler starts from the
    object as the body left it. *)
Definition try_except {S A} (body : M S A) (handler : exn -> M S A) : M S A :=
  fun s =>
    let r := body s in
    match out r with
    | Returned _ => r
    | Raised e =>
        let r' := handler e (final r) in
        {| writes := writes r ++ writes r'; final := final r'; out := out r' |}
    end.

Definition is_KeyError (e : exn) : bool :=
  match e with KeyError _ => true | _ => false end.

(** [try: body  except KeyError: handler]: any other exception goes on. *)
Definition try_except_KeyError {S A} (body : M S A) (handler : M S A) : M S A :=
  try_except body (fun e => if is_KeyError e then handler else raise e).

(** [for x in l: body(x)] *)
Fixpoint for_each {S A} (l : list A) (body : A -> M S unit) : M S unit :=
  match l with
  | [] => ret tt
  | x :: l' => bind (body x) (fun _ => for_each l' body)
  end.

End Effects.
Export Effects.

Declare Scope py_scope.
Delimit Scope py_scope with py.
Notation "x <- m ;; k" := (bind m (fun x => k))
  (at level 61, m at next level, right associativity) : py_scope.
Notation "m ;; k" := (bind m (fun _ => k))
  (at level 61, right associativity) : py_scope.
Local Open Scope py_scope.

(** [state.step_count += 1] and its siblings. *)
Definition incr_step_count : M CallState unit :=
  modify (fun s => set_step_count (step_count s + 1) s).

Definition incr_tool_calls : M CallState unit :=
  modify (fun s => set_tool_calls (tool_calls s + 1) s).

Definition incr_tool_successes : M CallState unit :=
  modify (fun s => set_tool_successes (tool_successes s + 1) s).

(* ================================================================== *)
(** * graph/a2a.py                                                     *)
(* ================================================================== *)

Definition send_message (from_agent to_agent msg_type : string)
    (payload : dict) : M CallState unit :=
  modify (fun state =>
    set_messages
      (messages state ++
         [{| m_from := from_agent; m_to := to_agent;
             m_type := msg_type; m_payload := payload |}])
      state).

Definition addressed_to (agent_name : string) (m : Message) : bool :=
  String.eqb (m_to m) agent_name || String.eqb (m_to m) "any".

Definition get_messages_for_agent (agent_name : string)
    (msg_type : option string) : M CallState (list Message) :=
  state <- get ;;
  let msgs := filter (addressed_to agent_name) (messages state) in
  let msgs :=
    match msg_type with
    | Some t => filter (fun m => String.eqb (m_type m) t) msgs
    | None => msgs
    end in
  ret msgs.

(** [msgs[-1].get("payload", {}) if msgs else {}] *)
Definition latest_payload (msgs : list Message) : dict :=
  match rev msgs with
  | m :: _ => m_payload m
  | [] => []
  end.

(* ================================================================== *)
(** * graph/tools.py                                                   *)
(* ================================================================== *)

(** What a prompt is built from.  The wording of the prompts is fixed
    text around these values, so the text handed to the language model is
    a function of them; each constructor is one [_build_*_prompt] (for the
    entities agent, the f-string in the agent itself). *)
Inductive prompt : Type :=
| EntitiesPrompt (text : string)
| SummaryPrompt (transcript : string) (entities : dict) (entity_summary : dict)
| SentimentPrompt (transcript summary : string)
| FrustrationPrompt (utterances : list string)
| PainPointPrompt (transcript summary : string) (entities : dict)
    (frustration_summary : dict)
| ActionsPrompt (summary sentiment : string) (pain_points : list pyval)
    (entities : dict)
| EvalPrompt (transcript summary sentiment : string) (entities : dict)
    (pain_points : list pyval) (actions : list string).

(** [llm.chat.completions.create(...).choices[0].message.content]: the
    text of the reply, or [None] when anything on that path raises. *)
Definition LLMClient : Type := prompt -> option string.

(** [cleaner.clean_transcript(text)], [None] when it raises. *)
Definition TranscriptCleaner : Type := string -> option string.

(** [loader.load()]; no agent calls it. *)
Definition DataLoader : Type := unit -> pyval.

Record Tools : Type := {
  llm : option LLMClient;
  cleaner : option TranscriptCleaner;
  data_loader : option DataLoader
}.

Definition get_llm (t : Tools) : option LLMClient := llm t.
Definition get_cleaner (t : Tools) : option TranscriptCleaner := cleaner t.
Definition get_data_loader (t : Tools) : option DataLoader := data_loader t.

Definition default_tools (llm_client : option LLMClient)
    (cleaner : option TranscriptCleaner)
    (data_loader : option DataLoader) : Tools :=
  {| llm := llm_client; cleaner := cleaner; data_loader := data_loader |}.

(** [tools.get_llm() if tools else None] *)
Definition llm_of (tools : option Tools) : option LLMClient :=
  match tools with
  | Some t => get_llm t
  | None => None
  end.

(** The result of an external call inside the monad. *)
Definition of_capability {S} (r : option string) : M S string :=
  match r with
  | Some text => ret text
  | None => raise CapabilityError
  end.

(** [completion = llm.chat.completions.create(...)] followed by
    [completion.choices[0].message.content.strip()]. *)
Definition chat (client : LLMClient) (p : prompt) : M CallState string :=
  content <- of_capability (client p) ;;
  ret (strip content).

(** [a or b] on strings. *)
Definition str_or (a b : string) : string :=
  if is_empty a then b else a.

(** [call_state.cleaned_transcript or call_state.raw_transcript] (a
    further [or ""] changes nothing). *)
Definition transcript_of (s : CallState) : string :=
  str_or (cleaned_transcript s) (raw_transcript s).

(* ================================================================== *)
(** * eval/metrics.py                                                  *)
(* ================================================================== *)

Section Metrics.
Context {lib : PyLib}.

(** [now] is the value [time.time()] returns inside the function. *)
Definition compute_basic_eval (now : Q) : M CallState dict :=
  call_state <- get ;;
  let tool_calls := tool_calls call_state in
  let tool_successes := tool_successes call_state in
  let tool_success_rate :=
    if tool_calls =? 0 then 1%Q
    else (inject_Z tool_successes / inject_Z tool_calls)%Q in
  let elapsed := (now - start_ts call_state)%Q in
  let duration_sec := if Qle_bool elapsed 0 then 0%Q else elapsed in
  ret [("tool_calls", PInt tool_calls);
       ("tool_successes", PInt tool_successes);
       ("tool_success_rate", PFloat tool_success_rate);
       ("step_count", PInt (step_count call_state));
       ("duration_sec", PFloat duration_sec)].

(** [table.get(key, 0)] *)
Fixpoint count_get (key : pyval) (table : list (pyval * Z)) : Z :=
  match table with
  | [] => 0
  | (k, n) :: table' => if atom_eqb key k then n else count_get key table'
  end.

(** [table[key] = n] *)
Fixpoint count_set (key : pyval) (n : Z) (table : list (pyval * Z)) : list (pyval * Z) :=
  match table with
  | [] => [(key, n)]
  | (k, n') :: table' =>
      if atom_eqb key k then (k, n) :: table'
      else (k, n') :: count_set key n table'
  end.

(** [table[key] = table.get(key, 0) + 1]; hashing the key comes first. *)
Definition count_bump (key : pyval) (table : list (pyval * Z)) : result (list (pyval * Z)) :=
  if hashable key then ok (count_set key (count_get key table + 1) table)
  else throw TypeError.

(** The helper local to [update_memory_from_call]. *)
Definition _update_running_avg (current_avg new_value : Q) (count : Z) : result Q :=
  if count =? 0 then throw ZeroDivisionError
  else ok (current_avg + (new_value - current_avg) / inject_Z count)%Q.

(** One of the three blocks [if key in eval_data: memory.avg = ...]. *)
Definition fold_score (key : string) (eval_data : dict) (n : Z)
    (read : MemoryState -> Q) (write : Q -> MemoryState -> MemoryState)
    : M MemoryState unit :=
  match dict_get key eval_data with
  | Some v =>
      memory <- get ;;
      new_value <- lift (py_float v) ;;
      avg <- lift (_update_running_avg (read memory) new_value n) ;;
      modify (write avg)
  | None => ret tt
  end.

Definition update_memory_from_call (call_state : CallState) : M MemoryState unit :=
  modify (fun memory => set_total_calls (total_calls memory + 1) memory) ;;
  memory <- get ;;
  let n := total_calls memory in
  let sentiment := str_or (sentiment call_state) "unknown" in
  counts <- lift (count_bump (PStr sentiment) (sentiment_counts memory)) ;;
  modify (set_sentiment_counts counts) ;;
  for_each (pain_points call_state) (fun p =>
    memory <- get ;;
    counts <- lift (count_bump p (pain_point_counts memory)) ;;
    modify (set_pain_point_counts counts)) ;;
  let entities := entities call_state in
  let product := dict_get_default "product" PNone entities in
  (if truthy product then
     memory <- get ;;
     counts <- lift (count_bump product (product_issue_counts memory)) ;;
     modify (set_product_issue_counts counts)
   else ret tt) ;;
  let eval_data := evaluation call_state in
  fold_score "faithfulness_score" eval_data n avg_faithfulness set_avg_faithfulness ;;
  fold_score "coverage_score" eval_data n avg_coverage set_avg_coverage ;;
  fold_score "consistency_score" eval_data n avg_consistency set_avg_consistency.

End Metrics.

(* ================================================================== *)
(** * agents/cleaning.py                                               *)
(* ================================================================== *)

Definition _fallback_clean (text : string) : string :=
  if is_empty text then ""
  else
    let text := strip (collapse_ws text) in
    remove_tags ["[noise]"; "[music]"; "[silence]"] text.

Definition _split_utterances (text : string) : list string :=
  if is_empty text then []
  else
    let parts := split_sentences text in
    map strip (filter (fun p => negb (is_empty (strip p))) parts).

Definition cleaning_agent (tools : option Tools) : M CallState unit :=
  call_state <- get ;;
  let raw_text := raw_transcript call_state in
  let cleaner := match tools with Some t => get_cleaner t | None => None end in
  cleaned <-
    match cleaner with
    | Some clean_transcript =>
        try_except
          (incr_tool_calls ;;
           cleaned <- of_capability (clean_transcript raw_text) ;;
           incr_tool_successes ;;
           ret cleaned)
          (fun _ => ret (_fallback_clean raw_text))
    | None => ret (_fallback_clean raw_text)
    end ;;
  modify (set_cleaned_transcript cleaned) ;;
  modify (set_utterances (_split_utterances cleaned)) ;;
  incr_step_count.

(* ================================================================== *)
(** * agents/entities.py                                               *)
(* ================================================================== *)

Definition PRODUCT_KEYWORDS : list string :=
  ["credit card"; "debit card"; "checking account"; "savings account";
   "mobile app"; "website"; "online banking"; "loan"; "mortgage"].

Definition ISSUE_KEYWORDS : list string :=
  ["refund"; "chargeback"; "login"; "password"; "declined"; "blocked";
   "fee"; "overcharged"; "statement"; "transfer"; "fraud"; "dispute"].

Definition opt_str (o : option string) : pyval :=
  match o with
  | Some s => PStr s
  | None => PNone
  end.

Definition rule_based_entities (text : string) : dict :=
  let text_lower := lower text in
  let product := first_keyword PRODUCT_KEYWORDS text_lower in
  let issue := first_keyword ISSUE_KEYWORDS text_lower in
  let priority := "normal" in
  let priority :=
    if search_cancel_account text_lower then "high" else priority in
  let priority :=
    if contains_any ["supervisor"; "manager"; "third time"; "fourth time"]
         text_lower
    then "high" else priority in
  [("customer_profile", PNone);
   ("product", opt_str product);
   ("issue", opt_str issue);
   ("context", PNone);
   ("priority", PStr priority);
   ("other_tags", PList [])].

Section Agents.
Context {lib : PyLib}.

Definition entities_agent (tools : option Tools) : M CallState unit :=
  call_state <- get ;;
  let text := transcript_of call_state in
  let llm := llm_of tools in
  entities <-
    match llm with
    | Some client =>
        try_except
          (let prompt := EntitiesPrompt text in
           incr_tool_calls ;;
           raw <- chat client prompt ;;
           incr_tool_successes ;;
           try_except
             (lift (py_json_loads raw))
             (fun _ => ret (PDict (rule_based_entities text))))
          (fun _ => ret (PDict (rule_based_entities text)))
    | None => ret (PDict (rule_based_entities text))
    end ;;
  let entities :=
    match entities with
    | PDict d => d
    | other => [("raw_entities", other)]
    end in
  modify (set_entities entities) ;;
  let payload :=
    [("product", dict_get_default "product" PNone entities);
     ("issue", dict_get_default "issue" PNone entities);
     ("priority", dict_get_default "priority" PNone entities);
     ("tags", dict_get_default "other_tags" (PList []) entities)] in
  send_message "entities" "summarization" "entity_summary" payload ;;
  incr_step_count.

(* ================================================================== *)
(** * agents/summarization.py                                          *)
(* ================================================================== *)

Definition _build_summary_prompt (call_state : CallState)
    (entity_summary : dict) : prompt :=
  SummaryPrompt (transcript_of call_state) (entities call_state) entity_summary.

Definition NO_TRANSCRIPT : string :=
  "No transcript content was available to summarize.".

Definition _rule_based_summary (call_state : CallState) (max_chars : Z) : string :=
  let text := transcript_of call_state in
  if is_empty (strip text) then NO_TRANSCRIPT
  else textwrap_shorten text max_chars "...".

Definition summarization_agent (tools : option Tools) : M CallState unit :=
  call_state <- get ;;
  if is_empty (transcript_of call_state) then
    modify (set_summary NO_TRANSCRIPT) ;;
    incr_step_count
  else
    let llm := llm_of tools in
    msgs <- get_messages_for_agent "summarization" (Some "entity_summary") ;;
    let entity_summary := latest_payload msgs in
    summary_text <-
      match llm with
      | Some client =>
          try_except
            (call_state <- get ;;
             let prompt := _build_summary_prompt call_state entity_summary in
             incr_tool_calls ;;
             summary_text <- chat client prompt ;;
             incr_tool_successes ;;
             ret (Some summary_text))
            (fun _ => ret None)
      | None => ret None
      end ;;
    call_state <- get ;;
    let summary_text :=
      match summary_text with
      | Some text =>
          if is_empty text then _rule_based_summary call_state 500 else text
      | None => _rule_based_summary call_state 500
      end in
    modify (set_summary summary_text) ;;
    incr_step_count.

(* ================================================================== *)
(** * agents/sentiment.py                                              *)
(* ================================================================== *)

Definition ALLOWED_LABELS : list string :=
  ["very_negative"; "negative"; "neutral"; "positive"; "very_positive";
   "mixed"; "unknown"].

Definition NEGATIVE_HINTS : list string :=
  ["angry"; "frustrated"; "upset"; "mad"; "cancel"; "close my account";
   "this is the third time"; "this is the second time"; "unacceptable";
   "disappointed"; "complaint"; "not happy"; "terrible"; "awful"; "worst"].

Definition POSITIVE_HINTS : list string :=
  ["thank you"; "thanks a lot"; "appreciate"; "great"; "awesome";
   "helpful"; "resolved"; "perfect"; "excellent"].

(** [x in l] for strings. *)
Definition str_in (x : string) (l : list string) : bool :=
  existsb (String.eqb x) l.

(** [sum(1 for w in hints if w in t)] *)
Definition count_hits (hints : list string) (t : string) : Z :=
  Z.of_nat (List.length (filter (fun w => contains w t) hints)).

Definition rule_based_sentiment (text : string) : string :=
  if is_empty text then "unknown"
  else
    let t := lower text in
    let neg_hits := count_hits NEGATIVE_HINTS t in
    let pos_hits := count_hits POSITIVE_HINTS t in
    if (pos_hits <? neg_hits) && (2 <=? neg_hits) then "very_negative"
    else if (pos_hits <? neg_hits) && (1 <=? neg_hits) then "negative"
    else if (neg_hits <? pos_hits) && (2 <=? pos_hits) then "very_positive"
    else if (neg_hits <? pos_hits) && (1 <=? pos_hits) then "positive"
    else if (0 <? pos_hits) && (0 <? neg_hits) then "mixed"
    else "neutral".

Definition _build_sentiment_prompt (call_state : CallState) : prompt :=
  SentimentPrompt (transcript_of call_state) (summary call_state).

Definition _normalize_label (label : string) : string :=
  if is_empty label then "unknown"
  else
    let first := lower (first_token (strip label)) in
    let first := keep_label_chars first in
    if str_in first ALLOWED_LABELS then first else "unknown".

Definition sentiment_agent (tools : option Tools) : M CallState unit :=
  call_state <- get ;;
  let text := transcript_of call_state in
  if is_empty (strip text) then
    modify (set_sentiment "unknown") ;;
    incr_step_count
  else
    let llm := llm_of tools in
    sentiment_label <-
      match llm with
      | Some client =>
          try_except
            (call_state <- get ;;
             let prompt := _build_sentiment_prompt call_state in
             incr_tool_calls ;;
             raw_label <- chat client prompt ;;
             incr_tool_successes ;;
             ret (Some (_normalize_label raw_label)))
            (fun _ => ret None)
      | None => ret None
      end ;;
    let sentiment_label :=
      match sentiment_label with
      | Some label =>
          if is_empty label then rule_based_sentiment text else label
      | None => rule_based_sentiment text
      end in
    modify (set_sentiment sentiment_label) ;;
    incr_step_count ;;
    send_message "sentiment" "actions" "sentiment_signal"
      [("sentiment", PStr sentiment_label)].

(* ================================================================== *)
(** * agents/frustration_loop.py                                       *)
(* ================================================================== *)

Definition FRUSTRATION_LABELS : list string := ["low"; "medium"; "high"].

(** The argument is annotated [str]; [utterance.lower()] raises on
    anything else. *)
Definition _rule_based_frustration (utterance : pyval) : result string :=
  rbind (py_lower utterance) (fun u =>
  let high_triggers :=
    ["this is the third time"; "this is the second time";
     "i am very frustrated"; "unacceptable"; "i want to cancel";
     "close my account"; "worst experience"] in
  let medium_triggers :=
    ["not happy"; "disappointed"; "still not working"; "nobody helped me";
     "already tried"; "taking too long"] in
  if contains_any high_triggers u then ok "high"
  else if contains_any medium_triggers u then ok "medium"
  else ok "low").

Definition _build_frustration_prompt (utterances : list string) : prompt :=
  FrustrationPrompt utterances.

(** [counts] is the triple of the counters for low, medium and high. *)
Fixpoint count_levels (timeline : list dict) (counts : Z * Z * Z) : result (Z * Z * Z) :=
  match timeline with
  | [] => ok counts
  | item :: rest =>
      rbind (py_lower (dict_get_default "level" (PStr "low") item)) (fun lvl =>
      let '(low, medium, high) := counts in
      let counts :=
        if String.eqb lvl "low" then (low + 1, medium, high)
        else if String.eqb lvl "medium" then (low, medium + 1, high)
        else if String.eqb lvl "high" then (low, medium, high + 1)
        else counts in
      count_levels rest counts)
  end.

Definition _overall_level (timeline : list dict) : result string :=
  rbind (count_levels timeline (0, 0, 0)) (fun counts =>
  let '(low, medium, high) := counts in
  if 0 <? high then ok "high"
  else if 0 <? medium then ok "medium"
  else ok "low").

(** The body of the loop [for item in parsed] of the language-model
    path: one sanitized entry of the timeline. *)
Definition sanitize_item (item : pyval) : result dict :=
  rbind (py_get item "level" PNone) (fun level =>
  rbind (py_lower (if truthy level then level else PStr "")) (fun lvl =>
  rbind (if str_in lvl FRUSTRATION_LABELS then ok lvl
         else rbind (py_get item "utterance" (PStr ""))
                _rule_based_frustration) (fun lvl =>
  rbind (py_get item "index" (PInt 0)) (fun index =>
  rbind (py_int index) (fun index =>
  rbind (py_get item "utterance" (PStr "")) (fun utterance =>
  ok [("index", PInt index); ("utterance", utterance); ("level", PStr lvl)])))))).

Fixpoint sanitize_items (parsed : list pyval) : result (list dict) :=
  match parsed with
  | [] => ok []
  | item :: rest =>
      rbind (sanitize_item item) (fun entry =>
      rbind (sanitize_items rest) (fun entries => ok (entry :: entries)))
  end.

(** The comprehension of the fallback path; [i] is the index of the
    first utterance of [utterances]. *)
Fixpoint fallback_timeline (i : Z) (utterances : list string) : result (list dict) :=
  match utterances with
  | [] => ok []
  | utt :: rest =>
      rbind (_rule_based_frustration (PStr utt)) (fun lvl =>
      rbind (fallback_timeline (i + 1) rest) (fun entries =>
      ok ([("index", PInt (i + 1)); ("utterance", PStr utt);
           ("level", PStr lvl)] :: entries)))
  end.

(** [[item for item in timeline if item["level"] == "high"]] *)
Fixpoint high_segments_of (timeline : list dict) : result (list dict) :=
  match timeline with
  | [] => ok []
  | item :: rest =>
      match dict_get "level" item with
      | None => throw (KeyError "level")
      | Some lvl =>
          rbind (high_segments_of rest) (fun highs =>
          ok (if atom_eqb lvl (PStr "high") then item :: highs else highs))
      end
  end.

Definition frustration_loop_agent (tools : option Tools) : M CallState unit :=
  call_state <- get ;;
  let utterances := utterances call_state in
  let utterances :=
    match utterances with
    | [] =>
        let text := transcript_of call_state in
        if is_empty text then [] else [text]
    | _ => utterances
    end in
  match utterances with
  | [] =>
      modify (set_frustration_timeline []) ;;
      incr_step_count
  | _ =>
      let llm := llm_of tools in
      timeline <-
        match llm with
        | Some client =>
            try_except
              (let prompt := _build_frustration_prompt utterances in
               incr_tool_calls ;;
               raw <- chat client prompt ;;
               incr_tool_successes ;;
               parsed <- lift (py_json_loads raw) ;;
               match parsed with
               | PList items => lift (sanitize_items items)
               | _ => ret []
               end)
              (fun _ => ret [])
        | None => ret []
        end ;;
      timeline <-
        match timeline with
        | [] => lift (fallback_timeline 0 utterances)
        | _ => ret timeline
        end ;;
      modify (set_frustration_timeline timeline) ;;
      incr_step_count ;;
      overall <- lift (_overall_level timeline) ;;
      high_segments <- lift (high_segments_of timeline) ;;
      send_message "frustration_loop" "pain_points" "frustration_summary"
        [("overall_level", PStr overall);
         ("high_segments", PList (map PDict high_segments));
         ("timeline_length", PInt (Z.of_nat (List.length timeline)))]
  end.

(* ================================================================== *)
(** * agents/pain_points.py                                            *)
(* ================================================================== *)

(** The loop that removes duplicates while keeping the order; testing
    [p not in seen] hashes [p]. *)
Fixpoint dedupe (seen : list pyval) (items : list pyval) : result (list pyval) :=
  match items with
  | [] => ok []
  | p :: rest =>
      if negb (hashable p) then throw TypeError
      else if existsb (atom_eqb p) seen then dedupe seen rest
      else rbind (dedupe (p :: seen) rest) (fun deduped => ok (p :: deduped))
  end.

Definition _rule_based_pain_points : M CallState (list pyval) :=
  call_state <- get ;;
  let entities := entities call_state in
  let text := lower (transcript_of call_state) in
  let issue := dict_get_default "issue" PNone entities in
  let product := dict_get_default "product" PNone entities in
  let pain_points :=
    if truthy issue then
      if truthy product
      then [PStr (py_str issue ++ " related to " ++ py_str product)%string]
      else [issue]
    else [] in
  let pain_points :=
    if contains "refund" text || contains "chargeback" text
    then pain_points ++ [PStr "refund or chargeback delay"]
    else pain_points in
  let pain_points :=
    if contains "login" text || contains "password" text
    then pain_points ++ [PStr "login or authentication issues"]
    else pain_points in
  let pain_points :=
    if contains "fee" text || contains "overcharged" text
    then pain_points ++ [PStr "unexpected fees or overcharging"]
    else pain_points in
  msgs <- get_messages_for_agent "pain_points" (Some "frustration_summary") ;;
  let pain_points :=
    match msgs with
    | [] => pain_points
    | _ =>
        let summary := latest_payload msgs in
        if atom_eqb (dict_get_default "overall_level" PNone summary) (PStr "high")
        then pain_points ++
               [PStr "customer is highly frustrated after multiple attempts"]
        else pain_points
    end in
  deduped <- lift (dedupe [] pain_points) ;;
  match deduped with
  | [] => ret [PStr "unclear primary pain point"]
  | _ => ret deduped
  end.

Definition _build_pain_point_prompt (call_state : CallState)
    (frustration_summary : dict) : prompt :=
  PainPointPrompt (transcript_of call_state) (summary call_state)
    (entities call_state) frustration_summary.

(** [[str(p).strip() for p in parsed if str(p).strip()]] *)
Definition stripped_strings (parsed : list pyval) : list string :=
  map (fun p => strip (py_str p))
    (filter (fun p => negb (is_empty (strip (py_str p)))) parsed).

Definition pain_points_agent (tools : option Tools) : M CallState unit :=
  let llm := llm_of tools in
  msgs <- get_messages_for_agent "pain_points" (Some "frustration_summary") ;;
  let frustration_summary := latest_payload msgs in
  pain_points <-
    match llm with
    | Some client =>
        try_except
          (call_state <- get ;;
           let prompt := _build_pain_point_prompt call_state frustration_summary in
           incr_tool_calls ;;
           content <- chat client prompt ;;
           incr_tool_successes ;;
           parsed <- lift (py_json_loads content) ;;
           match parsed with
           | PList items => ret (Some (map PStr (stripped_strings items)))
           | _ => ret None
           end)
          (fun _ => ret None)
    | None => ret None
    end ;;
  pain_points <-
    match pain_points with
    | Some (p :: ps) => ret (p :: ps)
    | _ => _rule_based_pain_points
    end ;;
  modify (set_pain_points pain_points) ;;
  incr_step_count.

(* ================================================================== *)
(** * agents/actions.py                                                *)
(* ================================================================== *)

(** The body of the loop [for p in pain_points]: the actions one pain
    point adds. *)
Definition actions_for (p : pyval) : result (list string) :=
  rbind (py_lower p) (fun pl =>
  if contains "refund" pl || contains "chargeback" pl then
    ok ["Check refund/chargeback status and expedite if delayed.";
        "Provide clear timeline and confirmation email for the refund."]
  else if contains "login" pl || contains "authentication" pl then
    ok ["Walk customer through login reset or credential recovery.";
        "Check for account lock or security flags and resolve."]
  else if contains "fee" pl || contains "overcharged" pl then
    ok ["Review recent charges and waive fees if misapplied."]
  else if contains "repeated unresolved contacts" pl then
    ok ["Escalate to Tier-2 support with full case context."]
  else
    ok [("Investigate and follow standard playbook for: " ++ py_str p)%string]).

Fixpoint actions_for_all (pain_points : list pyval) : result (list string) :=
  match pain_points with
  | [] => ok []
  | p :: rest =>
      rbind (actions_for p) (fun actions =>
      rbind (actions_for_all rest) (fun more => ok (actions ++ more)))
  end.

(** The loop that removes duplicate actions (strings are hashable). *)
Fixpoint dedupe_str (seen : list string) (items : list string) : list string :=
  match items with
  | [] => []
  | a :: rest =>
      if str_in a seen then dedupe_str seen rest
      else a :: dedupe_str (a :: seen) rest
  end.

Definition _rule_based_actions (call_state : CallState) : result (list string) :=
  let sentiment := str_or (sentiment call_state) "neutral" in
  let pain_points := pain_points call_state in
  rbind (actions_for_all pain_points) (fun actions =>
  let actions :=
    if str_in sentiment ["very_negative"; "negative"]
    then actions ++
           ["Offer apology and consider goodwill credit or compensation."]
    else actions in
  let deduped := dedupe_str [] actions in
  match deduped with
  | [] => ok ["Follow standard support procedure and update CRM with call summary."]
  | _ => ok deduped
  end).

Definition _build_actions_prompt (call_state : CallState) : prompt :=
  ActionsPrompt (summary call_state) (sentiment call_state)
    (pain_points call_state) (entities call_state).

Definition actions_agent (tools : option Tools) : M CallState unit :=
  let llm := llm_of tools in
  actions <-
    match llm with
    | Some client =>
        try_except
          (call_state <- get ;;
           let prompt := _build_actions_prompt call_state in
           incr_tool_calls ;;
           content <- chat client prompt ;;
           incr_tool_successes ;;
           parsed <- lift (py_json_loads content) ;;
           match parsed with
           | PList items => ret (Some (stripped_strings items))
           | _ => ret None
           end)
          (fun _ => ret None)
    | None => ret None
    end ;;
  actions <-
    match actions with
    | Some (a :: more) => ret (a :: more)
    | _ => call_state <- get ;; lift (_rule_based_actions call_state)
    end ;;
  modify (set_recommended_actions actions) ;;
  incr_step_count.

(* ================================================================== *)
(** * agents/evaluation.py                                             *)
(* ================================================================== *)

Definition _build_eval_prompt (call_state : CallState) : prompt :=
  EvalPrompt (transcript_of call_state) (summary call_state)
    (sentiment call_state) (entities call_state) (pain_points call_state)
    (recommended_actions call_state).

Definition _default_llm_scores : dict :=
  [("faithfulness_score", PFloat 1);
   ("coverage_score", PFloat 1);
   ("consistency_score", PFloat 1);
   ("notes", PStr "LLM evaluation not available; using default scores.")].

(** [if key not in parsed: parsed[key] = default], on whatever object
    [json.loads] returned: membership is a key test on a dictionary, an
    element test on a list, a substring test on a string, and a
    [TypeError] on a number, a boolean or [None]; item assignment with a
    string key works on a dictionary only. *)
Definition ensure_key (key : string) (default : pyval) (parsed : pyval) : result pyval :=
  match parsed with
  | PDict d =>
      if dict_has key d then ok parsed else ok (PDict (dict_set key default d))
  | PList l =>
      if existsb (atom_eqb (PStr key)) l then ok parsed else throw TypeError
  | PStr s =>
      if contains key s then ok parsed else throw TypeError
  | PNone | PBool _ | PInt _ | PFloat _ => throw TypeError
  end.

(** The loop over the three score keys, then the [notes] key. *)
Definition fill_missing_scores (llm_scores : dict) (parsed : pyval) : result pyval :=
  rbind (ensure_key "faithfulness_score"
           (dict_get_default "faithfulness_score" PNone llm_scores) parsed)
    (fun parsed =>
  rbind (ensure_key "coverage_score"
           (dict_get_default "coverage_score" PNone llm_scores) parsed)
    (fun parsed =>
  rbind (ensure_key "consistency_score"
           (dict_get_default "consistency_score" PNone llm_scores) parsed)
    (fun parsed =>
  ensure_key "notes" (PStr "") parsed))).

(** [float(llm_scores.get(key, 1.0))] *)
Definition score_of (llm_scores : pyval) (key : string) : result Q :=
  rbind (py_get llm_scores key (PFloat 1)) py_float.

(** [now] is the clock reading taken by [compute_basic_eval]. *)
Definition evaluation_agent (now : Q) (tools : option Tools) : M CallState unit :=
  let llm_scores := PDict _default_llm_scores in
  let llm := llm_of tools in
  llm_scores <-
    match llm with
    | Some client =>
        try_except
          (call_state <- get ;;
           let prompt := _build_eval_prompt call_state in
           incr_tool_calls ;;
           raw <- chat client prompt ;;
           incr_tool_successes ;;
           parsed <- lift (py_json_loads raw) ;;
           lift (fill_missing_scores _default_llm_scores parsed))
          (fun _ => ret (PDict _default_llm_scores))
    | None => ret llm_scores
    end ;;
  basic_eval <- compute_basic_eval now ;;
  faithfulness <- lift (score_of llm_scores "faithfulness_score") ;;
  coverage <- lift (score_of llm_scores "coverage_score") ;;
  consistency <- lift (score_of llm_scores "consistency_score") ;;
  notes <- lift (py_get llm_scores "notes" (PStr "")) ;;
  modify (set_evaluation
            (dict_merge basic_eval
               [("faithfulness_score", PFloat faithfulness);
                ("coverage_score", PFloat coverage);
                ("consistency_score", PFloat consistency);
                ("eval_notes", notes)])) ;;
  incr_step_count.

(* ================================================================== *)
(** * graph/agents.py                                                  *)
(* ================================================================== *)

(** Each agent takes the call state (threaded by the monad) and the
    tools, and returns the call state it was given, updated in place. *)
Definition AgentFn : Type := option Tools -> M CallState unit.

Definition Registry : Type := list (string * AgentFn).

Definition AGENT_REGISTRY (now : Q) : Registry :=
  [("cleaning", cleaning_agent);
   ("entities", entities_agent);
   ("summarization", summarization_agent);
   ("sentiment", sentiment_agent);
   ("frustration_loop", frustration_loop_agent);
   ("pain_points", pain_points_agent);
   ("actions", actions_agent);
   ("evaluation", evaluation_agent now)].

Definition AGENT_EXECUTION_ORDER : list string :=
  ["cleaning"; "entities"; "summarization"; "sentiment"; "frustration_loop";
   "pain_points"; "actions"].

(** [registry[name]] *)
Fixpoint registry_lookup (registry : Registry) (name : string) : option AgentFn :=
  match registry with
  | [] => None
  | (n, f) :: registry' =>
      if String.eqb name n then Some f else registry_lookup registry' name
  end.

(** [get_agent], over the registry it reads. *)
Definition get_agent_in (registry : Registry) (name : string) : result AgentFn :=
  match registry_lookup registry name with
  | Some agent_fn => ok agent_fn
  | None => throw (KeyError name)
  end.

Definition get_agent (now : Q) (name : string) : result AgentFn :=
  get_agent_in (AGENT_REGISTRY now) name.

(* ================================================================== *)
(** * graph/supervisor.py                                              *)
(* ================================================================== *)

(** Steps 3 and 4 of [run_pipeline], over the registry and the order the
    module reads: the agents in order, then the evaluation agent if the
    registry has one. *)
Definition run_agents (registry : Registry) (order : list string)
    (tools : Tools) : M CallState unit :=
  for_each order (fun agent_name =>
    agent_fn <- lift (get_agent_in registry agent_name) ;;
    agent_fn (Some tools)) ;;
  try_except_KeyError
    (eval_fn <- lift (get_agent_in registry "evaluation") ;;
     eval_fn (Some tools))
    (ret tt).

(** The call state along a run: [t0] is the clock reading at the creation
    of the call state. *)
Definition pipeline_run (registry : Registry) (order : list string)
    (raw_transcript : string) (tools : Tools) (t0 : Q) : run CallState unit :=
  run_agents registry order tools (new_CallState raw_transcript t0).

(** [run_pipeline] over the registry, the order and the global memory it
    reads: what it returns or raises, and the global memory afterwards. *)
Definition run_pipeline_in (registry : Registry) (order : list string)
    (raw_transcript : string) (llm_client : option LLMClient)
    (cleaner : option TranscriptCleaner) (data_loader : option DataLoader)
    (update_memory : bool) (t0 : Q) (GLOBAL_MEMORY : MemoryState)
    : outcome CallState * MemoryState :=
  let tools := default_tools llm_client cleaner data_loader in
  let r := pipeline_run registry order raw_transcript tools t0 in
  match out r with
  | Raised e => (Raised e, GLOBAL_MEMORY)
  | Returned _ =>
      let call_state := final r in
      if update_memory then
        let u := update_memory_from_call call_state GLOBAL_MEMORY in
        match out u with
        | Raised e => (Raised e, final u)
        | Returned _ => (Returned call_state, final u)
        end
      else (Returned call_state, GLOBAL_MEMORY)
  end.

(** [run_pipeline]; [t0] and [now] are the two readings of the clock, at
    the creation of the call state and in the evaluation agent. *)
Definition run_pipeline (now : Q) (raw_transcript : string)
    (llm_client : option LLMClient) (cleaner : option TranscriptCleaner)
    (data_loader : option DataLoader) (update_memory : bool)
    (t0 : Q) (GLOBAL_MEMORY : MemoryState) : outcome CallState * MemoryState :=
  run_pipeline_in (AGENT_REGISTRY now) AGENT_EXECUTION_ORDER raw_transcript
    llm_client cleaner data_loader update_memory t0 GLOBAL_MEMORY.

End Agents.

(* ================================================================== *)
(** * app.py: the transcript of a row                                  *)
(* ================================================================== *)

(** A row of the calls table ([pandas.Series]): its cells in column
    order, each with its column label.  A label may occur more than
    once. *)
Definition Row : Type := list (string * pyval).

(** The cells of [row] that carry the label [col].  [col in row] holds
    when there is one at least; [row[col]] is the cell when there is
    exactly one, and a [pandas.Series] of the cells, which is not a
    [str], when there are several. *)
Definition cells_at (col : string) (row : Row) : list pyval :=
  map snd (filter (fun cell => String.eqb (fst cell) col) row).

(** The first loop: the preferred columns, in order. *)
Fixpoint first_str_column (row : Row) (cols : list string) : option string :=
  match cols with
  | [] => None
  | col :: rest =>
      match cells_at col row with
      | [PStr text] => Some text
      | _ => first_str_column row rest
      end
  end.

(** The second loop: [row.values], in order. *)
Fixpoint first_str_value (values : list pyval) : option string :=
  match values with
  | [] => None
  | PStr text :: _ => Some text
  | _ :: rest => first_str_value rest
  end.

Definition get_transcript_from_row (row : Row) : string :=
  match first_str_column row ["transcript"; "text"; "call_text"; "utterance"] with
  | Some text => text
  | None =>
      match first_str_value (map snd row) with
      | Some text => text
      | None => ""
      end
  end.

(* ================================================================== *)
(** * A standard library for the examples                              *)
(* ================================================================== *)

(** A standard library for the worked examples: [json.loads] on the
    three reply texts the examples use (any other text is taken as one
    that does not parse), and the other functions, which the examples
    never reach, as the identity or a constant.  The texts are
    [{"faithfulness_score": null}], [{"issue": ["login"]}] and
    [not json]. *)
Definition NULL_SCORE_REPLY : string :=
  "{" ++ dq ++ "faithfulness_score" ++ dq ++ ": null}".

Definition ISSUE_LIST_REPLY : string :=
  "{" ++ dq ++ "issue" ++ dq ++ ": [" ++ dq ++ "login" ++ dq ++ "]}".

Definition NOT_JSON_REPLY : string := "not json".

#[local] Instance example_lib : PyLib := {|
  json_loads := fun s =>
    if String.eqb s NULL_SCORE_REPLY
    then Some (PDict [("faithfulness_score", PNone)])
    else if String.eqb s ISSUE_LIST_REPLY
    then Some (PDict [("issue", PList [PStr "login"])])
    else None;
  py_repr := fun _ => "";
  float_of_str := fun _ => None;
  int_of_str := fun _ => None;
  textwrap_shorten := fun text _ _ => text
|}.

(** A language model that gives the same reply to every prompt. *)
Definition constant_llm (reply : string) : LLMClient := fun _ => Some reply.

(** A reply that gives one score and omits the others:
    [{"coverage_score": 0.5}]. *)
Definition ONE_SCORE_REPLY : string :=
  "{" ++ dq ++ "coverage_score" ++ dq ++ ": 0.5}".

(** A standard library that parses [ONE_SCORE_REPLY]. *)
Definition one_score_lib : PyLib := {|
  json_loads := fun s =>
    if String.eqb s ONE_SCORE_REPLY
    then Some (PDict [("coverage_score", PFloat (1 # 2))])
    else None;
  py_repr := fun _ => "";
  float_of_str := fun _ => None;
  int_of_str := fun _ => None;
  textwrap_shorten := fun text _ _ => text
|}.

(* ================================================================== *)
(** * Vocabulary of the properties                                     *)
(* ================================================================== *)

(** [send_message] once per record of [sent], in order. *)
Definition send_all (sent : list Message) : M CallState unit :=
  for_each sent (fun m =>
    send_message (m_from m) (m_to m) (m_type m) (m_payload m)).

(** The messages a reader asks for: addressed to [agent_name] or to
    ["any"], and of the type [msg_type] when one is given. *)
Definition wanted (agent_name : string) (msg_type : option string)
    (m : Message) : bool :=
  addressed_to agent_name m
  && match msg_type with
     | Some t => String.eqb (m_type m) t
     | None => true
     end.

(** Every field of the call state but [messages] is the same. *)
Definition same_but_messages (a b : CallState) : Prop :=
  call_id a = call_id b /\ raw_transcript a = raw_transcript b /\
  cleaned_transcript a = cleaned_transcript b /\
  utterances a = utterances b /\ entities a = entities b /\
  summary a = summary b /\ sentiment a = sentiment b /\
  frustration_timeline a = frustration_timeline b /\
  pain_points a = pain_points b /\
  recommended_actions a = recommended_actions b /\
  evaluation a = evaluation b /\ start_ts a = start_ts b /\
  step_count a = step_count b /\ tool_calls a = tool_calls b /\
  tool_successes a = tool_successes b.

(** [l1] is an initial segment of [l2]. *)
Definition prefix_of {A} (l1 l2 : list A) : Prop :=
  exists rest, l2 = l1 ++ rest.

(** Folding a sequence of finished calls into a memory. *)
Definition fold_calls {lib : PyLib} (calls : list CallState) : M MemoryState unit :=
  for_each calls update_memory_from_call.

(** The values of [key] that the calls supply, in order. *)
Fixpoint supplied (key : string) (calls : list CallState) : list pyval :=
  match calls with
  | [] => []
  | c :: rest =>
      match dict_get key (evaluation c) with
      | Some v => v :: supplied key rest
      | None => supplied key rest
      end
  end.

Definition Qsum (l : list Q) : Q := fold_right Qplus 0%Q l.

(** The arithmetic mean of a non-empty list. *)
Definition mean (l : list Q) : Q :=
  (Qsum l / inject_Z (Z.of_nat (List.length l)))%Q.

(** A call state that went through no evaluation: [evaluation] is the
    empty dictionary of a fresh [CallState]. *)
Definition unscored_call : CallState := new_CallState "" 0.

(** A call state whose evaluation supplies the three scores. *)
Definition scored_call (faithfulness coverage consistency : Q) : CallState :=
  set_evaluation
    [("faithfulness_score", PFloat faithfulness);
     ("coverage_score", PFloat coverage);
     ("consistency_score", PFloat consistency)]
    (new_CallState "" 0).

(** ** Runs, traces and outcomes *)

(** Each write is related to the value of the object just before it. *)
Fixpoint chain {S} (R : S -> S -> Prop) (s : S) (ws : list S) : Prop :=
  match ws with
  | [] => True
  | w :: ws' => R s w /\ chain R w ws'
  end.

(** The run of [m] from any state is a chain of [R]-steps that ends in
    its final state. *)
Definition traces {S A} (R : S -> S -> Prop) (m : M S A) : Prop :=
  forall s, chain R s (writes (m s)) /\ final (m s) = last (writes (m s)) s.

(** A property of the object that every write of [m] keeps. *)
Definition keeps {S A} (P : S -> Prop) (m : M S A) : Prop :=
  forall s, P s -> Forall P (writes (m s)) /\ P (final (m s)).

Section PropertyVocabulary.
Context {lib : PyLib}.

(** A computation that only reads: no write, same state, a value. *)
Definition reads_only {S A} (m : M S A) (a : S -> A) : Prop :=
  forall s, m s = {| writes := []; final := s; out := Returned (a s) |}.

(** None of the three counters is smaller in [b] than in [a]. *)
Definition counters_le (a b : CallState) : Prop :=
  step_count a <= step_count b
  /\ tool_calls a <= tool_calls b
  /\ tool_successes a <= tool_successes b.

Definition successes_le_calls (s : CallState) : Prop :=
  tool_successes s <= tool_calls s.

Definition same_tool_counters (a b : CallState) : Prop :=
  tool_calls a = tool_calls b /\ tool_successes a = tool_successes b.

Definition same_step_count (a b : CallState) : Prop :=
  step_count a = step_count b.

(** A computation that neither writes nor moves the state. *)
Definition silent {S A} (m : M S A) : Prop :=
  forall s, writes (m s) = [] /\ final (m s) = s.

(** What the counter properties ask of an agent: along its run no
    counter decreases, and [tool_successes <= tool_calls] is kept by
    every write. *)
Definition well_behaved (agent : AgentFn) : Prop :=
  forall tools,
    traces counters_le (agent tools)
    /\ keeps successes_le_calls (agent tools).

Definition registry_well_behaved (registry : Registry) : Prop :=
  forall name agent,
    registry_lookup registry name = Some agent -> well_behaved agent.

(** Looking an agent up and running it, as the supervisor does. *)
Definition lookup_and_run (registry : Registry) (tools : Tools)
    (name : string) : M CallState unit :=
  bind (lift (get_agent_in registry name))
    (fun agent_fn : AgentFn => agent_fn (Some tools)).




(** Two tool containers whose capabilities are both absent or answer
    alike. *)
Definition same_replies (t t' : Tools) : Prop :=
  match llm t, llm t' with
  | Some f, Some g => forall p, f p = g p
  | None, None => True
  | _, _ => False
  end
  /\ match cleaner t, cleaner t' with
     | Some f, Some g => forall text, f text = g text
     | None, None => True
     | _, _ => False
     end.

Definition agent_ext (agent : AgentFn) : Prop :=
  forall t t' s, same_replies t t' -> agent (Some t) s = agent (Some t') s.

(** The capability that always raises. *)
Definition failing_llm : LLMClient := fun _ => None.

Definition failing_cleaner : TranscriptCleaner := fun _ => None.

(** A capability is unavailable when it is absent or raises on every
    call. *)
Definition unavailable {A} (capability : option (A -> option string)) : Prop :=
  forall f, capability = Some f -> forall x, f x = None.

(** [wp m Q E s]: run from [s], [m] returns a value and a state that
    satisfy [Q], or raises an exception in a state that satisfy [E]. *)
Definition wp {S A} (m : M S A) (Q : A -> S -> Prop) (E : exn -> S -> Prop)
    (s : S) : Prop :=
  match out (m s) with
  | Returned a => Q a (final (m s))
  | Raised e => E e (final (m s))
  end.

(** No exception is allowed. *)
Definition no_exn {S} : exn -> S -> Prop := fun _ _ => False.

(** Any exception is allowed. *)
Definition any_exn {S} : exn -> S -> Prop := fun _ _ => True.

Definition SCORE_KEYS : list string :=
  ["faithfulness_score"; "coverage_score"; "consistency_score"].

(** What [update_memory_from_call] needs of a call state not to raise:
    hashable pain points, a product that is falsy or hashable, and
    scores that [float] accepts. *)
Definition foldable (cs : CallState) : Prop :=
  Forall (fun p => hashable p = true) (pain_points cs)
  /\ (truthy (dict_get_default "product" PNone (entities cs)) = true ->
      hashable (dict_get_default "product" PNone (entities cs)) = true)
  /\ (forall key v, In key SCORE_KEYS ->
        dict_get key (evaluation cs) = Some v -> exists q, py_float v = ok q).

(** What the final call state of a run on the empty transcript holds. *)
Definition empty_transcript_outcome (s : CallState) : Prop :=
  sentiment s = "unknown"
  /\ summary s = "No transcript content was available to summarize."
  /\ pain_points s = [PStr "unclear primary pain point"]
  /\ step_count s = Z.of_nat (List.length AGENT_EXECUTION_ORDER) + 1.

(** An agent that returns has added one to [step_count]. *)
Definition one_step (agent : AgentFn) : Prop :=
  forall tools s,
    wp (agent tools) (fun _ s' => step_count s' = step_count s + 1) any_exn s.

(** The mapping [compute_basic_eval] returns in state [s]. *)
Definition basic_eval_of (now : Q) (s : CallState) : dict :=
  match out (compute_basic_eval now s) with
  | Returned d => d
  | Raised _ => []
  end.

(** The three scores are in [evaluation], as floats. *)
Definition scores_written (s : CallState) : Prop :=
  forall key, In key SCORE_KEYS ->
    exists q, dict_get key (evaluation s) = Some (PFloat q).

(** The three scores are in [evaluation] with the default value. *)
Definition scores_default (s : CallState) : Prop :=
  forall key, In key SCORE_KEYS ->
    dict_get key (evaluation s) = Some (PFloat 1).

(** The language model gave the evaluation agent nothing it can use:
    it is absent, it raised, or its reply is not JSON. *)
Definition no_usable_reply (tools : option Tools) (s : CallState) : Prop :=
  match llm_of tools with
  | None => True
  | Some client =>
      match client (_build_eval_prompt s) with
      | None => True
      | Some content => json_loads (strip content) = None
      end
  end.

(** The first half of the agent: settling [llm_scores].  It always
    returns, leaves [step_count] alone, and settles on the defaults when
    there is no usable reply. *)
Definition settle_llm_scores (tools : option Tools) : M CallState pyval :=
  match llm_of tools with
  | Some client =>
      try_except
        (call_state <- get ;;
         let prompt := _build_eval_prompt call_state in
         incr_tool_calls ;;
         raw <- chat client prompt ;;
         incr_tool_successes ;;
         parsed <- lift (py_json_loads raw) ;;
         lift (fill_missing_scores _default_llm_scores parsed))
        (fun _ => ret (PDict _default_llm_scores))
  | None => ret (PDict _default_llm_scores)
  end.

Definition registry_one_step (registry : Registry) : Prop :=
  forall name agent, registry_lookup registry name = Some agent -> one_step agent.

(** The language model is absent or is the one that always raises. *)
Definition quiet (tools : option Tools) : Prop :=
  llm_of tools = None \/ llm_of tools = Some failing_llm.

Definition str_or_none (v : pyval) : bool :=
  match v with
  | PNone | PStr _ => true
  | _ => false
  end.

Definition is_str (v : pyval) : bool :=
  match v with
  | PStr _ => true
  | _ => false
  end.

(** The issue and the product are strings or [None], as the rules give
    them. *)
Definition plain_entities (s : CallState) : Prop :=
  str_or_none (dict_get_default "issue" PNone (entities s)) = true
  /\ str_or_none (dict_get_default "product" PNone (entities s)) = true.

(** Every pain point is a string. *)
Definition plain_pain_points (s : CallState) : Prop :=
  Forall (fun p => is_str p = true) (pain_points s).

(** Every entry of the timeline has a string under ["level"]. *)
Definition wf_timeline (timeline : list dict) : Prop :=
  Forall (fun item => exists l, dict_get "level" item = Some (PStr l)) timeline.

(** The fields the memory fold reads, besides [evaluation]. *)
Definition same_inputs (a b : CallState) : Prop :=
  entities a = entities b /\ pain_points a = pain_points b.

Definition same_faithfulness (a b : MemoryState) : Prop :=
  total_calls a = total_calls b /\ avg_faithfulness a = avg_faithfulness b.

End PropertyVocabulary.

(** ** Counts, fields, levels and failures *)

(** The sum of the counts of a table. *)
Definition count_total (table : list (pyval * Z)) : Z :=
  fold_right Z.add 0 (map snd table).

(** The part of [update_memory_from_call] after the sentiment count:
    it leaves [total_calls] and [sentiment_counts] alone, however it
    ends. *)
Definition same_call_counts (a b : MemoryState) : Prop :=
  total_calls a = total_calls b /\ sentiment_counts a = sentiment_counts b.

(** The fields of the call state that hold the input of a run and the
    output of an agent. *)
Inductive field : Type :=
| FCallId | FRawTranscript | FStartTs
| FCleanedTranscript | FUtterances | FEntities | FSummary | FSentiment
| FFrustrationTimeline | FPainPoints | FRecommendedActions | FEvaluation.

(** [a] and [b] hold the same value in field [f]. *)
Definition same_field (f : field) (a b : CallState) : Prop :=
  match f with
  | FCallId => call_id a = call_id b
  | FRawTranscript => raw_transcript a = raw_transcript b
  | FStartTs => start_ts a = start_ts b
  | FCleanedTranscript => cleaned_transcript a = cleaned_transcript b
  | FUtterances => utterances a = utterances b
  | FEntities => entities a = entities b
  | FSummary => summary a = summary b
  | FSentiment => sentiment a = sentiment b
  | FFrustrationTimeline => frustration_timeline a = frustration_timeline b
  | FPainPoints => pain_points a = pain_points b
  | FRecommendedActions => recommended_actions a = recommended_actions b
  | FEvaluation => evaluation a = evaluation b
  end.

(** The name, in the registry, of the agent that assigns field [f]. *)
Definition writer_of (f : field) : option string :=
  match f with
  | FCallId | FRawTranscript | FStartTs => None
  | FCleanedTranscript | FUtterances => Some "cleaning"
  | FEntities => Some "entities"
  | FSummary => Some "summarization"
  | FSentiment => Some "sentiment"
  | FFrustrationTimeline => Some "frustration_loop"
  | FPainPoints => Some "pain_points"
  | FRecommendedActions => Some "actions"
  | FEvaluation => Some "evaluation"
  end.

(** The first character of [s], if any, is not white space. *)
Definition no_leading_space (s : string) : Prop :=
  match s with
  | EmptyString => True
  | String c _ => is_space c = false
  end.

(** Every white-space character of [s] is the plain space. *)
Definition only_plain_spaces (s : string) : Prop :=
  Forall (fun c => is_space c = true -> c = " "%char) (list_ascii_of_string s).

(** The entry holds one of the three labels under ["level"]. *)
Definition level_in_labels (item : dict) : Prop :=
  exists l, dict_get "level" item = Some (PStr l) /\ In l FRUSTRATION_LABELS.

(** [item["level"] == l] *)
Definition has_level (l : string) (item : dict) : bool :=
  atom_eqb (dict_get_default "level" PNone item) (PStr l).

(** The message the frustration agent sends about [timeline]. *)
Definition frustration_summary_of (timeline : list dict) : Message :=
  let highs := filter (has_level "high") timeline in
  let overall :=
    if existsb (has_level "high") timeline then "high"
    else if existsb (has_level "medium") timeline then "medium"
    else "low" in
  {| m_from := "frustration_loop"; m_to := "pain_points";
     m_type := "frustration_summary";
     m_payload :=
       [("overall_level", PStr overall);
        ("high_segments", PList (map PDict highs));
        ("timeline_length", PInt (Z.of_nat (List.length timeline)))] |}.

(** The exceptions that the data handed to an agent can cause. *)
Definition DATA_ERRORS : list exn :=
  [TypeError; ValueError; AttributeError; OverflowError].

(** [step_count] and [evaluation] are the same in [a] and [b]. *)
Definition same_evaluation (a b : CallState) : Prop :=
  step_count a = step_count b /\ evaluation a = evaluation b.

(** An agent makes at most one capability call. *)
Definition at_most_one_call (agent : AgentFn) : Prop :=
  forall tools s,
    wp (agent tools) (fun _ s' => tool_calls s' <= tool_calls s + 1) any_exn s.

(** The exceptions an agent can raise are among [errors]. *)
Definition raises_only (errors : list exn) (agent : AgentFn) : Prop :=
  forall tools s, wp (agent tools) (fun _ _ => True) (fun e _ => In e errors) s.

(** The capability calls made from [a] to [b] are no more than the steps. *)
Definition calls_within_steps (a b : CallState) : Prop :=
  tool_calls b - tool_calls a <= step_count b - step_count a.

(** The prompt the summarization agent hands to the language model when
    it starts from [s]. *)
Definition summary_prompt_at (s : CallState) : prompt :=
  _build_summary_prompt s
    (latest_payload
       (filter (wanted "summarization" (Some "entity_summary")) (messages s))).



(* ================================================================== *)
(** * The message bus                                                  *)
(* ================================================================== *)

Lemma send_all_messages (sent : list Message) (state : CallState) :
  messages (final (send_all sent state)) = messages state ++ sent
  /\ out (send_all sent state) = Returned tt.
Proof.
  revert state.
  induction sent as [|m sent IH]; intros state.
  - simpl. rewrite app_nil_r. split; reflexivity.
  - unfold send_all in *. simpl for_each. unfold bind.
    change (out (send_message (m_from m) (m_to m) (m_type m) (m_payload m) state))
      with (@Returned unit tt).
    cbv beta iota. simpl final at 1. simpl out at 1.
    match goal with
    | |- context [for_each sent _ ?s'] => destruct (IH s') as [Hm Ho]
    end.
    split.
    + rewrite Hm. simpl. rewrite <- app_assoc. simpl.
      destruct m; reflexivity.
    + exact Ho.
Qed.

Lemma filter_filter {A} (f g : A -> bool) (l : list A) :
  filter g (filter f l) = filter (fun x => f x && g x) l.
Proof.
  induction l as [|x l IH]; simpl; [reflexivity|].
  destruct (f x); simpl; [|exact IH].
  destruct (g x); simpl; rewrite IH; reflexivity.
Qed.

Lemma get_messages_for_agent_run (agent_name : string)
    (msg_type : option string) (state : CallState) :
  get_messages_for_agent agent_name msg_type state =
  {| writes := []; final := state;
     out := Returned (filter (wanted agent_name msg_type) (messages state)) |}.
Proof.
  unfold get_messages_for_agent, bind, get, ret; simpl.
  f_equal. f_equal.
  destruct msg_type as [t|]; unfold wanted.
  - apply filter_filter.
  - apply filter_ext. intros m. rewrite andb_true_r. reflexivity.
Qed.

Lemma wanted_spec (agent_name : string) (msg_type : option string) (m : Message) :
  wanted agent_name msg_type m = true <->
  (m_to m = agent_name \/ m_to m = "any")
  /\ (forall t, msg_type = Some t -> m_type m = t).
Proof.
  unfold wanted, addressed_to.
  rewrite andb_true_iff, orb_true_iff, !String.eqb_eq.
  split; intros [Hto Hty]; (split; [exact Hto|]).
  - intros t ->. apply String.eqb_eq. exact Hty.
  - destruct msg_type as [t|]; [|reflexivity].
    apply String.eqb_eq. apply Hty. reflexivity.
Qed.

(** C5. After any sequence of sends on any call state, reading the
    messages for agent [X] (with or without a type filter [T]) returns
    exactly the messages of the log that are addressed to [X] or to
    ["any"] (and have type [T] when one is given), in the order in which
    they were appended; a message addressed to another agent that is not
    ["any"] is never returned. *)
Theorem get_messages_for_agent_fifo :
  forall (state : CallState) (sent : list Message) (X : string)
         (T : option string),
    let state' := final (send_all sent state) in
    exists msgs,
      out (get_messages_for_agent X T state') = Returned msgs
      /\ messages state' = messages state ++ sent
      /\ msgs = filter (wanted X T) (messages state ++ sent)
      /\ (forall m, In m msgs <->
            In m (messages state')
            /\ (m_to m = X \/ m_to m = "any")
            /\ (forall t, T = Some t -> m_type m = t))
      /\ (forall m, In m msgs -> m_to m <> X -> m_to m = "any").
Proof.
  intros state sent X T state'.
  destruct (send_all_messages sent state) as [Hm _].
  fold state' in Hm.
  exists (filter (wanted X T) (messages state')).
  rewrite get_messages_for_agent_run. simpl.
  split; [reflexivity|].
  split; [exact Hm|].
  split; [rewrite Hm; reflexivity|].
  split.
  - intros m. rewrite filter_In, wanted_spec. tauto.
  - intros m Hin Hne.
    apply filter_In in Hin. destruct Hin as [_ Hw].
    apply wanted_spec in Hw. destruct Hw as [[Hx|Hany] _].
    + contradiction.
    + exact Hany.
Qed.

(** C6. [send_message] makes one write: it appends the record
    [{from, to, type, payload}] at the end of [messages], keeps every
    earlier message in place and every other field as it was.  Reading
    with [get_messages_for_agent] writes nothing and leaves the state as
    it is, so the log never shrinks and reading again gives the same
    answer. *)
Theorem send_message_appends_one :
  forall (state : CallState) (from_agent to_agent msg_type : string)
         (payload : dict),
    let msg := {| m_from := from_agent; m_to := to_agent;
                  m_type := msg_type; m_payload := payload |} in
    let r := send_message from_agent to_agent msg_type payload state in
    out r = Returned tt
    /\ writes r = [final r]
    /\ messages (final r) = messages state ++ [msg]
    /\ List.length (messages (final r)) = S (List.length (messages state))
    /\ prefix_of (messages state) (messages (final r))
    /\ same_but_messages state (final r)
    /\ (forall (X : string) (T : option string) (s : CallState),
          let g := get_messages_for_agent X T s in
          writes g = [] /\ final g = s
          /\ out (get_messages_for_agent X T (final g)) = out g).
Proof.
  intros state from_agent to_agent msg_type payload msg r.
  assert (Hr : r = {| writes := [set_messages (messages state ++ [msg]) state];
                      final := set_messages (messages state ++ [msg]) state;
                      out := Returned tt |}) by reflexivity.
  rewrite Hr. cbn [out writes final].
  split; [reflexivity|].
  split; [reflexivity|].
  split; [reflexivity|].
  split; [simpl; rewrite length_app; simpl; lia|].
  split; [exists [msg]; reflexivity|].
  split; [unfold same_but_messages; simpl; tauto|].
  intros X T s. cbv zeta.
  rewrite !get_messages_for_agent_run. cbn [writes final out].
  split; [reflexivity|]. split; reflexivity.
Qed.

(* ================================================================== *)
(** * Metrics                                                          *)
(* ================================================================== *)

(** C9 (as the code has it). [compute_basic_eval] writes nothing to the
    call state and always returns; the mapping it returns carries
    [tool_calls], [tool_successes] and [step_count] as they are in the
    state, and [tool_success_rate] is [tool_successes / tool_calls] when
    [tool_calls > 0] and [1.0] when [tool_calls == 0].  The mapping is a
    function of the call state and of the reading of the clock:
    [duration_sec] is [max(0.0, now - start_ts)], and no other entry
    depends on the clock. *)
Theorem compute_basic_eval_pure_up_to_the_clock :
  forall (now : Q) (s : CallState),
    let r := compute_basic_eval now s in
    writes r = [] /\ final r = s
    /\ exists d,
         out r = Returned d
         /\ dict_get "tool_calls" d = Some (PInt (tool_calls s))
         /\ dict_get "tool_successes" d = Some (PInt (tool_successes s))
         /\ dict_get "step_count" d = Some (PInt (step_count s))
         /\ (0 < tool_calls s ->
             dict_get "tool_success_rate" d =
             Some (PFloat (inject_Z (tool_successes s) / inject_Z (tool_calls s))))
         /\ (tool_calls s = 0 ->
             dict_get "tool_success_rate" d = Some (PFloat 1))
         /\ dict_get "duration_sec" d =
            Some (PFloat (if Qle_bool (now - start_ts s) 0 then 0
                          else now - start_ts s)%Q)
         /\ (forall now', exists d',
               out (compute_basic_eval now' s) = Returned d'
               /\ forall k, k <> "duration_sec" -> dict_get k d' = dict_get k d).
Proof.
  intros now s r. subst r.
  unfold compute_basic_eval, bind, get, ret. cbn [out final writes app].
  split; [reflexivity|]. split; [reflexivity|].
  eexists. split; [reflexivity|].
  cbn [dict_get String.eqb Ascii.eqb Bool.eqb].
  split; [reflexivity|]. split; [reflexivity|]. split; [reflexivity|].
  split.
  - intros Hpos. destruct (Z.eqb_spec (tool_calls s) 0) as [H0|_]; [lia|reflexivity].
  - split; [|split].
    + intros H0. rewrite H0. reflexivity.
    + reflexivity.
    + intros now'. eexists. split; [reflexivity|].
      intros k Hk.
      cbn [dict_get].
      apply String.eqb_neq in Hk.
      repeat match goal with
             | |- context [String.eqb k ?lit] =>
                 destruct (String.eqb k lit) eqn:?; [reflexivity|]
             end.
      rewrite Hk. reflexivity.
Qed.

(** C9, as stated, fails: [compute_basic_eval] is not a function of the
    call state alone, it reads the clock.  On one call state, created
    when the clock read 0, it returns [duration_sec == 1.0] when the
    clock reads 1 and [duration_sec == 2.0] when it reads 2, and the
    call state is the same before and after the two calls. *)
Lemma compute_basic_eval_depends_on_the_clock :
  let s := new_CallState "hello" 0 in
  let r1 := compute_basic_eval 1 s in
  let r2 := compute_basic_eval 2 s in
  final r1 = s /\ final r2 = s
  /\ dict_get "duration_sec" (basic_eval_of 1 s) = Some (PFloat 1)
  /\ dict_get "duration_sec" (basic_eval_of 2 s) = Some (PFloat 2)
  /\ out r1 <> out r2.
Proof.
  repeat split; try (vm_compute; reflexivity).
  vm_compute. discriminate.
Qed.

(** C1. Folding a call that went through no evaluation and then a call
    that supplies the three scores, each [1.0], into a fresh memory
    leaves the three averages at [0.5]: the divisor is the number of
    calls folded, [2], and not the number of calls that supplied the
    score, [1].  The mean of the supplied values is [1.0]. *)
Theorem running_average_divides_by_total_calls :
  forall (lib : PyLib),
    let calls := [unscored_call; scored_call 1 1 1] in
    let r := fold_calls calls new_MemoryState in
    out r = Returned tt
    /\ total_calls (final r) = 2
    /\ supplied "faithfulness_score" calls = [PFloat 1]
    /\ supplied "coverage_score" calls = [PFloat 1]
    /\ supplied "consistency_score" calls = [PFloat 1]
    /\ (mean [1] == 1)%Q
    /\ (avg_faithfulness (final r) == 1 # 2)%Q
    /\ (avg_coverage (final r) == 1 # 2)%Q
    /\ (avg_consistency (final r) == 1 # 2)%Q.
Proof.
  intros lib calls r.
  assert (Hout : out r = Returned tt) by (vm_compute; reflexivity).
  assert (Hn : total_calls (final r) = 2) by (vm_compute; reflexivity).
  split; [exact Hout|]. split; [exact Hn|].
  split; [reflexivity|]. split; [reflexivity|]. split; [reflexivity|].
  split; [reflexivity|].
  split; [|split]; vm_compute; reflexivity.
Qed.

(* ================================================================== *)
(** * Reasoning about runs                                             *)
(* ================================================================== *)

Lemma run_eta {S A} (r : run S A) :
  {| writes := writes r; final := final r; out := out r |} = r.
Proof. destruct r; reflexivity. Qed.

Lemma bind_reads_only {S A B} (m : M S A) (a : S -> A) (k : A -> M S B) (s : S) :
  reads_only m a -> bind m k s = k (a s) s.
Proof.
  intros Hm. unfold bind. rewrite (Hm s). cbn [out final writes app].
  apply run_eta.
Qed.

Lemma bind_ret {S A B} (a : A) (k : A -> M S B) (s : S) :
  bind (ret a) k s = k a s.
Proof. apply (bind_reads_only (ret a) (fun _ => a)). intros s'. reflexivity. Qed.

Lemma bind_get {S B} (k : S -> M S B) (s : S) :
  bind get k s = k s s.
Proof. apply (bind_reads_only get (fun s => s)). intros s'. reflexivity. Qed.

Lemma final_bind {S A B} (m : M S A) (k : A -> M S B) (s : S) :
  final (bind m k s) =
  match out (m s) with
  | Returned a => final (k a (final (m s)))
  | Raised _ => final (m s)
  end.
Proof. unfold bind. destruct (out (m s)); reflexivity. Qed.

Lemma out_bind {S A B} (m : M S A) (k : A -> M S B) (s : S) :
  out (bind m k s) =
  match out (m s) with
  | Returned a => out (k a (final (m s)))
  | Raised e => Raised e
  end.
Proof. unfold bind. destruct (out (m s)); reflexivity. Qed.

Lemma writes_bind {S A B} (m : M S A) (k : A -> M S B) (s : S) :
  writes (bind m k s) =
  writes (m s) ++
  match out (m s) with
  | Returned a => writes (k a (final (m s)))
  | Raised _ => []
  end.
Proof.
  unfold bind. destruct (out (m s)); cbn [writes]; [reflexivity|].
  rewrite app_nil_r. reflexivity.
Qed.

Lemma get_messages_reads_only (agent_name : string) (msg_type : option string) :
  reads_only (get_messages_for_agent agent_name msg_type)
    (fun s => filter (wanted agent_name msg_type) (messages s)).
Proof. intros s. apply get_messages_for_agent_run. Qed.

Section Traces.
Context {S : Type}.
Variable R : S -> S -> Prop.
Hypothesis R_refl : forall s, R s s.
Hypothesis R_trans : forall a b c, R a b -> R b c -> R a c.

Lemma last_cons (l : list S) (x d : S) : last (x :: l) d = last l x.
Proof.
  revert x d. induction l as [|y l IH]; intros x d; [reflexivity|].
  change (last (x :: y :: l) d) with (last (y :: l) d).
  rewrite !IH. reflexivity.
Qed.

Lemma chain_app (s : S) (u v : list S) :
  chain R s (u ++ v) <-> chain R s u /\ chain R (last u s) v.
Proof.
  revert s. induction u as [|w u IH]; intros s.
  - simpl. tauto.
  - rewrite last_cons. simpl. rewrite IH. tauto.
Qed.

Lemma last_app_default (s : S) (u v : list S) :
  last (u ++ v) s = last v (last u s).
Proof.
  revert s. induction u as [|w u IH]; intros s; [reflexivity|].
  rewrite <- app_comm_cons, !last_cons. apply IH.
Qed.

Lemma chain_reaches (s : S) (ws : list S) :
  chain R s ws -> R s (last ws s) /\ Forall (R s) ws.
Proof.
  revert s. induction ws as [|w ws IH]; intros s.
  - intros _. split; [apply R_refl|constructor].
  - intros [Hw Hc]. destruct (IH w Hc) as [Hl Hall].
    rewrite last_cons. split.
    + apply R_trans with w; assumption.
    + constructor; [exact Hw|].
      apply Forall_impl with (P := R w); [|exact Hall].
      intros x Hx. apply R_trans with w; assumption.
Qed.

Lemma traces_final {A} (m : M S A) (s : S) :
  traces R m -> R s (final (m s)).
Proof.
  intros H. destruct (H s) as [Hc Hf]. rewrite Hf.
  apply chain_reaches. exact Hc.
Qed.

Lemma traces_writes {A} (m : M S A) (s : S) :
  traces R m -> Forall (R s) (writes (m s)).
Proof.
  intros H. destruct (H s) as [Hc _]. apply chain_reaches. exact Hc.
Qed.

Lemma traces_ret {A} (a : A) : traces R (ret a).
Proof. intros s. simpl. auto. Qed.

Lemma traces_get : traces R get.
Proof. intros s. simpl. auto. Qed.

Lemma traces_raise {A} (e : exn) : traces R (@raise S A e).
Proof. intros s. simpl. auto. Qed.

Lemma traces_lift {A} (r : result A) : traces R (@lift S A r).
Proof. destruct r; [apply traces_raise|apply traces_ret]. Qed.

Lemma traces_modify (f : S -> S) :
  (forall s, R s (f s)) -> traces R (modify f).
Proof. intros H s. simpl. auto. Qed.

Lemma traces_bind {A B} (m : M S A) (k : A -> M S B) :
  traces R m -> (forall a, traces R (k a)) -> traces R (bind m k).
Proof.
  intros Hm Hk s. destruct (Hm s) as [Hc Hf].
  rewrite writes_bind, final_bind.
  destruct (out (m s)) as [a|e].
  - destruct (Hk a (final (m s))) as [Hc' Hf'].
    split.
    + apply chain_app. split; [exact Hc|]. rewrite <- Hf. exact Hc'.
    + rewrite last_app_default, <- Hf. exact Hf'.
  - rewrite app_nil_r. auto.
Qed.

Lemma traces_try_except {A} (body : M S A) (handler : exn -> M S A) :
  traces R body -> (forall e, traces R (handler e)) -> traces R (try_except body handler).
Proof.
  intros Hm Hk s. destruct (Hm s) as [Hc Hf].
  unfold try_except.
  destruct (out (body s)) as [a|e].
  - auto.
  - destruct (Hk e (final (body s))) as [Hc' Hf'].
    cbn [writes final]. split.
    + apply chain_app. split; [exact Hc|]. rewrite <- Hf. exact Hc'.
    + rewrite last_app_default, <- Hf. exact Hf'.
Qed.

Lemma traces_try_except_KeyError {A} (body handler : M S A) :
  traces R body -> traces R handler -> traces R (try_except_KeyError body handler).
Proof.
  intros Hb Hh. apply traces_try_except; [exact Hb|].
  intros e. destruct (is_KeyError e); [exact Hh|apply traces_raise].
Qed.

Lemma traces_for_each {A} (l : list A) (body : A -> M S unit) :
  (forall x, traces R (body x)) -> traces R (for_each l body).
Proof.
  intros H. induction l as [|x l IH]; simpl.
  - apply traces_ret.
  - apply traces_bind; [apply H|]. intros _. exact IH.
Qed.

Lemma traces_let {T A} (v : T) (b : T -> M S A) :
  (forall x, traces R (b x)) -> traces R (let x := v in b x).
Proof. intros H. apply H. Qed.

Lemma traces_of_capability (r : option string) : traces R (@of_capability S r).
Proof. destruct r; [apply traces_ret|apply traces_raise]. Qed.

Lemma traces_reads_only {A} (m : M S A) (a : S -> A) :
  reads_only m a -> traces R m.
Proof. intros H s. rewrite (H s). simpl. auto. Qed.

(** ** A property of the object kept by every write *)

Variable P : S -> Prop.

Lemma keeps_ret {A} (a : A) : keeps P (ret a).
Proof. intros s Hs. simpl. auto. Qed.

Lemma keeps_get : keeps P get.
Proof. intros s Hs. simpl. auto. Qed.

Lemma keeps_raise {A} (e : exn) : keeps P (@raise S A e).
Proof. intros s Hs. simpl. auto. Qed.

Lemma keeps_lift {A} (r : result A) : keeps P (@lift S A r).
Proof. destruct r; [apply keeps_raise|apply keeps_ret]. Qed.

Lemma keeps_modify (f : S -> S) :
  (forall s, P s -> P (f s)) -> keeps P (modify f).
Proof. intros H s Hs. simpl. auto. Qed.

Lemma keeps_bind {A B} (m : M S A) (k : A -> M S B) :
  keeps P m -> (forall a, keeps P (k a)) -> keeps P (bind m k).
Proof.
  intros Hm Hk s Hs. destruct (Hm s Hs) as [Hw Hf].
  rewrite writes_bind, final_bind.
  destruct (out (m s)) as [a|e].
  - destruct (Hk a (final (m s)) Hf) as [Hw' Hf'].
    split; [apply Forall_app; auto|exact Hf'].
  - rewrite app_nil_r. auto.
Qed.

Lemma keeps_try_except {A} (body : M S A) (handler : exn -> M S A) :
  keeps P body -> (forall e, keeps P (handler e)) -> keeps P (try_except body handler).
Proof.
  intros Hm Hk s Hs. destruct (Hm s Hs) as [Hw Hf].
  unfold try_except.
  destruct (out (body s)) as [a|e].
  - auto.
  - destruct (Hk e (final (body s)) Hf) as [Hw' Hf'].
    cbn [writes final]. split; [apply Forall_app; auto|exact Hf'].
Qed.

Lemma keeps_try_except_KeyError {A} (body handler : M S A) :
  keeps P body -> keeps P handler -> keeps P (try_except_KeyError body handler).
Proof.
  intros Hb Hh. apply keeps_try_except; [exact Hb|].
  intros e. destruct (is_KeyError e); [exact Hh|apply keeps_raise].
Qed.

Lemma keeps_for_each {A} (l : list A) (body : A -> M S unit) :
  (forall x, keeps P (body x)) -> keeps P (for_each l body).
Proof.
  intros H. induction l as [|x l IH]; simpl.
  - apply keeps_ret.
  - apply keeps_bind; [apply H|]. intros _. exact IH.
Qed.

Lemma keeps_let {T A} (v : T) (b : T -> M S A) :
  (forall x, keeps P (b x)) -> keeps P (let x := v in b x).
Proof. intros H. apply H. Qed.

Lemma keeps_of_capability (r : option string) : keeps P (@of_capability S r).
Proof. destruct r; [apply keeps_ret|apply keeps_raise]. Qed.

Lemma keeps_reads_only {A} (m : M S A) (a : S -> A) :
  reads_only m a -> keeps P m.
Proof. intros H s Hs. rewrite (H s). simpl. auto. Qed.

End Traces.

(* ================================================================== *)
(** * The counters                                                     *)
(* ================================================================== *)

Lemma counters_le_refl (s : CallState) : counters_le s s.
Proof. unfold counters_le. lia. Qed.

Lemma counters_le_trans (a b c : CallState) :
  counters_le a b -> counters_le b c -> counters_le a c.
Proof. unfold counters_le. lia. Qed.

Lemma same_tool_counters_refl (s : CallState) : same_tool_counters s s.
Proof. unfold same_tool_counters. auto. Qed.

Lemma same_tool_counters_trans (a b c : CallState) :
  same_tool_counters a b -> same_tool_counters b c -> same_tool_counters a c.
Proof. unfold same_tool_counters. intuition congruence. Qed.

Lemma same_step_count_refl (s : CallState) : same_step_count s s.
Proof. reflexivity. Qed.

Lemma same_step_count_trans (a b c : CallState) :
  same_step_count a b -> same_step_count b c -> same_step_count a c.
Proof. unfold same_step_count. congruence. Qed.

Lemma silent_of_capability {S} (r : option string) : silent (@of_capability S r).
Proof. intros s. destruct r; simpl; auto. Qed.

Lemma silent_chat (client : LLMClient) (p : prompt) : silent (chat client p).
Proof.
  intros s. unfold chat, bind.
  destruct (client p); simpl; auto.
Qed.

(** The shape every capability call has in the agents: the call counter
    goes up, the capability is called, the success counter goes up. *)
Lemma keeps_counted_call {A B} (call : M CallState A) (rest : A -> M CallState B) :
  silent call ->
  (forall x, keeps successes_le_calls (rest x)) ->
  keeps successes_le_calls
    (bind incr_tool_calls (fun _ =>
     bind call (fun x =>
     bind incr_tool_successes (fun _ => rest x)))).
Proof.
  intros Hcall Hrest s Hs.
  set (s1 := set_tool_calls (tool_calls s + 1) s).
  assert (H1 : successes_le_calls s1)
    by (unfold successes_le_calls in *; simpl; lia).
  destruct (Hcall s1) as [Hw Hf].
  rewrite writes_bind, final_bind.
  change (out (incr_tool_calls s)) with (@Returned unit tt).
  change (final (incr_tool_calls s)) with s1.
  change (writes (incr_tool_calls s)) with [s1].
  cbv beta iota.
  rewrite writes_bind, final_bind, Hw, Hf.
  destruct (out (call s1)) as [x|e].
  - set (s2 := set_tool_successes (tool_successes s1 + 1) s1).
    assert (H2 : successes_le_calls s2)
      by (unfold successes_le_calls in *; simpl; lia).
    rewrite writes_bind, final_bind.
    change (out (incr_tool_successes s1)) with (@Returned unit tt).
    change (final (incr_tool_successes s1)) with s2.
    change (writes (incr_tool_successes s1)) with [s2].
    cbv beta iota.
    destruct (Hrest x s2 H2) as [Hw' Hf'].
    split; [|exact Hf'].
    simpl. constructor; [exact H1|]. constructor; [exact H2|exact Hw'].
  - simpl. split; [|exact H1]. constructor; [exact H1|constructor].
Qed.

(** Decomposition of an agent along its binds, for a relation whose
    single steps [solve_step] proves; [known] closes the goals about
    computations that have a lemma of their own. *)
Ltac traces_with solve_step known :=
  repeat lazymatch goal with
    | |- traces _ (ret _) => apply traces_ret
    | |- traces _ get => apply traces_get
    | |- traces _ (raise _) => apply traces_raise
    | |- traces _ (lift _) => apply traces_lift
    | |- traces _ (of_capability _) => apply traces_of_capability
    | |- traces _ (get_messages_for_agent _ _) =>
        apply (traces_reads_only _ _ _ (get_messages_reads_only _ _))
    | |- traces _ (bind _ _) => apply traces_bind; [|intros]
    | |- traces _ (try_except _ _) => apply traces_try_except; [|intros]
    | |- traces _ (modify _) => apply traces_modify; intros; solve_step
    | |- traces _ (let x := _ in _) => apply traces_let; intros
    | |- traces _ (for_each _ _) => apply traces_for_each; intros
    | |- traces _ (match ?x with _ => _ end) => destruct x
    | |- traces _ incr_step_count => unfold incr_step_count
    | |- traces _ incr_tool_calls => unfold incr_tool_calls
    | |- traces _ incr_tool_successes => unfold incr_tool_successes
    | |- traces _ (send_message _ _ _ _) => unfold send_message
    | |- traces _ (chat _ _) => unfold chat
    | |- traces _ _ => known
    end.

Ltac keeps_with solve_step known :=
  repeat lazymatch goal with
    | |- keeps _ (ret _) => apply keeps_ret
    | |- keeps _ get => apply keeps_get
    | |- keeps _ (raise _) => apply keeps_raise
    | |- keeps _ (lift _) => apply keeps_lift
    | |- keeps _ (of_capability _) => apply keeps_of_capability
    | |- keeps _ (get_messages_for_agent _ _) =>
        apply (keeps_reads_only _ _ _ (get_messages_reads_only _ _))
    | |- keeps _ (bind incr_tool_calls (fun _ =>
           bind ?call (fun x => bind incr_tool_successes (fun _ => @?rest x)))) =>
        apply (keeps_counted_call call rest);
        [first [apply silent_chat | apply silent_of_capability]|intros]
    | |- keeps _ (bind _ _) => apply keeps_bind; [|intros]
    | |- keeps _ (try_except _ _) => apply keeps_try_except; [|intros]
    | |- keeps _ (modify _) => apply keeps_modify; intros; solve_step
    | |- keeps _ (let x := _ in _) => apply keeps_let; intros
    | |- keeps _ (match ?x with _ => _ end) => destruct x
    | |- keeps _ incr_step_count => unfold incr_step_count
    | |- keeps _ incr_tool_calls => unfold incr_tool_calls
    | |- keeps _ (send_message _ _ _ _) => unfold send_message
    | |- keeps _ (chat _ _) => unfold chat
    | |- keeps _ _ => known
    end.

Ltac counters_step := unfold counters_le; cbn; lia.

Ltac invariant_step :=
  unfold successes_le_calls in *; cbn; lia.

Section CounterLaws.
Context {lib : PyLib}.

Lemma compute_basic_eval_reads_only (now : Q) :
  exists a, reads_only (compute_basic_eval now) a.
Proof.
  eexists. intros s. unfold compute_basic_eval, bind, get, ret. reflexivity.
Qed.

Lemma traces_compute_basic_eval (R : CallState -> CallState -> Prop) (now : Q) :
  traces R (compute_basic_eval now).
Proof.
  destruct (compute_basic_eval_reads_only now) as [a Ha].
  apply (traces_reads_only R _ a Ha).
Qed.

Lemma keeps_compute_basic_eval (P : CallState -> Prop) (now : Q) :
  keeps P (compute_basic_eval now).
Proof.
  destruct (compute_basic_eval_reads_only now) as [a Ha].
  apply (keeps_reads_only P _ a Ha).
Qed.

Ltac well_behaved_with known :=
  intros tools; split;
  [ traces_with counters_step known
  | keeps_with invariant_step known ].

Ltac well_behaved_tac := well_behaved_with fail.

Lemma cleaning_agent_well_behaved : well_behaved cleaning_agent.
Proof. unfold cleaning_agent. well_behaved_tac. Qed.

Lemma entities_agent_well_behaved : well_behaved entities_agent.
Proof. unfold entities_agent. well_behaved_tac. Qed.

Lemma summarization_agent_well_behaved : well_behaved summarization_agent.
Proof. unfold summarization_agent. well_behaved_tac. Qed.

Lemma sentiment_agent_well_behaved : well_behaved sentiment_agent.
Proof. unfold sentiment_agent. well_behaved_tac. Qed.

Lemma frustration_loop_agent_well_behaved : well_behaved frustration_loop_agent.
Proof. unfold frustration_loop_agent. well_behaved_tac. Qed.

Lemma _rule_based_pain_points_well_behaved :
  traces counters_le _rule_based_pain_points
  /\ keeps successes_le_calls _rule_based_pain_points.
Proof.
  unfold _rule_based_pain_points. split.
  - traces_with counters_step fail.
  - keeps_with invariant_step fail.
Qed.

Lemma pain_points_agent_well_behaved : well_behaved pain_points_agent.
Proof.
  unfold pain_points_agent.
  well_behaved_with ltac:(apply _rule_based_pain_points_well_behaved).
Qed.

Lemma actions_agent_well_behaved : well_behaved actions_agent.
Proof. unfold actions_agent. well_behaved_tac. Qed.

Lemma evaluation_agent_well_behaved (now : Q) : well_behaved (evaluation_agent now).
Proof.
  unfold evaluation_agent.
  well_behaved_with
    ltac:(first [apply traces_compute_basic_eval | apply keeps_compute_basic_eval]).
Qed.

End CounterLaws.

Lemma AGENT_REGISTRY_well_behaved {lib : PyLib} (now : Q) :
  registry_well_behaved (AGENT_REGISTRY now).
Proof.
  intros name agent H. unfold AGENT_REGISTRY in H. cbn [registry_lookup] in H.
  repeat match type of H with
         | (if ?c then _ else _) = _ =>
             destruct c; [injection H as <-|]
         end;
    try discriminate.
  - apply cleaning_agent_well_behaved.
  - apply entities_agent_well_behaved.
  - apply summarization_agent_well_behaved.
  - apply sentiment_agent_well_behaved.
  - apply frustration_loop_agent_well_behaved.
  - apply pain_points_agent_well_behaved.
  - apply actions_agent_well_behaved.
  - apply evaluation_agent_well_behaved.
Qed.

Lemma traces_ext {S A} (R : S -> S -> Prop) (m m' : M S A) :
  (forall s, m s = m' s) -> traces R m' -> traces R m.
Proof. intros E H s. rewrite (E s). apply H. Qed.

Lemma keeps_ext {S A} (P : S -> Prop) (m m' : M S A) :
  (forall s, m s = m' s) -> keeps P m' -> keeps P m.
Proof. intros E H s. rewrite (E s). apply H. Qed.

Lemma lookup_and_run_found (registry : Registry) (tools : Tools)
    (name : string) (agent : AgentFn) (s : CallState) :
  registry_lookup registry name = Some agent ->
  lookup_and_run registry tools name s = agent (Some tools) s.
Proof.
  intros H. unfold lookup_and_run, get_agent_in. rewrite H.
  apply (bind_ret agent).
Qed.

Lemma lookup_and_run_missing (registry : Registry) (tools : Tools)
    (name : string) (s : CallState) :
  registry_lookup registry name = None ->
  lookup_and_run registry tools name s =
  {| writes := []; final := s; out := Raised (KeyError name) |}.
Proof.
  intros H. unfold lookup_and_run, get_agent_in. rewrite H. reflexivity.
Qed.

Lemma lookup_and_run_well_behaved (registry : Registry) (tools : Tools)
    (name : string) :
  registry_well_behaved registry ->
  traces counters_le (lookup_and_run registry tools name)
  /\ keeps successes_le_calls (lookup_and_run registry tools name).
Proof.
  intros Hreg.
  destruct (registry_lookup registry name) as [agent|] eqn:Hlook.
  - destruct (Hreg name agent Hlook (Some tools)) as [Ht Hk].
    split.
    + apply traces_ext with (m' := agent (Some tools)); [|exact Ht].
      intros s. apply lookup_and_run_found. exact Hlook.
    + apply keeps_ext with (m' := agent (Some tools)); [|exact Hk].
      intros s. apply lookup_and_run_found. exact Hlook.
  - split.
    + apply traces_ext with (m' := raise (KeyError name)); [|apply traces_raise].
      intros s. apply lookup_and_run_missing. exact Hlook.
    + apply keeps_ext with (m' := raise (KeyError name)); [|apply keeps_raise].
      intros s. apply lookup_and_run_missing. exact Hlook.
Qed.

Lemma run_agents_well_behaved (registry : Registry) (order : list string)
    (tools : Tools) :
  registry_well_behaved registry ->
  traces counters_le (run_agents registry order tools)
  /\ keeps successes_le_calls (run_agents registry order tools).
Proof.
  intros Hreg. unfold run_agents.
  fold (lookup_and_run registry tools "evaluation").
  change (fun agent_name : string =>
            bind (lift (get_agent_in registry agent_name))
              (fun agent_fn : AgentFn => agent_fn (Some tools)))
    with (lookup_and_run registry tools).
  split.
  - apply traces_bind.
    + apply traces_for_each. intros name.
      apply (lookup_and_run_well_behaved registry tools name Hreg).
    + intros _. apply traces_try_except_KeyError; [|apply traces_ret].
      apply (lookup_and_run_well_behaved registry tools "evaluation" Hreg).
  - apply keeps_bind.
    + apply keeps_for_each. intros name.
      apply (lookup_and_run_well_behaved registry tools name Hreg).
    + intros _. apply keeps_try_except_KeyError; [|apply keeps_ret].
      apply (lookup_and_run_well_behaved registry tools "evaluation" Hreg).
Qed.

(** C7. Along a run of the pipeline, every value the call state takes
    (the fresh state, the state after each single assignment, the final
    state, whether the run returns or raises) has
    [tool_successes <= tool_calls]; from each value to the next none of
    [step_count], [tool_calls], [tool_successes] decreases; and every
    registered agent, run from any state, ends with counters at least as
    large as it found them. *)
Theorem counters_never_decrease :
  forall (lib : PyLib) (now : Q) (raw : string) (tools : Tools) (t0 : Q),
    let s0 := new_CallState raw t0 in
    let r := pipeline_run (AGENT_REGISTRY now) AGENT_EXECUTION_ORDER raw tools t0 in
    Forall successes_le_calls (s0 :: writes r)
    /\ final r = last (writes r) s0
    /\ chain counters_le s0 (writes r)
    /\ Forall (counters_le s0) (writes r)
    /\ (forall name agent,
          registry_lookup (AGENT_REGISTRY now) name = Some agent ->
          forall (tools' : option Tools) (s : CallState),
            counters_le s (final (agent tools' s))
            /\ Forall (counters_le s) (writes (agent tools' s))
            /\ (successes_le_calls s ->
                Forall successes_le_calls (writes (agent tools' s))
                /\ successes_le_calls (final (agent tools' s)))).
Proof.
  intros lib now raw tools t0 s0 r.
  destruct (run_agents_well_behaved (AGENT_REGISTRY now) AGENT_EXECUTION_ORDER
              tools (AGENT_REGISTRY_well_behaved now)) as [Ht Hk].
  assert (H0 : successes_le_calls s0) by (unfold successes_le_calls; simpl; lia).
  destruct (Hk s0 H0) as [Hw _].
  destruct (Ht s0) as [Hc Hf].
  split; [constructor; assumption|].
  split; [exact Hf|].
  split; [exact Hc|].
  split.
  - apply (traces_writes counters_le counters_le_refl counters_le_trans _ s0 Ht).
  - intros name agent Hlook tools' s.
    destruct (AGENT_REGISTRY_well_behaved now name agent Hlook tools') as [Ha Hb].
    split; [apply (traces_final counters_le counters_le_refl counters_le_trans _ s Ha)|].
    split; [apply (traces_writes counters_le counters_le_refl counters_le_trans _ s Ha)|].
    intros Hs. apply (Hb s Hs).
Qed.

(* ================================================================== *)
(** * Tool calls and tool successes                                    *)
(* ================================================================== *)

Ltac same_tools_step := unfold same_tool_counters; cbn; auto.







Lemma bind_ext_l {S A B} (m m' : M S A) (k : A -> M S B) (s : S) :
  m s = m' s -> bind m k s = bind m' k s.
Proof. intros E. unfold bind. rewrite E. reflexivity. Qed.


Section ToolCounters.
Context {lib : PyLib}.

Lemma _rule_based_pain_points_same_tools :
  traces same_tool_counters _rule_based_pain_points.
Proof. unfold _rule_based_pain_points. traces_with same_tools_step fail. Qed.









End ToolCounters.


(* ================================================================== *)
(** * Capabilities matter through their replies only                   *)
(* ================================================================== *)

Lemma bind_ext {S A B} (m m' : M S A) (k k' : A -> M S B) (s : S) :
  m s = m' s -> (forall a s', k a s' = k' a s') -> bind m k s = bind m' k' s.
Proof.
  intros Em Ek. unfold bind. rewrite Em.
  destruct (out (m' s)); [rewrite Ek|]; reflexivity.
Qed.

Lemma try_except_ext2 {S A} (body body' : M S A) (h h' : exn -> M S A) (s : S) :
  body s = body' s -> (forall e s', h e s' = h' e s') ->
  try_except body h s = try_except body' h' s.
Proof.
  intros Eb Eh. unfold try_except. rewrite Eb.
  destruct (out (body' s)); [|rewrite Eh]; reflexivity.
Qed.

Lemma for_each_ext {S A} (l : list A) (body body' : A -> M S unit) (s : S) :
  (forall x s', body x s' = body' x s') -> for_each l body s = for_each l body' s.
Proof.
  intros E. revert s. induction l as [|x l IH]; intros s; simpl; [reflexivity|].
  apply bind_ext; [apply E|]. intros _ s'. apply IH.
Qed.

Ltac ext_tac :=
  repeat lazymatch goal with
    | |- ?a = ?a => reflexivity
    | |- bind _ _ _ = bind _ _ _ => apply bind_ext; [|intros; cbv beta]
    | |- try_except _ _ _ = try_except _ _ _ =>
        apply try_except_ext2; [|intros; cbv beta]
    | |- (let x := _ in _) _ = _ => cbv zeta
    | |- (match ?x with _ => _ end) _ = _ => destruct x
    | |- chat _ _ _ = chat _ _ _ => unfold chat
    | H : forall p, ?f p = ?g p |- of_capability (?f ?x) _ = of_capability (?g ?x) _ =>
        rewrite (H x)
    end.

Section Extensionality.
Context {lib : PyLib}.

Ltac agent_ext_tac :=
  intros [l c d] [l' c' d'] s [Hl Hc];
  unfold llm_of, get_llm, get_cleaner; cbn [llm cleaner] in *;
  destruct l, l', c, c'; try contradiction; ext_tac.

Lemma cleaning_agent_ext : agent_ext cleaning_agent.
Proof. unfold cleaning_agent. agent_ext_tac. Qed.

Lemma entities_agent_ext : agent_ext entities_agent.
Proof. unfold entities_agent. agent_ext_tac. Qed.

Lemma summarization_agent_ext : agent_ext summarization_agent.
Proof. unfold summarization_agent. agent_ext_tac. Qed.

Lemma sentiment_agent_ext : agent_ext sentiment_agent.
Proof. unfold sentiment_agent. agent_ext_tac. Qed.

Lemma frustration_loop_agent_ext : agent_ext frustration_loop_agent.
Proof. unfold frustration_loop_agent. agent_ext_tac. Qed.

Lemma pain_points_agent_ext : agent_ext pain_points_agent.
Proof. unfold pain_points_agent. agent_ext_tac. Qed.

Lemma actions_agent_ext : agent_ext actions_agent.
Proof. unfold actions_agent. agent_ext_tac. Qed.

Lemma evaluation_agent_ext (now : Q) : agent_ext (evaluation_agent now).
Proof. unfold evaluation_agent. agent_ext_tac. Qed.

End Extensionality.

Lemma AGENT_REGISTRY_ext {lib : PyLib} (now : Q) (name : string) (agent : AgentFn) :
  registry_lookup (AGENT_REGISTRY now) name = Some agent -> agent_ext agent.
Proof.
  intros H. unfold AGENT_REGISTRY in H. cbn [registry_lookup] in H.
  repeat match type of H with
         | (if ?c then _ else _) = _ =>
             destruct c; [injection H as <-|]
         end;
    try discriminate.
  - apply cleaning_agent_ext.
  - apply entities_agent_ext.
  - apply summarization_agent_ext.
  - apply sentiment_agent_ext.
  - apply frustration_loop_agent_ext.
  - apply pain_points_agent_ext.
  - apply actions_agent_ext.
  - apply evaluation_agent_ext.
Qed.

Lemma lookup_and_run_ext (registry : Registry) (t t' : Tools) (name : string)
    (s : CallState) :
  (forall n agent, registry_lookup registry n = Some agent -> agent_ext agent) ->
  same_replies t t' ->
  lookup_and_run registry t name s = lookup_and_run registry t' name s.
Proof.
  intros Hreg Ht.
  destruct (registry_lookup registry name) as [agent|] eqn:Hlook.
  - rewrite !(lookup_and_run_found registry _ name agent s Hlook).
    apply (Hreg name agent Hlook). exact Ht.
  - rewrite !(lookup_and_run_missing registry _ name s Hlook). reflexivity.
Qed.

Lemma run_agents_ext (registry : Registry) (order : list string) (t t' : Tools)
    (s : CallState) :
  (forall n agent, registry_lookup registry n = Some agent -> agent_ext agent) ->
  same_replies t t' ->
  run_agents registry order t s = run_agents registry order t' s.
Proof.
  intros Hreg Ht. unfold run_agents.
  apply bind_ext.
  - apply for_each_ext. intros name s'.
    apply (lookup_and_run_ext registry t t' name s' Hreg Ht).
  - intros _ s'. unfold try_except_KeyError.
    apply try_except_ext2; [|reflexivity].
    apply (lookup_and_run_ext registry t t' "evaluation" s' Hreg Ht).
Qed.

(** [run_pipeline] sees its capabilities through their replies only. *)
Lemma run_pipeline_ext {lib : PyLib} (now : Q) (raw : string)
    (l l' : option LLMClient) (c c' : option TranscriptCleaner)
    (d : option DataLoader) (update_memory : bool) (t0 : Q) (mem : MemoryState) :
  same_replies (default_tools l c d) (default_tools l' c' d) ->
  run_pipeline now raw l c d update_memory t0 mem =
  run_pipeline now raw l' c' d update_memory t0 mem.
Proof.
  intros H. unfold run_pipeline, run_pipeline_in, pipeline_run.
  rewrite (run_agents_ext (AGENT_REGISTRY now) AGENT_EXECUTION_ORDER
             (default_tools l c d) (default_tools l' c' d) _
             (AGENT_REGISTRY_ext now) H).
  reflexivity.
Qed.

Lemma unavailable_cases {A} (capability : option (A -> option string)) :
  unavailable capability ->
  capability = None
  \/ exists f, capability = Some f /\ forall x, f x = (fun _ => None) x.
Proof.
  intros H. destruct capability as [f|]; [right|left; reflexivity].
  exists f. split; [reflexivity|]. intros x. apply (H f eq_refl).
Qed.

Section EmptyTranscript.
Context {lib : PyLib}.
Variables (now t0 : Q) (d : option DataLoader).

Lemma run_pipeline_unavailable (raw : string) (l : option LLMClient)
    (c : option TranscriptCleaner) (update_memory : bool) (mem : MemoryState) :
  unavailable l -> unavailable c ->
  exists l' c',
    In l' [None; Some failing_llm] /\ In c' [None; Some failing_cleaner]
    /\ run_pipeline now raw l c d update_memory t0 mem =
       run_pipeline now raw l' c' d update_memory t0 mem.
Proof.
  intros Hl Hc.
  destruct (unavailable_cases l Hl) as [->|[f [-> Hf]]];
    destruct (unavailable_cases c Hc) as [->|[g [-> Hg]]].
  - exists None, None. simpl. auto.
  - exists None, (Some failing_cleaner). simpl. repeat split; auto.
    apply run_pipeline_ext. split; simpl; auto.
  - exists (Some failing_llm), None. simpl. repeat split; auto.
    apply run_pipeline_ext. split; simpl; auto.
  - exists (Some failing_llm), (Some failing_cleaner). simpl. repeat split; auto.
    apply run_pipeline_ext. split; simpl; auto.
Qed.

End EmptyTranscript.

(* ================================================================== *)
(** * Outcomes: a weakest-precondition calculus                        *)
(* ================================================================== *)

Section WP.
Context {S : Type}.

Lemma wp_ret {A} (a : A) (Q : A -> S -> Prop) E (s : S) :
  Q a s -> wp (ret a) Q E s.
Proof. intros H. exact H. Qed.

Lemma wp_get (Q : S -> S -> Prop) E (s : S) :
  Q s s -> wp get Q E s.
Proof. intros H. exact H. Qed.

Lemma wp_modify (f : S -> S) (Q : unit -> S -> Prop) E (s : S) :
  Q tt (f s) -> wp (modify f) Q E s.
Proof. intros H. exact H. Qed.

Lemma wp_raise {A} (e : exn) (Q : A -> S -> Prop) (E : exn -> S -> Prop) (s : S) :
  E e s -> wp (raise e) Q E s.
Proof. intros H. exact H. Qed.

Lemma wp_lift {A} (r : result A) (Q : A -> S -> Prop) (E : exn -> S -> Prop) (s : S) :
  match r with inl e => E e s | inr a => Q a s end -> wp (lift r) Q E s.
Proof. destruct r; intros H; exact H. Qed.

Lemma wp_of_capability (r : option string) (Q : string -> S -> Prop)
    (E : exn -> S -> Prop) (s : S) :
  match r with Some text => Q text s | None => E CapabilityError s end ->
  wp (of_capability r) Q E s.
Proof. destruct r; intros H; exact H. Qed.

Lemma wp_bind {A B} (m : M S A) (k : A -> M S B) (Q : B -> S -> Prop) E (s : S) :
  wp m (fun a s' => wp (k a) Q E s') E s -> wp (bind m k) Q E s.
Proof.
  unfold wp. rewrite out_bind, final_bind.
  destruct (out (m s)); intros H; exact H.
Qed.

Lemma wp_bind_inv {A B} (m : M S A) (k : A -> M S B) (Q : B -> S -> Prop) E (s : S) :
  wp (bind m k) Q E s -> wp m (fun a s' => wp (k a) Q E s') E s.
Proof.
  unfold wp. rewrite out_bind, final_bind.
  destruct (out (m s)); intros H; exact H.
Qed.

Lemma wp_try_except {A} (body : M S A) (h : exn -> M S A)
    (Q : A -> S -> Prop) E (s : S) :
  wp body Q (fun e s' => wp (h e) Q E s') s -> wp (try_except body h) Q E s.
Proof.
  unfold wp, try_except. cbv zeta.
  destruct (out (body s)) eqn:Ho; intros H.
  - rewrite Ho. exact H.
  - exact H.
Qed.

Lemma wp_conseq {A} (m : M S A) (Q Q' : A -> S -> Prop)
    (E E' : exn -> S -> Prop) (s : S) :
  wp m Q E s ->
  (forall a s', Q a s' -> Q' a s') ->
  (forall e s', E e s' -> E' e s') ->
  wp m Q' E' s.
Proof.
  unfold wp. destruct (out (m s)); intros H HQ HE; auto.
Qed.

Lemma wp_reads_only {A} (m : M S A) (a : S -> A) (Q : A -> S -> Prop) E (s : S) :
  reads_only m a -> Q (a s) s -> wp m Q E s.
Proof. intros Hm H. unfold wp. rewrite (Hm s). exact H. Qed.

Lemma wp_let {T A} (v : T) (b : T -> M S A) (Q : A -> S -> Prop) E (s : S) :
  (forall x, x = v -> wp (b x) Q E s) -> wp (let x := v in b x) Q E s.
Proof. intros H. apply (H v eq_refl). Qed.

(** A loop with an invariant. *)
Lemma wp_for_each {A} (I : S -> Prop) (l : list A) (body : A -> M S unit)
    (E : exn -> S -> Prop) (s : S) :
  (forall x s', In x l -> I s' -> wp (body x) (fun _ => I) E s') ->
  I s -> wp (for_each l body) (fun _ => I) E s.
Proof.
  revert s. induction l as [|x l IH]; intros s Hbody Hs.
  - exact Hs.
  - simpl. apply wp_bind.
    apply wp_conseq with (Q := fun _ => I) (E := E).
    + apply Hbody; [left; reflexivity|exact Hs].
    + intros _ s' Hs'. apply IH; [|exact Hs'].
      intros y s'' Hy. apply Hbody. right. exact Hy.
    + auto.
Qed.

End WP.

(** One step of symbolic execution. *)
Ltac wp_step :=
  lazymatch goal with
  | |- wp (bind _ _) _ _ _ => apply wp_bind
  | |- wp (try_except _ _) _ _ _ => apply wp_try_except
  | |- wp (ret _) _ _ _ => apply wp_ret
  | |- wp get _ _ _ => apply wp_get
  | |- wp (modify _) _ _ _ => apply wp_modify
  | |- wp (raise _) _ _ _ => apply wp_raise
  | |- wp (lift _) _ _ _ => apply wp_lift
  | |- wp (of_capability _) _ _ _ => apply wp_of_capability
  | |- wp (get_messages_for_agent _ _) _ _ _ =>
      apply (wp_reads_only _ _ _ _ _ (get_messages_reads_only _ _))
  | |- wp incr_step_count _ _ _ => unfold incr_step_count
  | |- wp incr_tool_calls _ _ _ => unfold incr_tool_calls
  | |- wp incr_tool_successes _ _ _ => unfold incr_tool_successes
  | |- wp (send_message _ _ _ _) _ _ _ => unfold send_message
  | |- wp (chat _ _) _ _ _ => unfold chat
  | |- wp (let x := _ in _) _ _ _ => cbv zeta
  end; cbv beta.

(** Symbolic execution as far as the code is known. *)
Ltac wp_run := repeat first [wp_step | progress cbn [ok throw]].

(* ================================================================== *)
(** * The memory fold returns                                          *)
(* ================================================================== *)

Section MemoryFold.
Context {lib : PyLib}.

Lemma wp_fold_score (key : string) (eval_data : dict) (n : Z)
    (read : MemoryState -> Q) (write : Q -> MemoryState -> MemoryState)
    (m : MemoryState) :
  (forall v, dict_get key eval_data = Some v -> exists q, py_float v = ok q) ->
  n <> 0 ->
  (forall q m', total_calls (write q m') = total_calls m') ->
  wp (fold_score key eval_data n read write)
    (fun _ m' => total_calls m' = total_calls m) no_exn m.
Proof.
  intros Hfloat Hn Hwrite. unfold fold_score.
  destruct (dict_get key eval_data) as [v|] eqn:Hv.
  - destruct (Hfloat v eq_refl) as [q Hq].
    repeat wp_step. rewrite Hq.
    repeat wp_step. unfold _update_running_avg.
    destruct (Z.eqb_spec n 0) as [H0|_]; [contradiction|].
    repeat wp_step. apply Hwrite.
  - wp_step. reflexivity.
Qed.

(** Sequencing under an invariant, when nothing may raise. *)
Lemma wp_seq_invariant {S A B} (I : S -> Prop) (m : M S A) (k : A -> M S B)
    (Q : B -> S -> Prop) (s : S) :
  I s ->
  (forall s', I s' -> wp m (fun _ => I) no_exn s') ->
  (forall a s', I s' -> wp (k a) Q no_exn s') ->
  wp (bind m k) Q no_exn s.
Proof.
  intros Hs Hm Hk. apply wp_bind.
  apply wp_conseq with (Q := fun _ => I) (E := no_exn); auto.
Qed.

Lemma update_memory_from_call_returns (cs : CallState) (mem : MemoryState) :
  foldable cs -> 0 <= total_calls mem ->
  wp (update_memory_from_call cs)
    (fun _ m' => total_calls m' = total_calls mem + 1) no_exn mem.
Proof.
  intros (Hpp & Hprod & Hscores) Hpos. unfold update_memory_from_call.
  repeat wp_step. unfold count_bump at 1. cbn [hashable ok].
  repeat wp_step. cbn [total_calls set_total_calls].
  set (m1 := set_sentiment_counts _ _).
  set (I := fun m' : MemoryState => total_calls m' = total_calls mem + 1).
  assert (Hscore : forall key read write m',
             In key SCORE_KEYS ->
             (forall q m'', total_calls (write q m'') = total_calls m'') ->
             I m' ->
             wp (fold_score key (evaluation cs) (total_calls mem + 1) read write)
               (fun _ => I) no_exn m').
  { intros key read write m' Hkey Hwrite Hm'.
    apply wp_conseq with (Q := fun _ m'' => total_calls m'' = total_calls m')
                         (E := no_exn); [|unfold I in *; intros; congruence|auto].
    apply wp_fold_score; [|lia|exact Hwrite].
    intros v. apply Hscores. exact Hkey. }
  apply wp_conseq with (Q := fun _ => I) (E := no_exn); [| |auto].
  - apply wp_for_each; [|reflexivity].
    intros p m' Hin Hm'. repeat wp_step. unfold count_bump.
    rewrite Forall_forall in Hpp. rewrite (Hpp p Hin).
    repeat wp_step. exact Hm'.
  - intros _ m2 Hm2.
    apply (wp_seq_invariant I); [exact Hm2| |].
    + intros m' Hm'.
      destruct (truthy (dict_get_default "product" PNone (entities cs))) eqn:Ht.
      * repeat wp_step. unfold count_bump. rewrite (Hprod eq_refl).
        repeat wp_step. exact Hm'.
      * wp_step. exact Hm'.
    + intros _ m3 Hm3.
      apply (wp_seq_invariant I); [exact Hm3| |].
      * intros m' Hm'. apply Hscore; [simpl; auto|reflexivity|exact Hm'].
      * intros _ m4 Hm4.
        apply (wp_seq_invariant I); [exact Hm4| |].
        -- intros m' Hm'. apply Hscore; [simpl; auto|reflexivity|exact Hm'].
        -- intros _ m5 Hm5. apply Hscore; [simpl; auto|reflexivity|exact Hm5].
Qed.

End MemoryFold.

(* ================================================================== *)
(** * The supervisor                                                   *)
(* ================================================================== *)

Section Supervisor.
Context {lib : PyLib}.

Lemma run_pipeline_in_raised (registry : Registry) (order : list string)
    (raw : string) (l : option LLMClient) (c : option TranscriptCleaner)
    (d : option DataLoader) (update_memory : bool) (t0 : Q) (mem : MemoryState)
    (e : exn) :
  out (pipeline_run registry order raw (default_tools l c d) t0) = Raised e ->
  run_pipeline_in registry order raw l c d update_memory t0 mem = (Raised e, mem).
Proof. intros H. unfold run_pipeline_in. rewrite H. reflexivity. Qed.

Lemma run_pipeline_in_returned (registry : Registry) (order : list string)
    (raw : string) (l : option LLMClient) (c : option TranscriptCleaner)
    (d : option DataLoader) (update_memory : bool) (t0 : Q) (mem : MemoryState) :
  let r := pipeline_run registry order raw (default_tools l c d) t0 in
  out r = Returned tt ->
  (update_memory = true -> foldable (final r) /\ 0 <= total_calls mem) ->
  fst (run_pipeline_in registry order raw l c d update_memory t0 mem) =
  Returned (final r).
Proof.
  intros r Hr Hmem. unfold run_pipeline_in. fold r. rewrite Hr.
  destruct update_memory; [|reflexivity].
  destruct (Hmem eq_refl) as [Hf Hpos].
  pose proof (update_memory_from_call_returns (final r) mem Hf Hpos) as Hu.
  unfold wp in Hu.
  destruct (out (update_memory_from_call (final r) mem)); [reflexivity|].
  destruct Hu.
Qed.

End Supervisor.

(* ================================================================== *)
(** * The empty transcript                                             *)
(* ================================================================== *)

Section EmptyTranscriptRun.
Context {lib : PyLib}.
Variables (now t0 : Q) (d : option DataLoader).

Lemma empty_transcript_run (l : option LLMClient) (c : option TranscriptCleaner) :
  In l [None; Some failing_llm] -> In c [None; Some failing_cleaner] ->
  let r := pipeline_run (AGENT_REGISTRY now) AGENT_EXECUTION_ORDER ""
             (default_tools l c d) t0 in
  out r = Returned tt /\ empty_transcript_outcome (final r) /\ foldable (final r).
Proof.
  intros Hl Hc r.
  assert (Hrun : out r = Returned tt
                 /\ empty_transcript_outcome (final r)
                 /\ dict_get_default "product" PNone (entities (final r)) = PNone
                 /\ forall key, In key SCORE_KEYS ->
                      dict_get key (evaluation (final r)) = Some (PFloat 1)).
  { subst r. simpl in Hl, Hc.
    destruct Hl as [<-|[<-|[]]]; destruct Hc as [<-|[<-|[]]];
      (split; [vm_compute; reflexivity|]);
      (split; [repeat split; vm_compute; reflexivity|]);
      (split; [vm_compute; reflexivity|]);
      intros key [<-|[<-|[<-|[]]]]; vm_compute; reflexivity. }
  destruct Hrun as (Ho & Hf & Hprod & Hscores).
  split; [exact Ho|]. split; [exact Hf|].
  destruct Hf as (_ & _ & Hpp & _).
  split; [|split].
  - rewrite Hpp. repeat constructor.
  - rewrite Hprod. discriminate.
  - intros key v Hkey Hv. rewrite (Hscores key Hkey) in Hv.
    injection Hv as <-. exists 1%Q. reflexivity.
Qed.

End EmptyTranscriptRun.

(** C4 (as the code has it). On the empty transcript, with each
    capability absent or raising on every call, [run_pipeline] returns a
    call state with [sentiment == "unknown"], the fixed summary,
    [pain_points == ["unclear primary pain point"]] and
    [step_count == len(AGENT_EXECUTION_ORDER) + 1]: the evaluation agent
    runs after the seven agents of the execution order and counts as a
    step.  (The memory, when it is updated, has a non-negative number of
    calls, as every memory built from [MemoryState()] has.) *)
Theorem empty_transcript_falls_back :
  forall (lib : PyLib) (now t0 : Q) (llm_client : option LLMClient)
         (cleaner : option TranscriptCleaner) (data_loader : option DataLoader)
         (update_memory : bool) (GLOBAL_MEMORY : MemoryState),
    unavailable llm_client ->
    unavailable cleaner ->
    (update_memory = true -> 0 <= total_calls GLOBAL_MEMORY) ->
    exists s,
      fst (run_pipeline now "" llm_client cleaner data_loader update_memory t0
             GLOBAL_MEMORY) = Returned s
      /\ empty_transcript_outcome s.
Proof.
  intros lib now t0 l c d um mem Hl Hc Hmem.
  destruct (run_pipeline_unavailable now t0 d "" l c um mem Hl Hc)
    as (l' & c' & Hl' & Hc' & E).
  rewrite E.
  destruct (empty_transcript_run now t0 d l' c' Hl' Hc') as (Ho & Hf & Hfold).
  eexists. split.
  - unfold run_pipeline. apply run_pipeline_in_returned; [exact Ho|].
    intros Hum. split; [exact Hfold|exact (Hmem Hum)].
  - exact Hf.
Qed.

(** Witness of [empty_transcript_falls_back]: both capabilities present
    and raising on every call, memory updated from a fresh memory. *)
Lemma empty_transcript_falls_back_witness :
  unavailable (Some failing_llm)
  /\ unavailable (Some failing_cleaner)
  /\ 0 <= total_calls new_MemoryState
  /\ exists s,
       fst (@run_pipeline example_lib 0 "" (Some failing_llm)
              (Some failing_cleaner) None true 0 new_MemoryState) = Returned s
       /\ empty_transcript_outcome s.
Proof.
  assert (Hl : unavailable (Some failing_llm)).
  { intros f H x. injection H as <-. reflexivity. }
  assert (Hc : unavailable (Some failing_cleaner)).
  { intros f H x. injection H as <-. reflexivity. }
  assert (Hm : 0 <= total_calls new_MemoryState) by (simpl; lia).
  split; [exact Hl|]. split; [exact Hc|]. split; [exact Hm|].
  exact (empty_transcript_falls_back example_lib 0 0 (Some failing_llm)
           (Some failing_cleaner) None true new_MemoryState Hl Hc (fun _ => Hm)).
Defined.

(** C4, as stated, fails: on the empty transcript with no capability the
    run ends with [step_count == 8], while the execution order has 7
    names. *)
Lemma empty_transcript_counts_eight_steps :
  exists s,
    fst (@run_pipeline example_lib 0 "" None None None true 0 new_MemoryState)
      = Returned s
    /\ step_count s = 8
    /\ Z.of_nat (List.length AGENT_EXECUTION_ORDER) = 7
    /\ step_count s <> Z.of_nat (List.length AGENT_EXECUTION_ORDER).
Proof.
  eexists. split; [vm_compute; reflexivity|].
  split; [reflexivity|]. split; [reflexivity|].
  vm_compute. discriminate.
Qed.



(* ================================================================== *)
(** * Replies of the wrong shape                                       *)
(* ================================================================== *)

(** C3. With a language model that answers [{"faithfulness_score": null}]
    to every prompt, and whatever the clock and the memory, [run_pipeline]
    on the transcript [hello] does not return a call state: the seven
    agents of the execution order run (seven steps), the evaluation agent
    parses the reply, and [float(None)], which stands after its [try]
    block, raises [TypeError], which leaves [run_pipeline]; [evaluation]
    was never written and the memory is not updated. *)
Theorem run_pipeline_raises_on_null_score :
  forall (now t0 : Q) (update_memory : bool) (GLOBAL_MEMORY : MemoryState),
    let client := constant_llm NULL_SCORE_REPLY in
    let r := pipeline_run (@AGENT_REGISTRY example_lib now) AGENT_EXECUTION_ORDER
               "hello" (default_tools (Some client) None None) t0 in
    @json_loads example_lib NULL_SCORE_REPLY
      = Some (PDict [("faithfulness_score", PNone)])
    /\ @py_float example_lib PNone = throw TypeError
    /\ @run_pipeline example_lib now "hello" (Some client) None None
         update_memory t0 GLOBAL_MEMORY = (Raised TypeError, GLOBAL_MEMORY)
    /\ out r = Raised TypeError
    /\ step_count (final r) = 7
    /\ evaluation (final r) = [].
Proof.
  intros now t0 um mem client r.
  assert (Hr : out r = Raised TypeError) by (vm_compute; reflexivity).
  split; [reflexivity|]. split; [reflexivity|].
  split; [apply run_pipeline_in_raised; exact Hr|].
  split; [exact Hr|].
  split; vm_compute; reflexivity.
Qed.

(** C8. Every name the supervisor looks up is registered, and a name
    that is not registered raises [KeyError]; yet with a language model
    that answers [{"faithfulness_score": null}] to every prompt
    [run_pipeline] raises [TypeError]: an exception that is not the
    unknown-agent failure leaves [run_pipeline], and it comes from a
    reply of the wrong shape inside an agent. *)
Theorem run_pipeline_raises_other_than_unknown_agent :
  forall (now t0 : Q) (update_memory : bool) (GLOBAL_MEMORY : MemoryState),
    let client := constant_llm NULL_SCORE_REPLY in
    (forall name, In name ("evaluation" :: AGENT_EXECUTION_ORDER) ->
       exists agent, @get_agent example_lib now name = ok agent)
    /\ @get_agent example_lib now "billing" = throw (KeyError "billing")
    /\ fst (@run_pipeline example_lib now "hello" (Some client) None None
              update_memory t0 GLOBAL_MEMORY) = Raised TypeError
    /\ is_KeyError TypeError = false.
Proof.
  intros now t0 um mem client.
  split.
  - intros name Hin. simpl in Hin.
    repeat (destruct Hin as [<-|Hin]; [eexists; reflexivity|]).
    destruct Hin.
  - split; [reflexivity|].
    split; [|reflexivity].
    unfold run_pipeline. rewrite run_pipeline_in_raised with (e := TypeError).
    + reflexivity.
    + vm_compute. reflexivity.
Qed.

(** C10. Run on a fresh call state with a language model that answers
    [{"faithfulness_score": null}], the evaluation agent counts the call
    as a success, parses the reply, and raises [TypeError] at
    [float(None)]: it returns nothing and writes none of the three score
    keys into [evaluation]. *)
Theorem evaluation_agent_raises_on_null_score :
  forall (now : Q),
    let tools := Some (default_tools (Some (constant_llm NULL_SCORE_REPLY)) None None) in
    let s := new_CallState "hello" 0 in
    let r := @evaluation_agent example_lib now tools s in
    out r = Raised TypeError
    /\ tool_calls (final r) = 1
    /\ tool_successes (final r) = 1
    /\ step_count (final r) = 0
    /\ evaluation (final r) = []
    /\ (forall key, In key SCORE_KEYS ->
          dict_has key (evaluation (final r)) = false).
Proof.
  intros now tools s r.
  assert (He : evaluation (final r) = []) by (vm_compute; reflexivity).
  split; [vm_compute; reflexivity|].
  split; [vm_compute; reflexivity|].
  split; [vm_compute; reflexivity|].
  split; [vm_compute; reflexivity|].
  split; [exact He|].
  intros key _. rewrite He. reflexivity.
Qed.

(** A second reply of the wrong shape: with [{"issue": ["login"]}] the
    entities agent stores a list as the issue, the pain-points agent
    falls back to its rules, and hashing the list in the loop that
    removes duplicates raises [TypeError] out of [run_pipeline]. *)
Example run_pipeline_raises_on_list_issue :
  forall (now t0 : Q) (update_memory : bool) (GLOBAL_MEMORY : MemoryState),
    let r := pipeline_run (@AGENT_REGISTRY example_lib now) AGENT_EXECUTION_ORDER
               "hello" (default_tools (Some (constant_llm ISSUE_LIST_REPLY)) None None)
               t0 in
    out r = Raised TypeError
    /\ step_count (final r) = 5
    /\ pain_points (final r) = []
    /\ fst (@run_pipeline example_lib now "hello"
              (Some (constant_llm ISSUE_LIST_REPLY)) None None
              update_memory t0 GLOBAL_MEMORY) = Raised TypeError.
Proof.
  intros now t0 um mem r.
  assert (Hr : out r = Raised TypeError) by (vm_compute; reflexivity).
  split; [exact Hr|].
  split; [vm_compute; reflexivity|].
  split; [vm_compute; reflexivity|].
  unfold run_pipeline. rewrite run_pipeline_in_raised with (e := TypeError).
  - reflexivity.
  - exact Hr.
Qed.

(* ================================================================== *)
(** * One step per agent                                               *)
(* ================================================================== *)

Lemma wp_ext {S A} (m m' : M S A) (Q : A -> S -> Prop) (E : exn -> S -> Prop) (s : S) :
  m s = m' s -> wp m' Q E s -> wp m Q E s.
Proof. intros Heq H. unfold wp in *. rewrite Heq. exact H. Qed.

Lemma wp_top {S A} (m : M S A) (Q : A -> S -> Prop) (E : exn -> S -> Prop) (s : S) :
  (forall a s', Q a s') -> (forall e s', E e s') -> wp m Q E s.
Proof. intros HQ HE. unfold wp. destruct (out (m s)); auto. Qed.

(** A relation that every step of [m] respects holds between the state
    [m] starts from and the state it ends in, however it ends. *)
Lemma wp_of_traces {S A} (R : S -> S -> Prop) (m : M S A)
    (Q : A -> S -> Prop) (E : exn -> S -> Prop) (s : S) :
  (forall x, R x x) -> (forall a b c, R a b -> R b c -> R a c) ->
  traces R m ->
  (forall a s', R s s' -> Q a s') ->
  (forall e s', R s s' -> E e s') ->
  wp m Q E s.
Proof.
  intros Hrefl Htrans Hm HQ HE. unfold wp.
  pose proof (traces_final R Hrefl Htrans m s Hm) as H.
  destruct (out (m s)); auto.
Qed.

Ltac same_step_tac := unfold same_step_count; cbn; auto.

(** Symbolic execution for the step counter: whatever stands before the
    increment leaves the counter alone. *)
Ltac steps_with known :=
  repeat lazymatch goal with
    | |- wp (bind incr_step_count _) _ _ _ =>
        apply wp_bind; unfold incr_step_count at 1; apply wp_modify; cbv beta
    | |- wp incr_step_count _ _ _ =>
        unfold incr_step_count; apply wp_modify
    | |- wp (bind ?m _) _ _ _ =>
        apply wp_bind;
        apply (wp_of_traces same_step_count m _ _ _
                 same_step_count_refl same_step_count_trans);
        [ traces_with same_step_tac known
        | let H := fresh "Hstep" in intros ? ? H; cbv beta
        | intros; exact I ]
    | |- wp (let x := _ in _) _ _ _ => cbv zeta
    | |- wp (match ?x with _ => _ end) _ _ _ => destruct x
    | |- wp ?m _ _ _ =>
        apply (wp_of_traces same_step_count m _ _ _
                 same_step_count_refl same_step_count_trans);
        [ traces_with same_step_tac known
        | let H := fresh "Hstep" in intros ? ? H
        | intros; exact I ]
    end;
  unfold same_step_count in *; cbn [step_count set_step_count] in *;
  try lia.

Section Steps.
Context {lib : PyLib}.

Lemma cleaning_agent_one_step : one_step cleaning_agent.
Proof. intros tools s. unfold cleaning_agent. steps_with fail. Qed.

Lemma entities_agent_one_step : one_step entities_agent.
Proof. intros tools s. unfold entities_agent. steps_with fail. Qed.

Lemma summarization_agent_one_step : one_step summarization_agent.
Proof. intros tools s. unfold summarization_agent. steps_with fail. Qed.

Lemma sentiment_agent_one_step : one_step sentiment_agent.
Proof. intros tools s. unfold sentiment_agent. steps_with fail. Qed.

Lemma frustration_loop_agent_one_step : one_step frustration_loop_agent.
Proof. intros tools s. unfold frustration_loop_agent. steps_with fail. Qed.

Lemma _rule_based_pain_points_same_step :
  traces same_step_count _rule_based_pain_points.
Proof. unfold _rule_based_pain_points. traces_with same_step_tac fail. Qed.

Lemma pain_points_agent_one_step : one_step pain_points_agent.
Proof.
  intros tools s. unfold pain_points_agent.
  steps_with ltac:(apply _rule_based_pain_points_same_step).
Qed.

Lemma actions_agent_one_step : one_step actions_agent.
Proof. intros tools s. unfold actions_agent. steps_with fail. Qed.

Lemma evaluation_agent_one_step (now : Q) : one_step (evaluation_agent now).
Proof.
  intros tools s. unfold evaluation_agent.
  steps_with ltac:(apply traces_compute_basic_eval).
Qed.

End Steps.

(* ================================================================== *)
(** * The evaluation agent, when it returns                            *)
(* ================================================================== *)

Lemma compute_basic_eval_reads (now : Q) :
  reads_only (compute_basic_eval now) (basic_eval_of now).
Proof. intros s. reflexivity. Qed.

Section EvaluationAgent.
Context {lib : PyLib}.

Lemma py_get_not_KeyError (v : pyval) (k : string) (default : pyval) (e : exn) :
  py_get v k default = inl e -> is_KeyError e = false.
Proof. destruct v; simpl; intros H; inversion H; reflexivity. Qed.

Lemma py_float_not_KeyError (v : pyval) (e : exn) :
  py_float v = inl e -> is_KeyError e = false.
Proof.
  unfold py_float.
  destruct v as [ | | z | | s | | ];
    try destruct (Z.abs z <? FLOAT_INT_LIMIT);
    try destruct (float_of_str s);
    intros H; inversion H; reflexivity.
Qed.

Lemma score_of_not_KeyError (v : pyval) (k : string) (e : exn) :
  score_of v k = inl e -> is_KeyError e = false.
Proof.
  unfold score_of, rbind.
  destruct (py_get v k (PFloat 1)) as [e'|w] eqn:Hg.
  - intros H. injection H as <-. apply (py_get_not_KeyError _ _ _ _ Hg).
  - apply py_float_not_KeyError.
Qed.

(** What the agent does once [llm_scores] is settled. *)
Lemma evaluation_agent_tail (now : Q) (llm_scores : pyval) (s0 s : CallState) :
  step_count s = step_count s0 ->
  wp (basic_eval <- compute_basic_eval now ;;
      faithfulness <- lift (score_of llm_scores "faithfulness_score") ;;
      coverage <- lift (score_of llm_scores "coverage_score") ;;
      consistency <- lift (score_of llm_scores "consistency_score") ;;
      notes <- lift (py_get llm_scores "notes" (PStr "")) ;;
      modify (set_evaluation
                (dict_merge basic_eval
                   [("faithfulness_score", PFloat faithfulness);
                    ("coverage_score", PFloat coverage);
                    ("consistency_score", PFloat consistency);
                    ("eval_notes", notes)])) ;;
      incr_step_count)
    (fun _ s' =>
       step_count s' = step_count s0 + 1
       /\ scores_written s'
       /\ (score_of llm_scores "faithfulness_score" = ok 1%Q ->
           score_of llm_scores "coverage_score" = ok 1%Q ->
           score_of llm_scores "consistency_score" = ok 1%Q ->
           scores_default s')
       /\ (forall key q, In key SCORE_KEYS ->
             score_of llm_scores key = ok q ->
             dict_get key (evaluation s') = Some (PFloat q)))
    (fun e _ => is_KeyError e = false) s.
Proof.
  intros Hstep.
  apply wp_bind. apply (wp_reads_only _ _ _ _ _ (compute_basic_eval_reads now)).
  cbv beta.
  wp_step. wp_step.
  destruct (score_of llm_scores "faithfulness_score") as [e|f] eqn:Hf;
    [apply (score_of_not_KeyError _ _ _ Hf)|].
  wp_step. wp_step.
  destruct (score_of llm_scores "coverage_score") as [e|c] eqn:Hc;
    [apply (score_of_not_KeyError _ _ _ Hc)|].
  wp_step. wp_step.
  destruct (score_of llm_scores "consistency_score") as [e|k] eqn:Hk;
    [apply (score_of_not_KeyError _ _ _ Hk)|].
  wp_step. wp_step.
  destruct (py_get llm_scores "notes" (PStr "")) as [e|notes] eqn:Hn;
    [apply (py_get_not_KeyError _ _ _ _ Hn)|].
  repeat wp_step.
  split; [cbn; lia|].
  split; [|split].
  - intros key [<-|[<-|[<-|[]]]]; eexists; reflexivity.
  - intros H1 H2 H3. injection H1 as ->. injection H2 as ->. injection H3 as ->.
    intros key [<-|[<-|[<-|[]]]]; reflexivity.
  - intros key q [<-|[<-|[<-|[]]]] Hq.
    + rewrite Hf in Hq. injection Hq as ->. reflexivity.
    + rewrite Hc in Hq. injection Hq as ->. reflexivity.
    + rewrite Hk in Hq. injection Hq as ->. reflexivity.
Qed.

End EvaluationAgent.

Section EvaluationAgentOutcome.
Context {lib : PyLib}.

Lemma settle_llm_scores_outcome (tools : option Tools) (s : CallState) :
  wp (settle_llm_scores tools)
    (fun llm_scores s' =>
       step_count s' = step_count s
       /\ (no_usable_reply tools s -> llm_scores = PDict _default_llm_scores))
    no_exn s.
Proof.
  unfold settle_llm_scores, no_usable_reply.
  destruct (llm_of tools) as [client|].
  - wp_run.
    destruct (client (_build_eval_prompt s)) as [content|];
      [|wp_run; split; reflexivity].
    wp_run. unfold py_json_loads.
    destruct (json_loads (strip content)) as [parsed|];
      [|wp_run; split; reflexivity].
    wp_run.
    destruct (fill_missing_scores _default_llm_scores parsed) as [e|scores];
      wp_run; (split; [reflexivity|]); intros H; discriminate H.
  - wp_step. split; reflexivity.
Qed.

(** Whatever the tools, the evaluation agent either returns, having
    added one step and written the three scores as floats, or raises an
    exception that is not a [KeyError]. *)
Lemma evaluation_agent_outcome (now : Q) (tools : option Tools) (s : CallState) :
  wp (evaluation_agent now tools)
    (fun _ s' => step_count s' = step_count s + 1 /\ scores_written s')
    (fun e _ => is_KeyError e = false) s.
Proof.
  unfold evaluation_agent. cbv zeta. fold (settle_llm_scores tools).
  apply wp_bind.
  eapply wp_conseq; [apply settle_llm_scores_outcome| |intros e s' H; destruct H].
  cbv beta. intros llm_scores s1 [Hs1 _].
  eapply wp_conseq; [apply (evaluation_agent_tail now llm_scores s s1 Hs1)| |].
  - cbv beta. intros _ s' H. tauto.
  - cbv beta. intros e s' H. exact H.
Qed.

(** With no usable reply the agent returns and every score is [1.0]. *)
Lemma evaluation_agent_defaults (now : Q) (tools : option Tools) (s : CallState) :
  no_usable_reply tools s ->
  wp (evaluation_agent now tools)
    (fun _ s' => step_count s' = step_count s + 1 /\ scores_default s')
    no_exn s.
Proof.
  intros Hno. unfold evaluation_agent. cbv zeta. fold (settle_llm_scores tools).
  apply wp_bind.
  eapply wp_conseq; [apply settle_llm_scores_outcome| |intros e s' H; destruct H].
  cbv beta. intros llm_scores s1 [Hs1 Hd]. rewrite (Hd Hno).
  apply wp_bind. apply (wp_reads_only _ _ _ _ _ (compute_basic_eval_reads now)).
  cbv beta. wp_run. cbn [score_of rbind py_get py_float ok dict_get_default].
  wp_run. cbn [score_of rbind py_get py_float ok dict_get_default].
  wp_run. cbn [score_of rbind py_get py_float ok dict_get_default].
  wp_run.
  split; [cbn; lia|].
  intros key [<-|[<-|[<-|[]]]]; reflexivity.
Qed.

(** ** A reply that omits a score *)

Lemma dict_get_set_same (k : string) (v : pyval) (d : dict) :
  dict_get k (dict_set k v d) = Some v.
Proof.
  induction d as [|[k' v'] d IH]; cbn [dict_set dict_get].
  - rewrite String.eqb_refl. reflexivity.
  - destruct (String.eqb k k') eqn:E; cbn [dict_get]; rewrite E; [reflexivity|exact IH].
Qed.

Lemma dict_get_set_other (k k' : string) (v : pyval) (d : dict) :
  k <> k' -> dict_get k' (dict_set k v d) = dict_get k' d.
Proof.
  intros Hne. induction d as [|[k0 v0] d IH]; cbn [dict_set dict_get].
  - destruct (String.eqb_spec k' k); [congruence|reflexivity].
  - destruct (String.eqb_spec k k0) as [->|Hk]; cbn [dict_get].
    + destruct (String.eqb_spec k' k0); [congruence|reflexivity].
    + rewrite IH. reflexivity.
Qed.

(** [ensure_key] on a dictionary: the key is there afterwards, with its
    old value or with the default, and no other key moves. *)
Lemma ensure_key_dict (key : string) (default : pyval) (d : dict) :
  exists d',
    ensure_key key default (PDict d) = ok (PDict d')
    /\ dict_get key d' =
       Some (match dict_get key d with Some v => v | None => default end)
    /\ forall k, k <> key -> dict_get k d' = dict_get k d.
Proof.
  unfold ensure_key, dict_has.
  destruct (dict_get key d) as [v|] eqn:Hv.
  - exists d. split; [reflexivity|]. split; [exact Hv|reflexivity].
  - exists (dict_set key default d). split; [reflexivity|].
    split; [apply dict_get_set_same|].
    intros k Hk. apply dict_get_set_other. congruence.
Qed.

Lemma fill_missing_scores_dict (d : dict) :
  exists d',
    fill_missing_scores _default_llm_scores (PDict d) = ok (PDict d')
    /\ forall key, In key SCORE_KEYS ->
         dict_get key d' =
         Some (match dict_get key d with Some v => v | None => PFloat 1 end).
Proof.
  unfold fill_missing_scores.
  destruct (ensure_key_dict "faithfulness_score"
              (dict_get_default "faithfulness_score" PNone _default_llm_scores) d)
    as (d1 & -> & H1 & O1).
  cbn [rbind ok].
  destruct (ensure_key_dict "coverage_score"
              (dict_get_default "coverage_score" PNone _default_llm_scores) d1)
    as (d2 & -> & H2 & O2).
  cbn [rbind ok].
  destruct (ensure_key_dict "consistency_score"
              (dict_get_default "consistency_score" PNone _default_llm_scores) d2)
    as (d3 & -> & H3 & O3).
  cbn [rbind ok].
  destruct (ensure_key_dict "notes" (PStr "") d3) as (d4 & -> & _ & O4).
  exists d4. split; [reflexivity|].
  intros key [<-|[<-|[<-|[]]]].
  - rewrite O4, O3, O2 by discriminate. exact H1.
  - rewrite O4, O3 by discriminate. rewrite H2, O1 by discriminate. reflexivity.
  - rewrite O4 by discriminate. rewrite H3, O2, O1 by discriminate. reflexivity.
Qed.

(** The reply parses to a dictionary: a score key it omits is written
    as [1.0] whenever the agent returns. *)
Lemma evaluation_agent_omitted_key (now : Q) (tools : option Tools)
    (client : LLMClient) (content : string) (d : dict) (s : CallState) :
  llm_of tools = Some client ->
  client (_build_eval_prompt s) = Some content ->
  json_loads (strip content) = Some (PDict d) ->
  wp (evaluation_agent now tools)
    (fun _ s' =>
       forall key, In key SCORE_KEYS -> dict_get key d = None ->
         dict_get key (evaluation s') = Some (PFloat 1))
    any_exn s.
Proof.
  intros Hllm Hreply Hjson. unfold evaluation_agent. cbv zeta.
  fold (settle_llm_scores tools).
  destruct (fill_missing_scores_dict d) as (d' & Hfill & Hd').
  apply wp_bind.
  apply wp_conseq with
    (Q := fun v s1 => step_count s1 = step_count s /\ v = PDict d')
    (E := no_exn).
  - unfold settle_llm_scores. rewrite Hllm. wp_run. rewrite Hreply. wp_run.
    unfold py_json_loads. rewrite Hjson. wp_run. rewrite Hfill. wp_run.
    split; reflexivity.
  - intros v s1 [Hs1 ->].
    eapply wp_conseq.
    + apply (evaluation_agent_tail now (PDict d') s s1 Hs1).
    + cbv beta. intros _ s' (_ & _ & _ & H) key Hkey Hnone.
      apply (H key 1%Q Hkey).
      unfold score_of. cbn [py_get rbind ok]. unfold dict_get_default.
      rewrite (Hd' key Hkey), Hnone. reflexivity.
    + intros e s' _. exact I.
  - intros e s' H. destruct H.
Qed.

End EvaluationAgentOutcome.

(* ================================================================== *)
(** * The supervisor: steps, unknown agents, the missing evaluator     *)
(* ================================================================== *)

Lemma AGENT_REGISTRY_one_step {lib : PyLib} (now : Q) :
  registry_one_step (AGENT_REGISTRY now).
Proof.
  intros name agent H. unfold AGENT_REGISTRY in H. cbn [registry_lookup] in H.
  repeat match type of H with
         | (if ?c then _ else _) = _ =>
             destruct c; [injection H as <-|]
         end;
    try discriminate.
  - apply cleaning_agent_one_step.
  - apply entities_agent_one_step.
  - apply summarization_agent_one_step.
  - apply sentiment_agent_one_step.
  - apply frustration_loop_agent_one_step.
  - apply pain_points_agent_one_step.
  - apply actions_agent_one_step.
  - apply evaluation_agent_one_step.
Qed.

(** The loop over the execution order: when it returns, every name was
    registered and [step_count] grew by the length of the order. *)
Lemma for_each_agent_steps (registry : Registry) (tools : Tools)
    (order : list string) (s : CallState) :
  registry_one_step registry ->
  wp (for_each order (lookup_and_run registry tools))
    (fun _ s' =>
       step_count s' = step_count s + Z.of_nat (List.length order)
       /\ forall name, In name order -> registry_lookup registry name <> None)
    any_exn s.
Proof.
  intros Hreg. revert s.
  induction order as [|name order IH]; intros s.
  - apply wp_ret. split; [simpl; lia|]. intros name [].
  - cbn [for_each]. apply wp_bind.
    destruct (registry_lookup registry name) as [agent|] eqn:Hlook.
    + apply wp_ext with (m' := agent (Some tools));
        [apply lookup_and_run_found; exact Hlook|].
      eapply wp_conseq; [apply (Hreg name agent Hlook)| |auto].
      cbv beta. intros _ s1 Hs1.
      eapply wp_conseq; [apply IH| |auto].
      cbv beta. intros _ s2 [Hs2 Hall]. split.
      * rewrite Hs2, Hs1. cbn [List.length]. lia.
      * intros n [<-|Hn]; [congruence|apply Hall; exact Hn].
    + apply wp_ext with (m' := raise (KeyError name));
        [apply lookup_and_run_missing; exact Hlook|].
      apply wp_raise. exact I.
Qed.

(** An unregistered name at the head of the order: the run raises the
    unknown-agent [KeyError] before any write. *)
Lemma bind_raised {S A B} (m : M S A) (k : A -> M S B) (s : S) (e : exn) :
  out (m s) = Raised e ->
  bind m k s = {| writes := writes (m s); final := final (m s); out := Raised e |}.
Proof. intros H. unfold bind. rewrite H. reflexivity. Qed.

Lemma run_agents_unknown_agent (registry : Registry) (tools : Tools)
    (name : string) (order : list string) (s : CallState) :
  registry_lookup registry name = None ->
  run_agents registry (name :: order) tools s =
  {| writes := []; final := s; out := Raised (KeyError name) |}.
Proof.
  intros H. unfold run_agents. cbn [for_each].
  fold (lookup_and_run registry tools name).
  pose proof (lookup_and_run_missing registry tools name s H) as Hrun.
  rewrite (bind_raised _ _ s (KeyError name)).
  - rewrite (bind_raised _ _ s (KeyError name)); rewrite Hrun; reflexivity.
  - rewrite (bind_raised _ _ s (KeyError name)); rewrite Hrun; reflexivity.
Qed.

(** X29. No evaluation agent in the registry: the supervisor does what the
    loop over the execution order does, and nothing else. *)
Lemma run_agents_without_evaluation (registry : Registry) (tools : Tools)
    (order : list string) (s : CallState) :
  registry_lookup registry "evaluation" = None ->
  run_agents registry order tools s =
  for_each order (lookup_and_run registry tools) s.
Proof.
  intros H. unfold run_agents.
  change (fun agent_name : string =>
            bind (lift (get_agent_in registry agent_name))
              (fun agent_fn : AgentFn => agent_fn (Some tools)))
    with (lookup_and_run registry tools).
  fold (lookup_and_run registry tools "evaluation").
  unfold bind at 1.
  destruct (out (for_each order (lookup_and_run registry tools) s)) as [a|e] eqn:Ho.
  - unfold try_except_KeyError, try_except.
    rewrite (lookup_and_run_missing registry tools "evaluation" _ H).
    cbn [out final writes is_KeyError ret app]. rewrite app_nil_r.
    destruct a.
    destruct (for_each order (lookup_and_run registry tools) s) as [w f o].
    cbn [out final writes] in *. subst o. reflexivity.
  - rewrite <- Ho. apply run_eta.
Qed.

Section DefaultRegistry.
Context {lib : PyLib}.

(** With the registry and the order of [graph/agents.py]: a run that
    returns has made eight steps and has the three scores in
    [evaluation]. *)
Lemma run_agents_default_outcome (now : Q) (tools : Tools) (s : CallState) :
  wp (run_agents (AGENT_REGISTRY now) AGENT_EXECUTION_ORDER tools)
    (fun _ s' => step_count s' = step_count s + 8 /\ scores_written s')
    any_exn s.
Proof.
  unfold run_agents.
  change (fun agent_name : string =>
            bind (lift (get_agent_in (AGENT_REGISTRY now) agent_name))
              (fun agent_fn : AgentFn => agent_fn (Some tools)))
    with (lookup_and_run (AGENT_REGISTRY now) tools).
  fold (lookup_and_run (AGENT_REGISTRY now) tools "evaluation").
  apply wp_bind.
  eapply wp_conseq;
    [apply (for_each_agent_steps _ _ _ _ (AGENT_REGISTRY_one_step now))| |auto].
  cbv beta. intros _ s1 [Hs1 _].
  unfold try_except_KeyError. apply wp_try_except.
  apply wp_ext with (m' := evaluation_agent now (Some tools));
    [apply lookup_and_run_found; reflexivity|].
  eapply wp_conseq; [apply evaluation_agent_outcome| |].
  - cbv beta. intros _ s2 [Hs2 Hw]. split; [|exact Hw].
    rewrite Hs2, Hs1. cbn [AGENT_EXECUTION_ORDER List.length]. lia.
  - cbv beta. intros e s2 He. rewrite He. apply wp_raise. exact I.
Qed.

End DefaultRegistry.

(* ================================================================== *)
(** * When the language model is unavailable                           *)
(* ================================================================== *)

(** Symbolic execution with case analysis on whatever the code tests. *)
Ltac wp_cases :=
  repeat first
    [ wp_step
    | progress cbn [ok throw failing_llm]
    | lazymatch goal with
      | |- wp (match ?x with _ => _ end) _ _ _ => destruct x eqn:?
      | |- match ?x with _ => _ end => destruct x eqn:?
      end ].

Section Unavailable.
Context {lib : PyLib}.

Lemma rule_based_entities_plain (text : string) :
  str_or_none (dict_get_default "issue" PNone (rule_based_entities text)) = true
  /\ str_or_none (dict_get_default "product" PNone (rule_based_entities text)) = true.
Proof.
  unfold rule_based_entities. cbv zeta.
  split.
  - change (str_or_none (opt_str (first_keyword ISSUE_KEYWORDS (lower text))) = true).
    destruct (first_keyword ISSUE_KEYWORDS (lower text)); reflexivity.
  - change (str_or_none (opt_str (first_keyword PRODUCT_KEYWORDS (lower text))) = true).
    destruct (first_keyword PRODUCT_KEYWORDS (lower text)); reflexivity.
Qed.

(** The cleaning agent returns, whatever the cleaner does. *)
Lemma cleaning_agent_returns (tools : option Tools) (s : CallState) :
  wp (cleaning_agent tools)
    (fun _ s' => raw_transcript s' = raw_transcript s) no_exn s.
Proof.
  unfold cleaning_agent. wp_cases; reflexivity.
Qed.

(** With no language model the entities agent keeps to its rules. *)
Lemma entities_agent_quiet (tools : option Tools) (s : CallState) :
  quiet tools ->
  wp (entities_agent tools) (fun _ s' => plain_entities s') no_exn s.
Proof.
  intros [H|H]; unfold entities_agent; wp_step; wp_step; rewrite H;
    wp_cases; cbn [entities set_entities set_messages set_step_count set_tool_calls];
    apply rule_based_entities_plain.
Qed.

(** The summarization and sentiment agents return, whatever the
    language model does, and leave the entities alone. *)
Lemma summarization_agent_returns (tools : option Tools) (s : CallState) :
  wp (summarization_agent tools) (fun _ s' => entities s' = entities s) no_exn s.
Proof. unfold summarization_agent. wp_cases; reflexivity. Qed.

Lemma sentiment_agent_returns (tools : option Tools) (s : CallState) :
  wp (sentiment_agent tools) (fun _ s' => entities s' = entities s) no_exn s.
Proof. unfold sentiment_agent. wp_cases; reflexivity. Qed.

(** ** The frustration timeline *)

Lemma _rule_based_frustration_str (utt : string) :
  exists lvl, _rule_based_frustration (PStr utt) = ok lvl.
Proof.
  unfold _rule_based_frustration. cbn [py_lower rbind ok].
  repeat match goal with
         | |- context [if ?c then _ else _] => destruct c
         end; eexists; reflexivity.
Qed.

Lemma fallback_timeline_ok (utterances : list string) (i : Z) :
  exists timeline,
    fallback_timeline i utterances = ok timeline
    /\ wf_timeline timeline
    /\ List.length timeline = List.length utterances.
Proof.
  revert i. induction utterances as [|utt rest IH]; intros i.
  - exists []. repeat split. constructor.
  - cbn [fallback_timeline].
    destruct (_rule_based_frustration_str utt) as [lvl ->].
    destruct (IH (i + 1)) as (tl & -> & Hwf & Hlen).
    cbn [rbind ok]. eexists. split; [reflexivity|]. split.
    + constructor; [|exact Hwf]. exists lvl. reflexivity.
    + cbn [List.length]. rewrite Hlen. reflexivity.
Qed.

Lemma sanitize_item_level (item : pyval) (entry : dict) :
  sanitize_item item = inr entry ->
  exists l, dict_get "level" entry = Some (PStr l).
Proof.
  unfold sanitize_item, rbind, ok.
  repeat match goal with
         | |- context [match ?x with inl _ => _ | inr _ => _ end] =>
             destruct x; try discriminate
         | |- context [if ?c then _ else _] => destruct c
         end;
    intros H; injection H as <-; eexists; reflexivity.
Qed.

Lemma sanitize_items_wf (items : list pyval) (timeline : list dict) :
  sanitize_items items = inr timeline -> wf_timeline timeline.
Proof.
  revert timeline. induction items as [|item rest IH]; intros timeline.
  - cbn. intros H. injection H as <-. constructor.
  - cbn [sanitize_items]. unfold rbind, ok.
    destruct (sanitize_item item) as [e|entry] eqn:He; [discriminate|].
    destruct (sanitize_items rest) as [e|entries]; [discriminate|].
    intros H. injection H as <-.
    constructor; [apply (sanitize_item_level item entry He)|].
    apply IH. reflexivity.
Qed.

Lemma count_levels_ok (timeline : list dict) (counts : Z * Z * Z) :
  wf_timeline timeline -> exists c, count_levels timeline counts = ok c.
Proof.
  intros H. revert counts.
  induction H as [|item rest [l Hl] _ IH]; intros counts.
  - eexists. reflexivity.
  - cbn [count_levels]. unfold dict_get_default. rewrite Hl.
    cbn [py_lower rbind ok]. destruct counts as [[low medium] high].
    apply IH.
Qed.

Lemma _overall_level_ok (timeline : list dict) :
  wf_timeline timeline -> exists overall, _overall_level timeline = ok overall.
Proof.
  intros H. unfold _overall_level.
  destruct (count_levels_ok timeline (0, 0, 0) H) as [[[low medium] high] ->].
  cbn [rbind ok].
  destruct (0 <? high); [eexists; reflexivity|].
  destruct (0 <? medium); eexists; reflexivity.
Qed.

Lemma high_segments_of_ok (timeline : list dict) :
  wf_timeline timeline -> exists highs, high_segments_of timeline = ok highs.
Proof.
  intros H. induction H as [|item rest [l Hl] _ [highs IH]].
  - eexists. reflexivity.
  - cbn [high_segments_of]. rewrite Hl, IH. cbn [rbind ok].
    eexists. reflexivity.
Qed.

(** The end of the frustration agent, once the timeline is settled. *)
Ltac frustration_tail Hwf :=
  let o := fresh "overall" in
  let Ho := fresh "Ho" in
  let h := fresh "highs" in
  let Hh := fresh "Hh" in
  destruct (_overall_level_ok _ Hwf) as [o Ho];
  destruct (high_segments_of_ok _ Hwf) as [h Hh];
  wp_run; rewrite Ho; wp_run; rewrite Hh; wp_run.

(** The frustration agent returns, whatever the language model does,
    and leaves the entities alone. *)
Lemma frustration_loop_agent_returns (tools : option Tools) (s : CallState) :
  wp (frustration_loop_agent tools) (fun _ s' => entities s' = entities s)
    no_exn s.
Proof.
  unfold frustration_loop_agent. wp_step. wp_step. cbv zeta.
  destruct (match utterances s with
            | [] => if is_empty (transcript_of s) then [] else [transcript_of s]
            | _ :: _ => utterances s
            end) as [|u us] eqn:Hus.
  - wp_run. reflexivity.
  - apply wp_bind.
    apply wp_conseq with
      (Q := fun tl s' => wf_timeline tl /\ entities s' = entities s)
      (E := no_exn).
    + wp_cases;
        (split; [first [constructor | eapply sanitize_items_wf; eassumption]
                |reflexivity]).
    + intros tl s1 [Hwf He]. apply wp_bind.
      destruct tl as [|item tl'].
      * destruct (fallback_timeline_ok (u :: us) 0) as (tl2 & Hfb & Hwf2 & _).
        rewrite Hfb. wp_run. frustration_tail Hwf2. exact He.
      * wp_run. frustration_tail Hwf. exact He.
    + intros e s' H. exact H.
Qed.

(** ** Pain points and actions from the rules *)

Ltac wp_quiet := repeat first [wp_step | progress cbn [ok throw failing_llm]].

Lemma dedupe_strs (items seen : list pyval) :
  Forall (fun p => is_str p = true) items ->
  exists deduped,
    dedupe seen items = ok deduped
    /\ Forall (fun p => is_str p = true) deduped.
Proof.
  intros H. revert seen. induction H as [|p rest Hp _ IH]; intros seen.
  - exists []. split; [reflexivity|constructor].
  - cbn [dedupe]. destruct p; try discriminate Hp. cbn [hashable negb].
    destruct (existsb (atom_eqb (PStr s)) seen).
    + apply IH.
    + destruct (IH (PStr s :: seen)) as (d & -> & Hd).
      cbn [rbind ok]. eexists. split; [reflexivity|].
      constructor; [reflexivity|exact Hd].
Qed.

Lemma _rule_based_pain_points_plain (s : CallState) :
  plain_entities s ->
  wp _rule_based_pain_points
    (fun pps s' => s' = s /\ Forall (fun p => is_str p = true) pps) no_exn s.
Proof.
  intros [Hissue Hproduct]. unfold _rule_based_pain_points.
  wp_step. wp_step. cbv zeta. wp_step. wp_step. wp_step. wp_step.
  match goal with
  | |- context [dedupe [] ?l] =>
      assert (Hl : Forall (fun p => is_str p = true) l)
  end.
  { destruct (dict_get_default "issue" PNone (entities s)) eqn:Hi;
      try discriminate Hissue;
      destruct (dict_get_default "product" PNone (entities s)) eqn:Hp;
      try discriminate Hproduct;
      cbn [truthy];
      repeat match goal with
             | |- context [if ?c then _ else _] => destruct c
             | |- context [match ?x with [] => _ | _ :: _ => _ end] => destruct x
             end;
      repeat first [apply Forall_app; split | constructor]; reflexivity. }
  destruct (dedupe_strs _ [] Hl) as (deduped & -> & Hd).
  cbn [ok]. destruct deduped; wp_step; (split; [reflexivity|]).
  - repeat constructor.
  - exact Hd.
Qed.

(** With no language model and plain entities, the pain-points agent
    returns a list of strings. *)
Lemma pain_points_agent_quiet (tools : option Tools) (s : CallState) :
  quiet tools -> plain_entities s ->
  wp (pain_points_agent tools)
    (fun _ s' => plain_pain_points s' /\ entities s' = entities s) no_exn s.
Proof.
  intros Hq Hplain. unfold pain_points_agent. cbv zeta.
  destruct Hq as [H|H]; rewrite H; wp_quiet.
  - eapply wp_conseq; [apply (_rule_based_pain_points_plain s Hplain)| |auto].
    cbv beta. intros pps s' [-> Hpps]. wp_quiet. split; [exact Hpps|reflexivity].
  - eapply wp_conseq;
      [apply (_rule_based_pain_points_plain (set_tool_calls (tool_calls s + 1) s));
       exact Hplain| |auto].
    cbv beta. intros pps s' [-> Hpps]. wp_quiet. split; [exact Hpps|reflexivity].
Qed.

Lemma actions_for_str (p : string) : exists actions, actions_for (PStr p) = ok actions.
Proof.
  unfold actions_for. cbn [py_lower rbind ok].
  repeat match goal with
         | |- context [if ?c then _ else _] => destruct c
         end; eexists; reflexivity.
Qed.

Lemma actions_for_all_strs (pain_points : list pyval) :
  Forall (fun p => is_str p = true) pain_points ->
  exists actions, actions_for_all pain_points = ok actions.
Proof.
  intros H. induction H as [|p rest Hp _ [more IH]].
  - eexists. reflexivity.
  - destruct p; try discriminate Hp. cbn [actions_for_all].
    destruct (actions_for_str s) as [actions ->]. rewrite IH.
    eexists. reflexivity.
Qed.

Lemma _rule_based_actions_plain (s : CallState) :
  plain_pain_points s -> exists actions, _rule_based_actions s = ok actions.
Proof.
  intros H. unfold _rule_based_actions. cbv zeta.
  destruct (actions_for_all_strs _ H) as [actions ->]. cbn [rbind ok].
  match goal with
  | |- context [match ?x with [] => _ | _ :: _ => _ end] => destruct x
  end; eexists; reflexivity.
Qed.

(** With no language model and pain points that are strings, the
    actions agent returns. *)
Lemma actions_agent_quiet (tools : option Tools) (s : CallState) :
  quiet tools -> plain_pain_points s ->
  wp (actions_agent tools)
    (fun _ s' => pain_points s' = pain_points s /\ entities s' = entities s)
    no_exn s.
Proof.
  intros Hq Hplain. unfold actions_agent. cbv zeta.
  destruct Hq as [H|H]; rewrite H; wp_quiet.
  - destruct (_rule_based_actions_plain s Hplain) as [actions ->].
    wp_quiet. split; reflexivity.
  - destruct (_rule_based_actions_plain (set_tool_calls (tool_calls s + 1) s) Hplain)
      as [actions ->].
    wp_quiet. split; reflexivity.
Qed.

(** ** The evaluation agent and the whole run *)

Lemma same_inputs_refl (s : CallState) : same_inputs s s.
Proof. split; reflexivity. Qed.

Lemma same_inputs_trans (a b c : CallState) :
  same_inputs a b -> same_inputs b c -> same_inputs a c.
Proof. unfold same_inputs. intuition congruence. Qed.

Lemma wp_frame {S A} (R : S -> S -> Prop) (m : M S A)
    (Q : A -> S -> Prop) (E : exn -> S -> Prop) (s : S) :
  (forall x, R x x) -> (forall a b c, R a b -> R b c -> R a c) ->
  traces R m -> wp m Q E s ->
  wp m (fun a s' => Q a s' /\ R s s') (fun e s' => E e s' /\ R s s') s.
Proof.
  intros Hrefl Htrans Hm H. unfold wp in *.
  pose proof (traces_final R Hrefl Htrans m s Hm) as HR.
  destruct (out (m s)); split; assumption.
Qed.

Lemma evaluation_agent_same_inputs (now : Q) (tools : option Tools) :
  traces same_inputs (evaluation_agent now tools).
Proof.
  unfold evaluation_agent.
  traces_with ltac:(unfold same_inputs; cbn; auto)
              ltac:(apply traces_compute_basic_eval).
Qed.

Lemma quiet_no_usable_reply (tools : option Tools) (s : CallState) :
  quiet tools -> no_usable_reply tools s.
Proof. intros [H|H]; unfold no_usable_reply; rewrite H; exact I. Qed.

Lemma foldable_of_plain (s : CallState) :
  plain_entities s -> plain_pain_points s -> scores_default s -> foldable s.
Proof.
  intros [_ Hproduct] Hpp Hscores. split; [|split].
  - apply Forall_impl with (P := fun p => is_str p = true); [|exact Hpp].
    intros p Hp. destruct p; try discriminate Hp. reflexivity.
  - intros _.
    destruct (dict_get_default "product" PNone (entities s));
      try discriminate Hproduct; reflexivity.
  - intros key v Hkey Hv. rewrite (Hscores key Hkey) in Hv.
    injection Hv as <-. exists 1%Q. reflexivity.
Qed.

(** One agent of the default registry, looked up and run. *)
Ltac run_registered agent_lemma :=
  apply wp_bind;
  eapply wp_ext; [apply lookup_and_run_found; reflexivity|];
  eapply wp_conseq; [apply agent_lemma| |intros ? ? H; exact H];
  cbv beta.

(** With no language model, whatever the transcript and the cleaner,
    the agents of the execution order and the evaluation agent all
    return, and the call state they leave can be folded into the
    memory. *)
Lemma run_agents_quiet (now : Q) (tools : Tools) (s : CallState) :
  quiet (Some tools) ->
  wp (run_agents (AGENT_REGISTRY now) AGENT_EXECUTION_ORDER tools)
    (fun _ s' => foldable s' /\ scores_default s' /\ plain_pain_points s')
    no_exn s.
Proof.
  intros Hq. unfold run_agents.
  change (fun agent_name : string =>
            bind (lift (get_agent_in (AGENT_REGISTRY now) agent_name))
              (fun agent_fn : AgentFn => agent_fn (Some tools)))
    with (lookup_and_run (AGENT_REGISTRY now) tools).
  fold (lookup_and_run (AGENT_REGISTRY now) tools "evaluation").
  cbn [AGENT_EXECUTION_ORDER for_each].
  apply wp_bind.
  run_registered (cleaning_agent_returns (Some tools) s). intros _ s1 _.
  run_registered (entities_agent_quiet (Some tools) s1 Hq). intros _ s2 He2.
  run_registered (summarization_agent_returns (Some tools) s2). intros _ s3 He3.
  run_registered (sentiment_agent_returns (Some tools) s3). intros _ s4 He4.
  run_registered (frustration_loop_agent_returns (Some tools) s4). intros _ s5 He5.
  assert (Hplain5 : plain_entities s5).
  { unfold plain_entities in *. rewrite He5, He4, He3. exact He2. }
  run_registered (pain_points_agent_quiet (Some tools) s5 Hq Hplain5).
  intros _ s6 [Hpp6 He6].
  run_registered (actions_agent_quiet (Some tools) s6 Hq Hpp6).
  intros _ s7 [Hpp7 He7].
  wp_step.
  unfold try_except_KeyError. apply wp_try_except.
  eapply wp_ext; [apply lookup_and_run_found; reflexivity|].
  pose proof (wp_frame same_inputs (evaluation_agent now (Some tools)) _ _ s7
                same_inputs_refl same_inputs_trans
                (evaluation_agent_same_inputs now (Some tools))
                (evaluation_agent_defaults now (Some tools) s7
                   (quiet_no_usable_reply (Some tools) s7 Hq))) as Hev.
  eapply wp_conseq.
  - exact Hev.
  - cbv beta. intros _ s8 [[_ Hscores] [He8 Hpp8]].
    assert (Hplain8 : plain_entities s8).
    { unfold plain_entities in *. rewrite <- He8, He7, He6. exact Hplain5. }
    assert (Hpps8 : plain_pain_points s8).
    { unfold plain_pain_points in *. rewrite <- Hpp8, Hpp7. exact Hpp6. }
    split; [apply foldable_of_plain; assumption|]. split; assumption.
  - cbv beta. intros e s8 [H _]. destruct H.
Qed.

End Unavailable.

(* ================================================================== *)
(** * What [run_pipeline] returns                                      *)
(* ================================================================== *)

Section RunPipeline.
Context {lib : PyLib}.

(** Whatever the capabilities: a call state that [run_pipeline] returns
    has made eight steps, one per agent and one for the evaluation
    agent, and holds the three scores in [evaluation], so that the
    memory fold updates each average. *)
Theorem run_pipeline_returned_state (now t0 : Q) (raw : string)
    (llm_client : option LLMClient) (cleaner : option TranscriptCleaner)
    (data_loader : option DataLoader) (update_memory : bool)
    (GLOBAL_MEMORY : MemoryState) (s : CallState) :
  fst (run_pipeline now raw llm_client cleaner data_loader update_memory t0
         GLOBAL_MEMORY) = Returned s ->
  step_count s = 8
  /\ scores_written s
  /\ forall key, In key SCORE_KEYS -> dict_has key (evaluation s) = true.
Proof.
  unfold run_pipeline, run_pipeline_in, pipeline_run.
  pose proof (run_agents_default_outcome now
                (default_tools llm_client cleaner data_loader)
                (new_CallState raw t0)) as H.
  unfold wp in H.
  destruct (out (run_agents (AGENT_REGISTRY now) AGENT_EXECUTION_ORDER
                   (default_tools llm_client cleaner data_loader)
                   (new_CallState raw t0))) as [u|e].
  - assert (Hs : forall s',
               Returned (final (run_agents (AGENT_REGISTRY now) AGENT_EXECUTION_ORDER
                                  (default_tools llm_client cleaner data_loader)
                                  (new_CallState raw t0))) = Returned s' ->
               step_count s' = 8 /\ scores_written s'
               /\ forall key, In key SCORE_KEYS -> dict_has key (evaluation s') = true).
    { intros s' Hs'. injection Hs' as <-. destruct H as [H8 Hw].
      split; [exact H8|]. split; [exact Hw|].
      intros key Hkey. destruct (Hw key Hkey) as [q Hq].
      unfold dict_has. rewrite Hq. reflexivity. }
    destruct update_memory; [|exact (Hs s)].
    destruct (out (update_memory_from_call _ GLOBAL_MEMORY)); cbn [fst].
    + exact (Hs s).
    + discriminate.
  - cbn [fst]. discriminate.
Qed.

(** X23. With the language model absent or raising on every call, whatever
    the transcript and whatever the cleaner does, [run_pipeline] returns a
    call state: eight steps, default scores, string pain points. *)
Theorem run_pipeline_returns_without_llm (now t0 : Q) (raw : string)
    (llm_client : option LLMClient) (cleaner : option TranscriptCleaner)
    (data_loader : option DataLoader) (update_memory : bool)
    (GLOBAL_MEMORY : MemoryState) :
  unavailable llm_client ->
  (update_memory = true -> 0 <= total_calls GLOBAL_MEMORY) ->
  exists s,
    fst (run_pipeline now raw llm_client cleaner data_loader update_memory t0
           GLOBAL_MEMORY) = Returned s
    /\ step_count s = 8
    /\ scores_default s
    /\ plain_pain_points s
    /\ tool_successes s <= tool_calls s.
Proof.
  intros Hl Hmem.
  assert (Hq : exists l',
             quiet (Some (default_tools l' cleaner data_loader))
             /\ run_pipeline now raw llm_client cleaner data_loader update_memory
                  t0 GLOBAL_MEMORY =
                run_pipeline now raw l' cleaner data_loader update_memory
                  t0 GLOBAL_MEMORY).
  { destruct (unavailable_cases llm_client Hl) as [->|[f [-> Hf]]].
    - exists None. split; [left; reflexivity|reflexivity].
    - exists (Some failing_llm). split; [right; reflexivity|].
      apply run_pipeline_ext. split; simpl.
      + exact Hf.
      + destruct cleaner; auto. }
  destruct Hq as (l' & Hq & E). rewrite E.
  set (tools := default_tools l' cleaner data_loader) in *.
  set (s0 := new_CallState raw t0).
  pose proof (run_agents_quiet now tools s0 Hq) as Hrun.
  pose proof (run_agents_default_outcome now tools s0) as Hsteps.
  destruct (run_agents_well_behaved (AGENT_REGISTRY now) AGENT_EXECUTION_ORDER
              tools (AGENT_REGISTRY_well_behaved now)) as [_ Hk].
  assert (H0 : successes_le_calls s0) by (unfold successes_le_calls; simpl; lia).
  destruct (Hk s0 H0) as [_ Hinv].
  unfold wp in Hrun, Hsteps.
  destruct (out (run_agents (AGENT_REGISTRY now) AGENT_EXECUTION_ORDER tools s0))
    as [u|e] eqn:Ho; [|destruct Hrun].
  destruct u. destruct Hrun as (Hfold & Hscores & Hpp). destruct Hsteps as [H8 _].
  exists (final (run_agents (AGENT_REGISTRY now) AGENT_EXECUTION_ORDER tools s0)).
  split.
  - unfold run_pipeline.
    apply (run_pipeline_in_returned (AGENT_REGISTRY now) AGENT_EXECUTION_ORDER
             raw l' cleaner data_loader update_memory t0 GLOBAL_MEMORY Ho).
    intros Hum. split; [exact Hfold|exact (Hmem Hum)].
  - split; [exact H8|]. split; [exact Hscores|]. split; [exact Hpp|exact Hinv].
Qed.

End RunPipeline.

(* ================================================================== *)
(** * The running average when every call supplies the score           *)
(* ================================================================== *)

Section RunningAverage.
Context {lib : PyLib}.

Lemma same_faithfulness_refl (m : MemoryState) : same_faithfulness m m.
Proof. split; reflexivity. Qed.

Lemma same_faithfulness_trans (a b c : MemoryState) :
  same_faithfulness a b -> same_faithfulness b c -> same_faithfulness a c.
Proof. unfold same_faithfulness. intuition congruence. Qed.

Ltac same_faithfulness_step := unfold same_faithfulness; cbn; auto.

Ltac keep_faithfulness :=
  apply wp_bind;
  apply (wp_of_traces same_faithfulness _ _ _ _
           same_faithfulness_refl same_faithfulness_trans);
  [ unfold fold_score; traces_with same_faithfulness_step fail
  | cbv beta
  | intros; exact I ].

(** One fold of a call that supplies the score [v]: the number of calls
    goes up by one and the average moves by [(v - avg) / n]. *)
Lemma update_memory_faithfulness (c : CallState) (m : MemoryState) (v : Q) :
  dict_get "faithfulness_score" (evaluation c) = Some (PFloat v) ->
  wp (update_memory_from_call c)
    (fun _ m' =>
       total_calls m' = total_calls m + 1
       /\ avg_faithfulness m' =
          (avg_faithfulness m
           + (v - avg_faithfulness m) / inject_Z (total_calls m + 1))%Q)
    any_exn m.
Proof.
  intros Hv. unfold update_memory_from_call.
  wp_run. cbn [total_calls set_total_calls].
  destruct (count_bump _ _) as [e|counts]; [exact I|].
  wp_run.
  set (m1 := set_sentiment_counts counts _).
  assert (H1 : total_calls m1 = total_calls m + 1
               /\ avg_faithfulness m1 = avg_faithfulness m) by (split; reflexivity).
  clearbody m1. destruct H1 as [Ht1 Ha1].
  apply (wp_of_traces same_faithfulness _ _ _ _
           same_faithfulness_refl same_faithfulness_trans);
    [traces_with same_faithfulness_step fail| |intros; exact I].
  intros _ m2 [Ht2 Ha2]. cbv beta.
  keep_faithfulness. intros _ m3 [Ht3 Ha3].
  apply wp_bind. unfold fold_score at 1. rewrite Hv.
  wp_run. unfold _update_running_avg. cbn [py_float ok].
  destruct (total_calls m + 1 =? 0); wp_run; [exact I|].
  set (m4 := set_avg_faithfulness _ m3).
  assert (H4 : total_calls m4 = total_calls m + 1
               /\ avg_faithfulness m4 =
                  (avg_faithfulness m
                   + (v - avg_faithfulness m) / inject_Z (total_calls m + 1))%Q).
  { subst m4. cbn [total_calls avg_faithfulness set_avg_faithfulness].
    split; [congruence|]. rewrite <- Ha3, <- Ha2, Ha1. reflexivity. }
  clearbody m4. destruct H4 as [Ht4 Ha4].
  apply (wp_of_traces same_faithfulness _ _ _ _
           same_faithfulness_refl same_faithfulness_trans);
    [unfold fold_score; traces_with same_faithfulness_step fail
    | |intros; exact I].
  intros _ m5 [Ht5 Ha5]. cbv beta.
  apply (wp_of_traces same_faithfulness _ _ _ _
           same_faithfulness_refl same_faithfulness_trans);
    [unfold fold_score; traces_with same_faithfulness_step fail
    | |intros; exact I].
  intros _ m6 [Ht6 Ha6]. split; congruence.
Qed.

Lemma running_avg_step (a v : Q) (k : Z) :
  0 <= k ->
  ((a + (v - a) / inject_Z (k + 1)) * inject_Z (k + 1)
   == a * inject_Z k + v)%Q.
Proof.
  intros Hk. rewrite inject_Z_plus.
  assert (Hne : ~ (inject_Z k + inject_Z 1 == 0)%Q).
  { rewrite <- inject_Z_plus. intros H.
    unfold Qeq in H. simpl in H. lia. }
  field. exact Hne.
Qed.

(** Folding calls that all supply the score: the average, times the
    number of calls folded so far, is the sum of what was there and of
    the scores supplied. *)
Lemma fold_calls_faithfulness (calls : list CallState) (vs : list Q)
    (m : MemoryState) :
  Forall2 (fun c v =>
             dict_get "faithfulness_score" (evaluation c) = Some (PFloat v))
    calls vs ->
  0 <= total_calls m ->
  wp (fold_calls calls)
    (fun _ m' =>
       total_calls m' = total_calls m + Z.of_nat (List.length vs)
       /\ (avg_faithfulness m' * inject_Z (total_calls m')
           == avg_faithfulness m * inject_Z (total_calls m) + Qsum vs)%Q)
    any_exn m.
Proof.
  intros H. revert m. unfold fold_calls.
  induction H as [|c v calls vs Hc _ IH]; intros m Hm.
  - apply wp_ret. split; [simpl; lia|]. simpl. ring.
  - cbn [for_each]. apply wp_bind.
    eapply wp_conseq; [apply (update_memory_faithfulness c m v Hc)| |auto].
    cbv beta. intros _ m1 [Ht1 Ha1].
    eapply wp_conseq; [apply (IH m1); lia| |auto].
    cbv beta. intros _ m' [Ht Ha]. split.
    + rewrite Ht, Ht1. cbn [List.length]. lia.
    + rewrite Ha, Ha1, Ht1. rewrite running_avg_step by exact Hm.
      simpl. ring.
Qed.

(** From a fresh memory, over calls that all supply the score, a fold
    that returns leaves the arithmetic mean of the scores, in the exact
    arithmetic of the model (the doubles of the code round at each
    step). *)
Theorem running_average_is_mean_when_all_supply (calls : list CallState)
    (vs : list Q) :
  Forall2 (fun c v =>
             dict_get "faithfulness_score" (evaluation c) = Some (PFloat v))
    calls vs ->
  calls <> [] ->
  out (fold_calls calls new_MemoryState) = Returned tt ->
  (avg_faithfulness (final (fold_calls calls new_MemoryState)) == mean vs)%Q.
Proof.
  intros H Hne Hout.
  pose proof (fold_calls_faithfulness calls vs new_MemoryState H) as Hw.
  unfold wp in Hw. rewrite Hout in Hw.
  destruct Hw as [Ht Ha]; [simpl; lia|].
  cbn [total_calls avg_faithfulness new_MemoryState] in Ht, Ha.
  assert (Hlen : (0 < List.length vs)%nat).
  { destruct H; [contradiction|simpl; lia]. }
  rewrite Ht in Ha. simpl Z.add in Ha.
  assert (Hnz : ~ (inject_Z (Z.of_nat (List.length vs)) == 0)%Q).
  { unfold Qeq. simpl. lia. }
  set (avg := avg_faithfulness (final (fold_calls calls new_MemoryState))) in *.
  assert (Ha' : (Qsum vs == avg * inject_Z (Z.of_nat (List.length vs)))%Q).
  { rewrite Ha. ring. }
  unfold mean. rewrite Ha'. field. exact Hnz.
Qed.

(** One step of the running average lands between the average and the
    new value. *)
Lemma running_avg_between (a v lo hi : Q) (n : Z) :
  1 <= n ->
  (lo <= a <= hi)%Q -> (lo <= v <= hi)%Q ->
  (lo <= a + (v - a) / inject_Z n <= hi)%Q.
Proof.
  intros Hn [Hla Hah] [Hlv Hvh].
  assert (Hq : (1 <= inject_Z n)%Q).
  { change 1%Q with (inject_Z 1). rewrite <- Zle_Qle. exact Hn. }
  set (k := inject_Z n) in *. clearbody k.
  assert (Hd : ((v - a) / k * k == v - a)%Q).
  { field. intros H0. lra. }
  set (d := ((v - a) / k)%Q) in *. clearbody d.
  split; nra.
Qed.

(** Folding calls that all supply a score between [lo] and [hi]: once a
    call has been folded, the average lies between [lo] and [hi]. *)
Lemma fold_calls_within (calls : list CallState) (vs : list Q) (lo hi : Q)
    (m : MemoryState) :
  Forall2 (fun c v =>
             dict_get "faithfulness_score" (evaluation c) = Some (PFloat v))
    calls vs ->
  Forall (fun v => (lo <= v <= hi)%Q) vs ->
  0 <= total_calls m ->
  (total_calls m = 0 \/ (lo <= avg_faithfulness m <= hi)%Q) ->
  wp (fold_calls calls)
    (fun _ m' =>
       total_calls m' = total_calls m + Z.of_nat (List.length vs)
       /\ (total_calls m' = 0 \/ (lo <= avg_faithfulness m' <= hi)%Q))
    any_exn m.
Proof.
  intros H. revert m. unfold fold_calls.
  induction H as [|c v calls vs Hc _ IH]; intros m Hall Hm Hinv.
  - apply wp_ret. split; [simpl; lia|exact Hinv].
  - inversion Hall as [|? ? Hv Hrest]; subst.
    cbn [for_each]. apply wp_bind.
    eapply wp_conseq; [apply (update_memory_faithfulness c m v Hc)| |auto].
    cbv beta. intros _ m1 [Ht1 Ha1].
    eapply wp_conseq; [apply (IH m1 Hrest); [lia|]| |auto].
    + right. rewrite Ha1. destruct Hinv as [H0|Hin].
      * rewrite H0. simpl Z.add.
        assert (E : (avg_faithfulness m + (v - avg_faithfulness m) / inject_Z 1
                     == v)%Q) by field.
        rewrite E. exact Hv.
      * apply running_avg_between; [lia|exact Hin|exact Hv].
    + cbv beta. intros _ m' [Ht Ha]. split; [|exact Ha].
      rewrite Ht, Ht1. cbn [List.length]. lia.
Qed.

(** X4. From a fresh memory, over calls that all supply the score, on
    the scale from 0 to 1 that the evaluation prompt asks for: when the
    scores lie between [lo] and [hi], so does the average after a fold
    that returns.  In particular, calls that all supply the same score
    leave that score. *)
Theorem running_average_stays_within_the_scores (calls : list CallState)
    (vs : list Q) (lo hi : Q) :
  Forall2 (fun c v =>
             dict_get "faithfulness_score" (evaluation c) = Some (PFloat v))
    calls vs ->
  Forall (fun v => (lo <= v <= hi)%Q) vs ->
  (0 <= lo)%Q -> (hi <= 1)%Q ->
  calls <> [] ->
  out (fold_calls calls new_MemoryState) = Returned tt ->
  (lo <= avg_faithfulness (final (fold_calls calls new_MemoryState)) <= hi)%Q.
Proof.
  intros H Hall _ _ Hne Hout.
  pose proof (fold_calls_within calls vs lo hi new_MemoryState H Hall) as Hw.
  unfold wp in Hw. rewrite Hout in Hw.
  destruct Hw as [Ht [H0|Hin]]; [simpl; lia|left; reflexivity| |exact Hin].
  exfalso. rewrite Ht in H0. cbn [total_calls new_MemoryState] in H0.
  destruct H; [contradiction|]. cbn [List.length] in H0. lia.
Qed.

End RunningAverage.

(* ================================================================== *)
(** * The bus and the memory, read back                                *)
(* ================================================================== *)

(** X1. Send, then read.  After [send_message], a read by agent [X], with
    or without a type filter [T], returns what it returned before,
    followed by the new message when that message is addressed to [X] or
    to [any] and passes the filter, and exactly what it returned before
    otherwise.  When the new message is returned it is the last one, so
    the payload a reader takes from [msgs[-1]] is the payload just sent. *)
Theorem send_message_then_read (state : CallState)
    (from_agent to_agent msg_type : string) (payload : dict)
    (X : string) (T : option string) :
  let msg := {| m_from := from_agent; m_to := to_agent;
                m_type := msg_type; m_payload := payload |} in
  let state' := final (send_message from_agent to_agent msg_type payload state) in
  let reaches :=
    (String.eqb to_agent X || String.eqb to_agent "any")
    && match T with Some t => String.eqb msg_type t | None => true end in
  exists before,
    out (get_messages_for_agent X T state) = Returned before
    /\ out (get_messages_for_agent X T state') =
       Returned (if reaches then before ++ [msg] else before)
    /\ (reaches = true ->
        forall after, out (get_messages_for_agent X T state') = Returned after ->
        latest_payload after = payload).
Proof.
  intros msg state' reaches.
  exists (filter (wanted X T) (messages state)).
  rewrite !get_messages_for_agent_run. cbn [out].
  assert (Hm : messages state' = messages state ++ [msg]) by reflexivity.
  assert (Hw : wanted X T msg = reaches) by reflexivity.
  rewrite Hm, filter_app. cbn [filter]. rewrite Hw.
  split; [reflexivity|]. split.
  - destruct reaches; [reflexivity|]. rewrite app_nil_r. reflexivity.
  - intros Hr after Hafter. rewrite Hr in Hafter.
    injection Hafter as <-.
    unfold latest_payload. rewrite rev_app_distr. reflexivity.
Qed.

(** With [0 <= tool_successes <= tool_calls], the rate that
    [compute_basic_eval] returns is between 0 and 1, and the duration is
    not negative: it is [now - start_ts] when the clock did not go back,
    and 0 when it did. *)
Theorem compute_basic_eval_bounds (now : Q) (s : CallState) :
  0 <= tool_successes s <= tool_calls s ->
  exists d rate duration,
    out (compute_basic_eval now s) = Returned d
    /\ dict_get "tool_success_rate" d = Some (PFloat rate)
    /\ (0 <= rate <= 1)%Q
    /\ dict_get "duration_sec" d = Some (PFloat duration)
    /\ (0 <= duration)%Q
    /\ ((start_ts s <= now)%Q -> (duration == now - start_ts s)%Q)
    /\ ((now <= start_ts s)%Q -> (duration == 0)%Q).
Proof.
  intros [H0 Hle].
  unfold compute_basic_eval, bind, get, ret. cbn [out final writes].
  eexists _, _, _. split; [reflexivity|].
  split; [reflexivity|]. split.
  { destruct (Z.eqb_spec (tool_calls s) 0) as [Hz|Hnz].
    - split; [discriminate|apply Qle_refl].
    - assert (Hpos : (0 < inject_Z (tool_calls s))%Q).
      { rewrite <- (Zlt_Qlt 0). lia. }
      split.
      + apply Qle_shift_div_l; [exact Hpos|].
        rewrite Qmult_0_l. rewrite <- (Zle_Qle 0). exact H0.
      + apply Qle_shift_div_r; [exact Hpos|].
        rewrite Qmult_1_l. rewrite <- Zle_Qle. exact Hle. }
  split; [reflexivity|].
  destruct (Qle_bool (now - start_ts s) 0) eqn:Hb.
  - apply Qle_bool_iff in Hb. split; [apply Qle_refl|]. split.
    + intros Hnow. apply Qle_antisym.
      * apply Qle_minus_iff in Hnow. exact Hnow.
      * unfold Qminus in *. exact Hb.
    + intros _. reflexivity.
  - assert (Hlt : (0 < now - start_ts s)%Q).
    { apply Qnot_le_lt. intros H. apply Qle_bool_iff in H. congruence. }
    split; [apply Qlt_le_weak; exact Hlt|]. split.
    + intros _. reflexivity.
    + intros Hnow. exfalso.
      apply (Qle_not_lt _ _ Hnow). apply Qlt_minus_iff. exact Hlt.
Qed.

(** An instance of [compute_basic_eval_bounds]: three successes in four
    calls, three seconds after the start. *)
Lemma compute_basic_eval_bounds_witness :
  exists d rate duration,
    out (compute_basic_eval 5 (set_tool_calls 4 (set_tool_successes 3 (new_CallState "hi" 2))))
      = Returned d
    /\ dict_get "tool_success_rate" d = Some (PFloat rate)
    /\ (0 <= rate <= 1)%Q
    /\ dict_get "duration_sec" d = Some (PFloat duration)
    /\ (0 <= duration)%Q.
Proof.
  destruct (compute_basic_eval_bounds 5
              (set_tool_calls 4 (set_tool_successes 3 (new_CallState "hi" 2))))
    as (d & rate & duration & H1 & H2 & H3 & H4 & H5 & _).
  - cbn. lia.
  - exists d, rate, duration. repeat split; try assumption; apply H3.
Defined.

Section MemoryCounts.
Context {lib : PyLib}.

Lemma count_get_set_same (label : string) (n : Z) (table : list (pyval * Z)) :
  count_get (PStr label) (count_set (PStr label) n table) = n.
Proof.
  induction table as [|[k n'] table IH]; cbn [count_set count_get].
  - cbn [atom_eqb]. rewrite String.eqb_refl. reflexivity.
  - destruct (atom_eqb (PStr label) k) eqn:Hk; cbn [count_get]; rewrite Hk.
    + reflexivity.
    + exact IH.
Qed.

Lemma atom_eqb_str (a : string) (k : pyval) :
  atom_eqb (PStr a) k = true -> k = PStr a.
Proof.
  destruct k; cbn; try discriminate.
  intros H. apply String.eqb_eq in H. congruence.
Qed.

Lemma count_get_set_other (a b : string) (n : Z) (table : list (pyval * Z)) :
  a <> b ->
  count_get (PStr a) (count_set (PStr b) n table) = count_get (PStr a) table.
Proof.
  intros Hab.
  assert (Hne : atom_eqb (PStr a) (PStr b) = false).
  { cbn. apply String.eqb_neq. exact Hab. }
  induction table as [|[k n'] table IH]; cbn [count_set count_get].
  - rewrite Hne. reflexivity.
  - destruct (atom_eqb (PStr b) k) eqn:Hk; cbn [count_get].
    + apply atom_eqb_str in Hk. subst k. rewrite Hne. reflexivity.
    + rewrite IH. reflexivity.
Qed.

Lemma count_total_bump (key : pyval) (table : list (pyval * Z)) :
  count_total (count_set key (count_get key table + 1) table) =
  count_total table + 1.
Proof.
  unfold count_total.
  induction table as [|[k n] table IH]; cbn [count_set count_get].
  - simpl. lia.
  - destruct (atom_eqb key k); cbn [map snd fold_right] in *; lia.
Qed.

Lemma same_call_counts_refl (m : MemoryState) : same_call_counts m m.
Proof. split; reflexivity. Qed.

Lemma same_call_counts_trans (a b c : MemoryState) :
  same_call_counts a b -> same_call_counts b c -> same_call_counts a c.
Proof. unfold same_call_counts. intuition congruence. Qed.

Ltac same_call_counts_step := unfold same_call_counts; cbn; auto.

(** One fold counts the call and its sentiment label, however it ends. *)
Lemma update_memory_from_call_counts (cs : CallState) (mem : MemoryState) :
  let r := update_memory_from_call cs mem in
  let label := str_or (sentiment cs) "unknown" in
  total_calls (final r) = total_calls mem + 1
  /\ sentiment_counts (final r) =
     count_set (PStr label) (count_get (PStr label) (sentiment_counts mem) + 1)
       (sentiment_counts mem).
Proof.
  intros r label.
  assert (Hw : wp (update_memory_from_call cs)
                 (fun _ m' =>
                    total_calls m' = total_calls mem + 1
                    /\ sentiment_counts m' =
                       count_set (PStr label)
                         (count_get (PStr label) (sentiment_counts mem) + 1)
                         (sentiment_counts mem))
                 (fun _ m' =>
                    total_calls m' = total_calls mem + 1
                    /\ sentiment_counts m' =
                       count_set (PStr label)
                         (count_get (PStr label) (sentiment_counts mem) + 1)
                         (sentiment_counts mem))
                 mem).
  { unfold update_memory_from_call.
    wp_run. unfold count_bump at 1. cbn [hashable ok]. wp_run.
    set (m1 := set_sentiment_counts _ _).
    assert (H1 : total_calls m1 = total_calls mem + 1
                 /\ sentiment_counts m1 =
                    count_set (PStr label)
                      (count_get (PStr label) (sentiment_counts mem) + 1)
                      (sentiment_counts mem)) by (split; reflexivity).
    clearbody m1. destruct H1 as [Ht1 Hs1].
    apply (wp_of_traces same_call_counts _ _ _ _
             same_call_counts_refl same_call_counts_trans).
    - traces_with same_call_counts_step fail.
    - intros _ m2 [Ht2 Hs2]. cbv beta.
      apply (wp_of_traces same_call_counts _ _ _ _
               same_call_counts_refl same_call_counts_trans).
      + unfold fold_score. traces_with same_call_counts_step fail.
      + intros _ m3 [Ht3 Hs3]. split; congruence.
      + intros _ m3 [Ht3 Hs3]. split; congruence.
    - intros _ m2 [Ht2 Hs2]. split; congruence. }
  unfold wp in Hw. fold r in Hw. destruct (out r); exact Hw.
Qed.

(** One fold counts the call, however it ends: [total_calls] is one more,
    the count of the sentiment label of the call ([unknown] for the empty
    label) is one more, and the count of every other label is as before. *)
Theorem update_memory_from_call_counts_the_call (cs : CallState)
    (mem : MemoryState) :
  let r := update_memory_from_call cs mem in
  let label := if String.eqb (sentiment cs) "" then "unknown" else sentiment cs in
  total_calls (final r) = total_calls mem + 1
  /\ count_get (PStr label) (sentiment_counts (final r)) =
     count_get (PStr label) (sentiment_counts mem) + 1
  /\ (forall other, other <> label ->
        count_get (PStr other) (sentiment_counts (final r)) =
        count_get (PStr other) (sentiment_counts mem)).
Proof.
  intros r label.
  destruct (update_memory_from_call_counts cs mem) as [Ht Hs].
  fold r in Ht, Hs.
  change (str_or (sentiment cs) "unknown") with label in Hs.
  split; [exact Ht|]. rewrite Hs. split.
  - apply count_get_set_same.
  - intros other Hne. apply count_get_set_other. exact Hne.
Qed.

(** The loop over the pain points raises [TypeError] when one of them
    cannot be hashed. *)
Lemma for_each_pain_points_unhashable (pps : list pyval) (m : MemoryState) :
  Exists (fun p => hashable p = false) pps ->
  out (for_each pps (fun p =>
         memory <- get ;;
         counts <- lift (count_bump p (pain_point_counts memory)) ;;
         modify (set_pain_point_counts counts)) m) = Raised TypeError.
Proof.
  intros H. revert m. induction H as [p pps Hp|p pps _ IH]; intros m.
  - cbn [for_each]. rewrite out_bind.
    unfold count_bump. rewrite Hp. reflexivity.
  - cbn [for_each]. rewrite out_bind.
    unfold count_bump at 1. destruct (hashable p).
    + cbn. apply IH.
    + reflexivity.
Qed.

(** X2. A pain point that cannot be hashed (a list or a dict) makes
    [update_memory_from_call] raise [TypeError] at the pain-point count,
    after the call has been counted: [total_calls] is one more than
    before, while the product counts and the three running averages are as
    before. *)
Theorem update_memory_from_call_unhashable_pain_point (cs : CallState)
    (mem : MemoryState) :
  Exists (fun p => hashable p = false) (pain_points cs) ->
  let r := update_memory_from_call cs mem in
  out r = Raised TypeError
  /\ total_calls (final r) = total_calls mem + 1
  /\ product_issue_counts (final r) = product_issue_counts mem
  /\ avg_faithfulness (final r) = avg_faithfulness mem
  /\ avg_coverage (final r) = avg_coverage mem
  /\ avg_consistency (final r) = avg_consistency mem.
Proof.
  intros H r.
  destruct (update_memory_from_call_counts cs mem) as [Ht _].
  assert (Hw : wp (update_memory_from_call cs) (fun _ _ => False)
                 (fun e m' =>
                    e = TypeError
                    /\ product_issue_counts m' = product_issue_counts mem
                    /\ avg_faithfulness m' = avg_faithfulness mem
                    /\ avg_coverage m' = avg_coverage mem
                    /\ avg_consistency m' = avg_consistency mem) mem).
  { unfold update_memory_from_call.
    wp_run. unfold count_bump at 1. cbn [hashable ok]. wp_run.
    set (m1 := set_sentiment_counts _ _).
    unfold wp at 1.
    rewrite for_each_pain_points_unhashable by exact H.
    split; [reflexivity|].
    change (product_issue_counts mem) with (product_issue_counts m1).
    change (avg_faithfulness mem) with (avg_faithfulness m1).
    change (avg_coverage mem) with (avg_coverage m1).
    change (avg_consistency mem) with (avg_consistency m1).
    clearbody m1.
    apply (traces_final
             (fun a b : MemoryState =>
                product_issue_counts b = product_issue_counts a
                /\ avg_faithfulness b = avg_faithfulness a
                /\ avg_coverage b = avg_coverage a
                /\ avg_consistency b = avg_consistency a)).
    - intros x. repeat split.
    - intros a b c (?&?&?&?) (?&?&?&?). repeat split; congruence.
    - traces_with ltac:(cbn; auto) fail. }
  unfold wp in Hw. fold r in Hw.
  destruct (out r); [contradiction|].
  destruct Hw as (-> & H1 & H2 & H3 & H4). auto 10.
Qed.

(** Over any sequence of folds, the sum of the sentiment counts and
    [total_calls] move together. *)
Lemma fold_calls_counts (calls : list CallState) (m : MemoryState) :
  let r := fold_calls calls m in
  count_total (sentiment_counts (final r)) - total_calls (final r) =
  count_total (sentiment_counts m) - total_calls m
  /\ total_calls (final r) <= total_calls m + Z.of_nat (List.length calls)
  /\ (out r = Returned tt ->
      total_calls (final r) = total_calls m + Z.of_nat (List.length calls)).
Proof.
  revert m. unfold fold_calls.
  induction calls as [|c calls IH]; intros m; cbn zeta.
  - cbn. repeat split; lia.
  - cbn [for_each]. rewrite final_bind, out_bind.
    destruct (update_memory_from_call_counts c m) as [Ht Hs].
    assert (Hsum : count_total (sentiment_counts (final (update_memory_from_call c m)))
                   = count_total (sentiment_counts m) + 1).
    { rewrite Hs. apply count_total_bump. }
    cbn [List.length]. rewrite Nat2Z.inj_succ.
    destruct (out (update_memory_from_call c m)) as [[]|e].
    + destruct (IH (final (update_memory_from_call c m))) as (I1 & I2 & I3).
      cbn zeta in I1, I2, I3.
      split; [lia|]. split; [lia|]. intros Ho. rewrite (I3 Ho). lia.
    + split; [lia|]. split; [lia|]. discriminate.
Qed.

(** X3. Folding any sequence of calls into a fresh memory, one after the
    other until a fold raises, the sentiment counts add up to
    [total_calls], whether or not a fold raised; [total_calls] is at most
    the number of calls, and equals it when no fold raised. *)
Theorem sentiment_counts_sum_to_total_calls (calls : list CallState) :
  let r := fold_calls calls new_MemoryState in
  count_total (sentiment_counts (final r)) = total_calls (final r)
  /\ total_calls (final r) <= Z.of_nat (List.length calls)
  /\ (out r = Returned tt ->
      total_calls (final r) = Z.of_nat (List.length calls)).
Proof.
  intros r. destruct (fold_calls_counts calls new_MemoryState) as (H1 & H2 & H3).
  fold r in H1, H2, H3. cbn in H1, H2, H3.
  split; [lia|]. split; [lia|]. intros Ho. rewrite (H3 Ho). lia.
Qed.

End MemoryCounts.

(** An instance of [update_memory_from_call_unhashable_pain_point]: a call
    whose only pain point is the empty list, folded into a fresh memory. *)
Lemma update_memory_from_call_unhashable_pain_point_witness :
  let cs := set_pain_points [PList []] (new_CallState "hello" 0) in
  let r := @update_memory_from_call example_lib cs new_MemoryState in
  Exists (fun p => hashable p = false) (pain_points cs)
  /\ out r = Raised TypeError
  /\ total_calls (final r) = 1.
Proof.
  intros cs r.
  assert (H : Exists (fun p => hashable p = false) (pain_points cs)).
  { left. reflexivity. }
  split; [exact H|].
  destruct (@update_memory_from_call_unhashable_pain_point example_lib cs
              new_MemoryState H) as (Ho & Ht & _).
  split; [exact Ho|exact Ht].
Defined.

(* ================================================================== *)
(** * Which agent writes which field                                   *)
(* ================================================================== *)

Section Footprints.
Context {lib : PyLib}.
Variable R : CallState -> CallState -> Prop.
Hypothesis R_step_count : forall v s, R s (set_step_count v s).
Hypothesis R_tool_calls : forall v s, R s (set_tool_calls v s).
Hypothesis R_tool_successes : forall v s, R s (set_tool_successes v s).

Ltac footprint := traces_with ltac:(cbv beta; auto) fail.

Lemma cleaning_agent_footprint (tools : option Tools) :
  (forall v s, R s (set_cleaned_transcript v s)) ->
  (forall v s, R s (set_utterances v s)) ->
  traces R (cleaning_agent tools).
Proof. intros H1 H2. unfold cleaning_agent. footprint. Qed.

Lemma entities_agent_footprint (tools : option Tools) :
  (forall v s, R s (set_entities v s)) ->
  (forall v s, R s (set_messages v s)) ->
  traces R (entities_agent tools).
Proof. intros H1 H2. unfold entities_agent. footprint. Qed.

Lemma summarization_agent_footprint (tools : option Tools) :
  (forall v s, R s (set_summary v s)) ->
  traces R (summarization_agent tools).
Proof. intros H1. unfold summarization_agent. footprint. Qed.

Lemma sentiment_agent_footprint (tools : option Tools) :
  (forall v s, R s (set_sentiment v s)) ->
  (forall v s, R s (set_messages v s)) ->
  traces R (sentiment_agent tools).
Proof. intros H1 H2. unfold sentiment_agent. footprint. Qed.

Lemma frustration_loop_agent_footprint (tools : option Tools) :
  (forall v s, R s (set_frustration_timeline v s)) ->
  (forall v s, R s (set_messages v s)) ->
  traces R (frustration_loop_agent tools).
Proof. intros H1 H2. unfold frustration_loop_agent. footprint. Qed.

Lemma pain_points_agent_footprint (tools : option Tools) :
  (forall v s, R s (set_pain_points v s)) ->
  traces R (pain_points_agent tools).
Proof.
  intros H1. unfold pain_points_agent.
  traces_with ltac:(cbv beta; auto)
    ltac:(unfold _rule_based_pain_points; footprint).
Qed.

Lemma actions_agent_footprint (tools : option Tools) :
  (forall v s, R s (set_recommended_actions v s)) ->
  traces R (actions_agent tools).
Proof. intros H1. unfold actions_agent. footprint. Qed.

Lemma evaluation_agent_footprint (now : Q) (tools : option Tools) :
  (forall v s, R s (set_evaluation v s)) ->
  traces R (evaluation_agent now tools).
Proof.
  intros H1. unfold evaluation_agent.
  traces_with ltac:(cbv beta; auto) ltac:(apply traces_compute_basic_eval).
Qed.

End Footprints.

Lemma same_field_refl (f : field) (s : CallState) : same_field f s s.
Proof. destruct f; reflexivity. Qed.

Lemma same_field_trans (f : field) (a b c : CallState) :
  same_field f a b -> same_field f b c -> same_field f a c.
Proof. destruct f; cbn; congruence. Qed.

Ltac registry_cases H :=
  unfold AGENT_REGISTRY in H; cbn [registry_lookup] in H;
  repeat match type of H with
         | (if String.eqb ?n ?k then _ else _) = _ =>
             destruct (String.eqb_spec n k); [subst n; injection H as <-|]
         end;
  try discriminate.

(** A registered agent that is not the writer of a field keeps the field,
    write after write. *)
Lemma registered_agent_keeps_field {lib : PyLib} (now : Q) (name : string)
    (agent : AgentFn) (f : field) (tools : option Tools) :
  registry_lookup (AGENT_REGISTRY now) name = Some agent ->
  writer_of f <> Some name ->
  traces (same_field f) (agent tools).
Proof.
  intros Hlook Hw. registry_cases Hlook.
  - apply cleaning_agent_footprint;
      intros; destruct f; try reflexivity; exfalso; apply Hw; reflexivity.
  - apply entities_agent_footprint;
      intros; destruct f; try reflexivity; exfalso; apply Hw; reflexivity.
  - apply summarization_agent_footprint;
      intros; destruct f; try reflexivity; exfalso; apply Hw; reflexivity.
  - apply sentiment_agent_footprint;
      intros; destruct f; try reflexivity; exfalso; apply Hw; reflexivity.
  - apply frustration_loop_agent_footprint;
      intros; destruct f; try reflexivity; exfalso; apply Hw; reflexivity.
  - apply pain_points_agent_footprint;
      intros; destruct f; try reflexivity; exfalso; apply Hw; reflexivity.
  - apply actions_agent_footprint;
      intros; destruct f; try reflexivity; exfalso; apply Hw; reflexivity.
  - apply evaluation_agent_footprint;
      intros; destruct f; try reflexivity; exfalso; apply Hw; reflexivity.
Qed.

(** X21. Every output field has one writer.  A registered agent other than
    the writer of a field ([cleaning] for the cleaned transcript and the
    utterances, [entities], [summarization], [sentiment],
    [frustration_loop], [pain_points], [actions], [evaluation] for the
    field of their name; none for [call_id], [raw_transcript] and
    [start_ts]) leaves the field at its value after every write and at the
    end, with any tools, from any state and however it ends. *)
Theorem each_field_has_one_writer {lib : PyLib} (now : Q) (name : string)
    (agent : AgentFn) (f : field) (tools : option Tools) (s : CallState) :
  registry_lookup (AGENT_REGISTRY now) name = Some agent ->
  writer_of f <> Some name ->
  same_field f s (final (agent tools s))
  /\ Forall (same_field f s) (writes (agent tools s)).
Proof.
  intros Hlook Hw.
  pose proof (registered_agent_keeps_field now name agent f tools Hlook Hw) as Ht.
  split.
  - apply (traces_final (same_field f) (same_field_refl f) (same_field_trans f) _ s Ht).
  - apply (traces_writes (same_field f) (same_field_refl f) (same_field_trans f) _ s Ht).
Qed.

(** An instance of [each_field_has_one_writer]: the sentiment agent leaves
    the summary alone. *)
Lemma each_field_has_one_writer_witness :
  let s := set_summary "a summary" (new_CallState "I am upset. Thank you." 0) in
  registry_lookup (@AGENT_REGISTRY example_lib 1) "sentiment" = Some sentiment_agent
  /\ writer_of FSummary <> Some "sentiment"
  /\ summary (final (sentiment_agent None s)) = "a summary".
Proof.
  intros s.
  assert (H1 : registry_lookup (@AGENT_REGISTRY example_lib 1) "sentiment"
               = Some sentiment_agent) by reflexivity.
  assert (H2 : writer_of FSummary <> Some "sentiment") by discriminate.
  split; [exact H1|]. split; [exact H2|].
  destruct (@each_field_has_one_writer example_lib 1 "sentiment" sentiment_agent
              FSummary None s H1 H2) as [Hf _].
  symmetry. exact Hf.
Defined.

(** A relation kept by every registered agent is kept by the
    supervisor's loop and its evaluation step. *)
Lemma run_agents_traces (R : CallState -> CallState -> Prop)
    (registry : Registry) (order : list string) (tools : Tools) :
  (forall name agent,
     registry_lookup registry name = Some agent ->
     traces R (agent (Some tools))) ->
  traces R (run_agents registry order tools).
Proof.
  intros Hreg. unfold run_agents.
  fold (lookup_and_run registry tools "evaluation").
  change (fun agent_name : string =>
            bind (lift (get_agent_in registry agent_name))
              (fun agent_fn : AgentFn => agent_fn (Some tools)))
    with (lookup_and_run registry tools).
  assert (Hl : forall name, traces R (lookup_and_run registry tools name)).
  { intros name.
    destruct (registry_lookup registry name) as [agent|] eqn:Hlook.
    - apply traces_ext with (m' := agent (Some tools)).
      + intros s'. apply lookup_and_run_found. exact Hlook.
      + apply (Hreg name agent Hlook).
    - apply traces_ext with (m' := raise (KeyError name)); [|apply traces_raise].
      intros s'. apply lookup_and_run_missing. exact Hlook. }
  apply traces_bind.
  - apply traces_for_each. exact Hl.
  - intros _. apply traces_try_except_KeyError; [apply Hl|apply traces_ret].
Qed.

(** A field without a writer keeps its value along a whole run. *)
Lemma run_agents_keeps_field {lib : PyLib} (now : Q) (order : list string)
    (tools : Tools) (f : field) :
  writer_of f = None ->
  traces (same_field f) (run_agents (AGENT_REGISTRY now) order tools).
Proof.
  intros Hf. apply run_agents_traces. intros name agent Hlook.
  apply (registered_agent_keeps_field now name agent f (Some tools) Hlook).
  rewrite Hf. discriminate.
Qed.

(** No agent of the default registry assigns the input: after every write
    of a run, in any order of agents, [raw_transcript], [call_id] and
    [start_ts] are those of the start. *)
Theorem run_agents_keeps_the_input {lib : PyLib} (now : Q) (order : list string)
    (tools : Tools) (s : CallState) :
  let r := run_agents (AGENT_REGISTRY now) order tools s in
  Forall (fun s' =>
            raw_transcript s' = raw_transcript s
            /\ call_id s' = call_id s /\ start_ts s' = start_ts s)
    (writes r ++ [final r]).
Proof.
  intros r. subst r.
  set (m := run_agents (AGENT_REGISTRY now) order tools).
  assert (Hall : forall f, writer_of f = None ->
                   Forall (same_field f s) (writes (m s) ++ [final (m s)])).
  { intros f Hf.
    pose proof (run_agents_keeps_field now order tools f Hf) as Ht.
    pose proof (traces_writes (same_field f) (same_field_refl f)
                  (same_field_trans f) _ s Ht) as Hw.
    pose proof (traces_final (same_field f) (same_field_refl f)
                  (same_field_trans f) _ s Ht) as Hfin.
    apply Forall_app. split; [exact Hw|].
    constructor; [exact Hfin|constructor]. }
  pose proof (Hall FRawTranscript eq_refl) as H1.
  pose proof (Hall FCallId eq_refl) as H2.
  pose proof (Hall FStartTs eq_refl) as H3.
  rewrite Forall_forall in *. intros s' Hin.
  specialize (H1 s' Hin). specialize (H2 s' Hin). specialize (H3 s' Hin).
  cbn in H1, H2, H3. auto.
Qed.

(* ================================================================== *)
(** * Labels, the empty transcript and the cleaning agent              *)
(* ================================================================== *)

Lemma str_in_In (x : string) (l : list string) : str_in x l = true <-> In x l.
Proof.
  unfold str_in. rewrite existsb_exists. split.
  - intros (y & Hy & He). apply String.eqb_eq in He. subst. exact Hy.
  - intros H. exists x. split; [exact H|apply String.eqb_refl].
Qed.

Lemma _normalize_label_allowed (label : string) :
  In (_normalize_label label) ALLOWED_LABELS.
Proof.
  unfold _normalize_label. destruct (is_empty label).
  - cbn. auto 10.
  - cbv zeta.
    destruct (str_in _ ALLOWED_LABELS) eqn:H.
    + apply str_in_In. exact H.
    + cbn. auto 10.
Qed.

Lemma rule_based_sentiment_allowed (text : string) :
  In (rule_based_sentiment text) ALLOWED_LABELS.
Proof.
  unfold rule_based_sentiment. cbv zeta.
  repeat match goal with
         | |- context [if ?c then _ else _] => destruct c
         end; cbn; auto 10.
Qed.

(** X10. [_normalize_label] always returns an allowed label, leaves an
    allowed label as it is, and normalising twice is normalising once. *)
Theorem _normalize_label_idempotent (label : string) :
  In (_normalize_label label) ALLOWED_LABELS
  /\ _normalize_label (_normalize_label label) = _normalize_label label
  /\ (In label ALLOWED_LABELS -> _normalize_label label = label).
Proof.
  assert (Hfix : forall l, In l ALLOWED_LABELS -> _normalize_label l = l).
  { intros l Hl. cbn in Hl.
    repeat (destruct Hl as [<-|Hl]; [vm_compute; reflexivity|]).
    contradiction. }
  split; [apply _normalize_label_allowed|]. split.
  - apply Hfix. apply _normalize_label_allowed.
  - exact (Hfix label).
Qed.

(** X11. The label of [rule_based_sentiment], by the numbers of negative
    and positive hint words that occur in the lower-cased text: [unknown]
    exactly on the empty text; on any other text, a negative label exactly
    when the negative hits are more, a positive label exactly when the
    positive hits are more, [mixed] exactly when the two numbers are equal
    and not zero, and [neutral] exactly when no hint word occurs. *)
Theorem rule_based_sentiment_by_hits (text : string) :
  let neg := count_hits NEGATIVE_HINTS (lower text) in
  let pos := count_hits POSITIVE_HINTS (lower text) in
  let label := rule_based_sentiment text in
  (label = "unknown" <-> text = "")
  /\ (In label ["very_negative"; "negative"] <-> text <> "" /\ pos < neg)
  /\ (In label ["very_positive"; "positive"] <-> text <> "" /\ neg < pos)
  /\ (label = "mixed" <-> text <> "" /\ pos = neg /\ 0 < pos)
  /\ (label = "neutral" <-> text <> "" /\ pos = 0 /\ neg = 0).
Proof.
  intros neg pos label.
  assert (Hneg : 0 <= neg) by (unfold neg, count_hits; lia).
  assert (Hpos : 0 <= pos) by (unfold pos, count_hits; lia).
  subst label. unfold rule_based_sentiment, is_empty. cbv zeta.
  fold neg. fold pos.
  destruct (String.eqb_spec text "") as [He|He].
  - cbn [In]. intuition (try discriminate; try congruence).
  - destruct (Z.ltb_spec pos neg); destruct (Z.ltb_spec neg pos); try lia;
      destruct (Z.leb_spec 2 neg); destruct (Z.leb_spec 1 neg); try lia;
      destruct (Z.leb_spec 2 pos); destruct (Z.leb_spec 1 pos); try lia;
      destruct (Z.ltb_spec 0 pos); destruct (Z.ltb_spec 0 neg); try lia;
      cbn [andb In];
      intuition (try discriminate; try congruence; try lia).
Qed.

(** X12. [sentiment_agent] never raises, whatever the language model
    replies, and the label it stores is always one of [ALLOWED_LABELS];
    [step_count] grows by one. *)
Theorem sentiment_agent_label_allowed (tools : option Tools) (s : CallState) :
  let r := sentiment_agent tools s in
  out r = Returned tt
  /\ In (sentiment (final r)) ALLOWED_LABELS
  /\ step_count (final r) = step_count s + 1.
Proof.
  intros r.
  assert (Hw : wp (sentiment_agent tools)
                 (fun _ s' => In (sentiment s') ALLOWED_LABELS
                              /\ step_count s' = step_count s + 1)
                 no_exn s).
  { unfold sentiment_agent.
    wp_cases; cbn [sentiment step_count set_sentiment set_step_count
                   set_messages set_tool_calls set_tool_successes];
      (split; [|reflexivity]);
      try match goal with
          | |- context [if ?c then _ else _] => destruct c
          end;
      first [ apply _normalize_label_allowed
            | apply rule_based_sentiment_allowed
            | cbn; auto 10 ]. }
  unfold wp in Hw. fold r in Hw.
  destruct (out r) as [[]|e]; [|destruct Hw].
  split; [reflexivity|exact Hw].
Qed.

(** X22. With no transcript and no utterances, the summarization,
    sentiment and frustration agents return at once, whatever the tools:
    they assign the fixed summary, [unknown] and the empty timeline, count
    one step, and leave everything else as it was.  The language model is
    not called, even when there is one: [tool_calls] does not move and no
    message is sent. *)
Theorem empty_transcript_skips_the_language_model {lib : PyLib}
    (tools : option Tools) (s : CallState) :
  raw_transcript s = "" -> cleaned_transcript s = "" -> utterances s = [] ->
  final (summarization_agent tools s) =
    set_step_count (step_count s + 1) (set_summary NO_TRANSCRIPT s)
  /\ final (sentiment_agent tools s) =
     set_step_count (step_count s + 1) (set_sentiment "unknown" s)
  /\ final (frustration_loop_agent tools s) =
     set_step_count (step_count s + 1) (set_frustration_timeline [] s)
  /\ out (summarization_agent tools s) = Returned tt
  /\ out (sentiment_agent tools s) = Returned tt
  /\ out (frustration_loop_agent tools s) = Returned tt.
Proof.
  intros Hraw Hclean Hutt.
  assert (Ht : transcript_of s = "").
  { unfold transcript_of, str_or. rewrite Hclean, Hraw. reflexivity. }
  unfold summarization_agent, sentiment_agent, frustration_loop_agent.
  rewrite !(bind_get _ s). cbv zeta. rewrite Hutt, Ht.
  cbn [is_empty strip lstrip rstrip String.eqb].
  repeat split.
Qed.

(** An instance of [empty_transcript_skips_the_language_model]: a fresh
    call state on the empty transcript, with a language model that would
    answer. *)
Lemma empty_transcript_skips_the_language_model_witness :
  let s := new_CallState "" 0 in
  let tools := Some (default_tools (Some (constant_llm "positive")) None None) in
  raw_transcript s = "" /\ cleaned_transcript s = "" /\ utterances s = []
  /\ tool_calls (final (@summarization_agent example_lib tools s)) = 0
  /\ sentiment (final (sentiment_agent tools s)) = "unknown"
  /\ messages (final (@frustration_loop_agent example_lib tools s)) = [].
Proof.
  intros s tools.
  destruct (@empty_transcript_skips_the_language_model example_lib tools s
              eq_refl eq_refl eq_refl) as (H1 & H2 & H3 & _).
  rewrite H1, H2, H3. repeat split.
Defined.

(** X7. [cleaning_agent] never raises.  The cleaned transcript is the
    reply of the cleaner when there is a cleaner and its call returns, and
    [_fallback_clean] of the raw transcript otherwise; the utterances are
    [_split_utterances] of the cleaned transcript; [step_count] grows by
    one, and [tool_successes] by one exactly when the cleaner returned. *)
Theorem cleaning_agent_result (tools : option Tools) (s : CallState) :
  let r := cleaning_agent tools s in
  let reply :=
    match tools with
    | Some t => match get_cleaner t with
                | Some clean_transcript => clean_transcript (raw_transcript s)
                | None => None
                end
    | None => None
    end in
  out r = Returned tt
  /\ cleaned_transcript (final r) =
     match reply with
     | Some cleaned => cleaned
     | None => _fallback_clean (raw_transcript s)
     end
  /\ utterances (final r) = _split_utterances (cleaned_transcript (final r))
  /\ step_count (final r) = step_count s + 1
  /\ tool_successes (final r) =
     tool_successes s + match reply with Some _ => 1 | None => 0 end.
Proof.
  intros r reply.
  assert (Hw : wp (cleaning_agent tools)
                 (fun _ s' =>
                    cleaned_transcript s' =
                      match reply with
                      | Some cleaned => cleaned
                      | None => _fallback_clean (raw_transcript s)
                      end
                    /\ utterances s' = _split_utterances (cleaned_transcript s')
                    /\ step_count s' = step_count s + 1
                    /\ tool_successes s' =
                       tool_successes s + match reply with Some _ => 1 | None => 0 end)
                 no_exn s).
  { subst reply. unfold cleaning_agent. wp_step. wp_step. wp_step.
    generalize (_fallback_clean (raw_transcript s)) as fallback.
    generalize _split_utterances as split.
    intros split fallback.
    destruct tools as [t|]; [destruct (get_cleaner t) as [c|]|].
    - wp_run. destruct (c (raw_transcript s)) as [cleaned|]; cbv beta iota.
      + wp_run. cbn. repeat split; lia.
      + wp_run. cbn. repeat split; lia.
    - wp_run. cbn. repeat split; lia.
    - wp_run. cbn. repeat split; lia. }
  unfold wp in Hw. fold r in Hw.
  destruct (out r) as [[]|e]; [|destruct Hw].
  split; [reflexivity|exact Hw].
Qed.

(* ================================================================== *)
(** * Utterances and entities                                          *)
(* ================================================================== *)

Lemma lstrip_no_leading_space (s : string) : no_leading_space (lstrip s).
Proof.
  induction s as [|c r IH]; cbn [lstrip]; [exact I|].
  destruct (is_space c) eqn:Hc; [exact IH|exact Hc].
Qed.

Lemma lstrip_fixed (s : string) : no_leading_space s -> lstrip s = s.
Proof.
  destruct s as [|c r]; cbn [no_leading_space lstrip]; [reflexivity|].
  intros ->. reflexivity.
Qed.

Lemma rstrip_no_leading_space (s : string) :
  no_leading_space s -> no_leading_space (rstrip s).
Proof.
  destruct s as [|c r]; cbn [no_leading_space rstrip]; [auto|].
  intros Hc. rewrite Hc. cbn [andb no_leading_space]. exact Hc.
Qed.

Lemma rstrip_idempotent (s : string) : rstrip (rstrip s) = rstrip s.
Proof.
  induction s as [|c r IH]; cbn [rstrip]; [reflexivity|].
  destruct (is_space c && is_empty (rstrip r)) eqn:Hc; [reflexivity|].
  cbn [rstrip]. rewrite IH, Hc. reflexivity.
Qed.

Lemma strip_idempotent (s : string) : strip (strip s) = strip s.
Proof.
  unfold strip.
  rewrite (lstrip_fixed (rstrip (lstrip s))).
  - apply rstrip_idempotent.
  - apply rstrip_no_leading_space, lstrip_no_leading_space.
Qed.

(** X6. Every utterance that [_split_utterances] returns is non-empty and
    has no white space at either end ([strip] leaves it as it is); the
    empty text gives no utterance. *)
Theorem _split_utterances_stripped (text : string) :
  Forall (fun u => u <> "" /\ strip u = u) (_split_utterances text)
  /\ (text = "" -> _split_utterances text = []).
Proof.
  split.
  - unfold _split_utterances. destruct (is_empty text); [constructor|].
    cbv zeta. rewrite Forall_forall. intros u Hu.
    apply in_map_iff in Hu. destruct Hu as (p & <- & Hp).
    apply filter_In in Hp. destruct Hp as [_ Hp].
    split.
    + intros He. rewrite He in Hp. discriminate Hp.
    + apply strip_idempotent.
  - intros ->. reflexivity.
Qed.

(** [rule_based_entities] returns the six keys, in order.  The product and
    the issue are a keyword of their list that occurs in the lower-cased
    text, or [None] when no keyword of the list occurs; the priority is
    [normal] or [high]. *)
Theorem rule_based_entities_keywords (text : string) :
  let e := rule_based_entities text in
  map fst e =
    ["customer_profile"; "product"; "issue"; "context"; "priority"; "other_tags"]
  /\ (dict_get "product" e = Some PNone
        /\ (forall kw, In kw PRODUCT_KEYWORDS -> contains kw (lower text) = false)
      \/ exists kw, dict_get "product" e = Some (PStr kw)
           /\ In kw PRODUCT_KEYWORDS /\ contains kw (lower text) = true)
  /\ (dict_get "issue" e = Some PNone
        /\ (forall kw, In kw ISSUE_KEYWORDS -> contains kw (lower text) = false)
      \/ exists kw, dict_get "issue" e = Some (PStr kw)
           /\ In kw ISSUE_KEYWORDS /\ contains kw (lower text) = true)
  /\ (dict_get "priority" e = Some (PStr "normal")
      \/ dict_get "priority" e = Some (PStr "high")).
Proof.
  intros e. subst e. unfold rule_based_entities. cbv zeta.
  split; [reflexivity|].
  assert (Hk : forall kws,
             (opt_str (first_keyword kws (lower text)) = PNone
              /\ (forall kw, In kw kws -> contains kw (lower text) = false))
             \/ exists kw, opt_str (first_keyword kws (lower text)) = PStr kw
                  /\ In kw kws /\ contains kw (lower text) = true).
  { intros kws. unfold first_keyword.
    destruct (find _ kws) as [kw|] eqn:Hf.
    - right. exists kw. apply find_some in Hf. tauto.
    - left. split; [reflexivity|]. intros kw Hkw.
      apply (find_none _ _ Hf kw Hkw). }
  split; [|split].
  - destruct (Hk PRODUCT_KEYWORDS) as [[H1 H2]|(kw & H1 & H2)].
    + left. split; [|exact H2].
      change (Some (opt_str (first_keyword PRODUCT_KEYWORDS (lower text))) = Some PNone).
      rewrite H1. reflexivity.
    + right. exists kw. split; [|exact H2].
      change (Some (opt_str (first_keyword PRODUCT_KEYWORDS (lower text))) = Some (PStr kw)).
      rewrite H1. reflexivity.
  - destruct (Hk ISSUE_KEYWORDS) as [[H1 H2]|(kw & H1 & H2)].
    + left. split; [|exact H2].
      change (Some (opt_str (first_keyword ISSUE_KEYWORDS (lower text))) = Some PNone).
      rewrite H1. reflexivity.
    + right. exists kw. split; [|exact H2].
      change (Some (opt_str (first_keyword ISSUE_KEYWORDS (lower text))) = Some (PStr kw)).
      rewrite H1. reflexivity.
  - change (Some (PStr (if contains_any ["supervisor"; "manager"; "third time"; "fourth time"] (lower text)
                        then "high"
                        else if search_cancel_account (lower text) then "high" else "normal"))
            = Some (PStr "normal")
            \/ Some (PStr (if contains_any ["supervisor"; "manager"; "third time"; "fourth time"] (lower text)
                        then "high"
                        else if search_cancel_account (lower text) then "high" else "normal"))
            = Some (PStr "high")).
    destruct (contains_any _ _); [right; reflexivity|].
    destruct (search_cancel_account _); [right|left]; reflexivity.
Qed.

(** The run of [entities_agent]: it always returns, with the entities, the
    message and the step. *)
Lemma entities_agent_run {lib : PyLib} (tools : option Tools) (s : CallState) :
  let text := transcript_of s in
  let reply :=
    match llm_of tools with
    | Some client => client (EntitiesPrompt text)
    | None => None
    end in
  wp (entities_agent tools)
    (fun _ s' =>
       entities s' =
         match reply with
         | Some content =>
             match json_loads (strip content) with
             | Some (PDict d) => d
             | Some other => [("raw_entities", other)]
             | None => rule_based_entities text
             end
         | None => rule_based_entities text
         end
       /\ messages s' =
          messages s ++
            [{| m_from := "entities"; m_to := "summarization";
                m_type := "entity_summary";
                m_payload :=
                  [("product", dict_get_default "product" PNone (entities s'));
                   ("issue", dict_get_default "issue" PNone (entities s'));
                   ("priority", dict_get_default "priority" PNone (entities s'));
                   ("tags", dict_get_default "other_tags" (PList []) (entities s'))] |}]
       /\ step_count s' = step_count s + 1)
    no_exn s.
Proof.
  intros text reply. subst reply text. unfold entities_agent. wp_step. wp_step. cbv zeta.
  generalize (rule_based_entities (transcript_of s)). intros rb.
  destruct (llm_of tools) as [client|]; [|wp_run; repeat split].
  destruct (client (EntitiesPrompt (transcript_of s))) as [content|] eqn:Hc;
    cbv beta iota.
  - wp_run. rewrite Hc. wp_run. unfold py_json_loads.
    destruct (json_loads (strip content)) as [[| | | | | |]|];
      wp_run; repeat split.
  - wp_run. rewrite Hc. wp_run. repeat split.
Qed.

(** X8. [entities_agent] never raises.  The entities are the object the
    reply of the language model parses to; [{raw_entities: v}] when the
    reply parses to a value [v] that is not an object; and
    [rule_based_entities] of the transcript when there is no model, its
    call raises or the reply does not parse.  One [entity_summary] message
    for the summarization agent is appended, with the product, issue,
    priority and tags of those entities ([None], [None], [None] and [[]]
    for a missing key), and [step_count] grows by one. *)
Theorem entities_agent_result {lib : PyLib} (tools : option Tools) (s : CallState) :
  let r := entities_agent tools s in
  let text := transcript_of s in
  let reply :=
    match llm_of tools with
    | Some client => client (EntitiesPrompt text)
    | None => None
    end in
  let found := entities (final r) in
  out r = Returned tt
  /\ found =
     match reply with
     | Some content =>
         match json_loads (strip content) with
         | Some (PDict d) => d
         | Some other => [("raw_entities", other)]
         | None => rule_based_entities text
         end
     | None => rule_based_entities text
     end
  /\ messages (final r) =
     messages s ++
       [{| m_from := "entities"; m_to := "summarization";
           m_type := "entity_summary";
           m_payload :=
             [("product", dict_get_default "product" PNone found);
              ("issue", dict_get_default "issue" PNone found);
              ("priority", dict_get_default "priority" PNone found);
              ("tags", dict_get_default "other_tags" (PList []) found)] |}]
  /\ step_count (final r) = step_count s + 1.
Proof.
  intros r text reply found.
  pose proof (entities_agent_run tools s) as Hw. cbv zeta in Hw.
  unfold wp in Hw. fold r in Hw. fold found in Hw.
  destruct (out r) as [[]|e]; [|destruct Hw].
  destruct Hw as (H1 & H2 & H3). auto.
Qed.

(* ================================================================== *)
(** * The frustration timeline and its summary                         *)
(* ================================================================== *)

Section FrustrationTimeline.
Context {lib : PyLib}.

Lemma _rule_based_frustration_label (v : pyval) (l : string) :
  _rule_based_frustration v = inr l -> In l FRUSTRATION_LABELS.
Proof.
  unfold _rule_based_frustration, rbind, ok.
  destruct (py_lower v) as [e|u]; [discriminate|].
  repeat match goal with
         | |- context [if ?c then _ else _] => destruct c
         end;
    intros H; injection H as <-; cbn; auto.
Qed.

Lemma sanitize_item_label (item : pyval) (entry : dict) :
  sanitize_item item = inr entry -> level_in_labels entry.
Proof.
  unfold sanitize_item, rbind, ok.
  destruct (py_get item "level" PNone) as [e|level]; [discriminate|].
  destruct (py_lower _) as [e|lvl]; [discriminate|].
  destruct (str_in lvl FRUSTRATION_LABELS) eqn:Hin.
  - destruct (py_get item "index" (PInt 0)) as [e|index]; [discriminate|].
    destruct (py_int index) as [e|i]; [discriminate|].
    destruct (py_get item "utterance" (PStr "")) as [e|u]; [discriminate|].
    intros H. injection H as <-. exists lvl. split; [reflexivity|].
    unfold str_in in Hin. apply existsb_exists in Hin.
    destruct Hin as (x & Hx & He). apply String.eqb_eq in He. subst. exact Hx.
  - destruct (py_get item "utterance" (PStr "")) as [e|u]; [discriminate|].
    destruct (_rule_based_frustration u) as [e|lvl'] eqn:Hr; [discriminate|].
    destruct (py_get item "index" (PInt 0)) as [e|index]; [discriminate|].
    destruct (py_int index) as [e|i]; [discriminate|].
    intros H. injection H as <-. exists lvl'. split; [reflexivity|].
    apply (_rule_based_frustration_label u lvl' Hr).
Qed.

Lemma sanitize_items_labels (items : list pyval) (timeline : list dict) :
  sanitize_items items = inr timeline -> Forall level_in_labels timeline.
Proof.
  revert timeline. induction items as [|item rest IH]; intros timeline.
  - cbn. intros H. injection H as <-. constructor.
  - cbn [sanitize_items]. unfold rbind, ok.
    destruct (sanitize_item item) as [e|entry] eqn:He; [discriminate|].
    destruct (sanitize_items rest) as [e|entries]; [discriminate|].
    intros H. injection H as <-.
    constructor; [apply (sanitize_item_label item entry He)|].
    apply IH. reflexivity.
Qed.

(** The fallback comprehension: one entry per utterance, numbered from
    [i + 1], each with the level the rules give. *)
Lemma fallback_timeline_entries (utterances : list string) (i : Z) :
  exists timeline,
    fallback_timeline i utterances = ok timeline
    /\ Forall level_in_labels timeline
    /\ List.length timeline = List.length utterances
    /\ forall (k : nat) (utt : string),
         nth_error utterances k = Some utt ->
         exists item,
           nth_error timeline k = Some item
           /\ dict_get "index" item = Some (PInt (i + Z.of_nat k + 1))
           /\ dict_get "utterance" item = Some (PStr utt)
           /\ exists lvl, _rule_based_frustration (PStr utt) = ok lvl
                /\ dict_get "level" item = Some (PStr lvl).
Proof.
  revert i. induction utterances as [|utt rest IH]; intros i.
  - exists []. split; [reflexivity|]. split; [constructor|].
    split; [reflexivity|]. intros [|k] u H; discriminate H.
  - cbn [fallback_timeline].
    destruct (_rule_based_frustration_str utt) as [lvl Hlvl].
    rewrite Hlvl.
    destruct (IH (i + 1)) as (tl & -> & Hlab & Hlen & Hnth).
    cbn [rbind ok]. eexists. split; [reflexivity|]. split; [|split].
    + constructor; [|exact Hlab]. exists lvl. split; [reflexivity|].
      apply (_rule_based_frustration_label (PStr utt) lvl Hlvl).
    + cbn [List.length]. rewrite Hlen. reflexivity.
    + intros [|k] u Hu; cbn [nth_error] in *.
      * injection Hu as <-. eexists. split; [reflexivity|].
        split; [cbn; f_equal; f_equal; lia|]. split; [reflexivity|].
        exists lvl. split; [exact Hlvl|reflexivity].
      * destruct (Hnth k u Hu) as (item & H1 & H2 & H3 & H4).
        exists item. split; [exact H1|]. split; [|split; assumption].
        rewrite H2. f_equal. f_equal. lia.
Qed.

Lemma label_lower (l : string) : In l FRUSTRATION_LABELS -> lower l = l.
Proof.
  cbn. intros [<-|[<-|[<-|[]]]]; reflexivity.
Qed.

Lemma has_level_of (item : dict) (l l' : string) :
  dict_get "level" item = Some (PStr l) -> has_level l' item = String.eqb l l'.
Proof.
  intros H. unfold has_level, dict_get_default. rewrite H. reflexivity.
Qed.

Lemma count_levels_labels (timeline : list dict) (low medium high : Z) :
  Forall level_in_labels timeline ->
  count_levels timeline (low, medium, high) =
  ok (low + Z.of_nat (List.length (filter (has_level "low") timeline)),
      medium + Z.of_nat (List.length (filter (has_level "medium") timeline)),
      high + Z.of_nat (List.length (filter (has_level "high") timeline))).
Proof.
  intros H. revert low medium high.
  induction H as [|item rest (l & Hl & Hin) _ IH]; intros low medium high.
  - cbn. rewrite !Z.add_0_r. reflexivity.
  - cbn [count_levels filter].
    rewrite !(has_level_of item l _ Hl).
    unfold dict_get_default. rewrite Hl.
    cbn [py_lower rbind ok]. rewrite (label_lower l Hin).
    cbn in Hin. destruct Hin as [<-|[<-|[<-|[]]]];
      cbn [String.eqb Ascii.eqb Bool.eqb]; rewrite IH;
      cbn [List.length]; rewrite ?Nat2Z.inj_succ;
      rewrite <- ?Z.add_1_l, ?Z.add_assoc; reflexivity.
Qed.

Lemma filter_nil_existsb {A} (f : A -> bool) (l : list A) :
  (0 <? Z.of_nat (List.length (filter f l))) = existsb f l.
Proof.
  induction l as [|x l IH]; [reflexivity|].
  cbn [filter existsb]. destruct (f x).
  - cbn [List.length orb]. apply Z.ltb_lt. lia.
  - exact IH.
Qed.

Lemma _overall_level_labels (timeline : list dict) :
  Forall level_in_labels timeline ->
  _overall_level timeline =
  ok (if existsb (has_level "high") timeline then "high"
      else if existsb (has_level "medium") timeline then "medium"
      else "low").
Proof.
  intros H. unfold _overall_level.
  rewrite (count_levels_labels timeline 0 0 0 H). cbn [rbind ok].
  rewrite !Z.add_0_l, !filter_nil_existsb.
  destruct (existsb (has_level "high") timeline); [reflexivity|].
  destruct (existsb (has_level "medium") timeline); reflexivity.
Qed.

Lemma high_segments_of_labels (timeline : list dict) :
  Forall level_in_labels timeline ->
  high_segments_of timeline = ok (filter (has_level "high") timeline).
Proof.
  intros H. induction H as [|item rest (l & Hl & Hin) _ IH].
  - reflexivity.
  - cbn [high_segments_of filter]. rewrite Hl, IH. cbn [rbind ok].
    unfold has_level, dict_get_default. rewrite Hl. reflexivity.
Qed.

Lemma quiet_reply (tools : option Tools) (client : LLMClient) (p : prompt) :
  quiet tools -> llm_of tools = Some client -> client p = None.
Proof.
  intros [H|H] Hc; rewrite H in Hc; [discriminate|].
  injection Hc as <-. reflexivity.
Qed.

(** The frustration agent once it has utterances to look at. *)
Lemma frustration_loop_agent_run (tools : option Tools) (s : CallState) :
  let idle :=
    match utterances s with
    | [] => is_empty (transcript_of s)
    | _ :: _ => false
    end in
  let utts :=
    match utterances s with
    | [] => [transcript_of s]
    | _ :: _ => utterances s
    end in
  wp (frustration_loop_agent tools)
    (fun _ s' =>
       Forall level_in_labels (frustration_timeline s')
       /\ step_count s' = step_count s + 1
       /\ messages s' =
          (if idle then messages s
           else messages s ++ [frustration_summary_of (frustration_timeline s')])
       /\ (idle = true -> frustration_timeline s' = [])
       /\ (idle = false -> quiet tools ->
           fallback_timeline 0 utts = ok (frustration_timeline s')))
    no_exn s.
Proof.
  intros idle utts. subst idle utts.
  unfold frustration_loop_agent. wp_step. wp_step. cbv zeta.
  assert (Hbody : forall u us,
    wp (timeline <-
          match llm_of tools with
          | Some client =>
              try_except
                (let prompt := _build_frustration_prompt (u :: us) in
                 incr_tool_calls ;;
                 raw <- chat client prompt ;;
                 incr_tool_successes ;;
                 parsed <- lift (py_json_loads raw) ;;
                 match parsed with
                 | PList items => lift (sanitize_items items)
                 | _ => ret []
                 end)
                (fun _ => ret [])
          | None => ret []
          end ;;
        timeline <-
          match timeline with
          | [] => lift (fallback_timeline 0 (u :: us))
          | _ => ret timeline
          end ;;
        modify (set_frustration_timeline timeline) ;;
        incr_step_count ;;
        overall <- lift (_overall_level timeline) ;;
        high_segments <- lift (high_segments_of timeline) ;;
        send_message "frustration_loop" "pain_points" "frustration_summary"
          [("overall_level", PStr overall);
           ("high_segments", PList (map PDict high_segments));
           ("timeline_length", PInt (Z.of_nat (List.length timeline)))])
      (fun _ s' =>
         Forall level_in_labels (frustration_timeline s')
         /\ step_count s' = step_count s + 1
         /\ messages s' =
            messages s ++ [frustration_summary_of (frustration_timeline s')]
         /\ (quiet tools ->
             fallback_timeline 0 (u :: us) = ok (frustration_timeline s')))
      no_exn s).
  { intros u us. apply wp_bind.
    apply wp_conseq with
      (Q := fun tl s' =>
              Forall level_in_labels tl /\ (quiet tools -> tl = [])
              /\ step_count s' = step_count s /\ messages s' = messages s)
      (E := no_exn).
    - wp_cases;
        (split; [first [constructor | eapply sanitize_items_labels; eassumption]|]);
        (split; [|split; reflexivity]);
        try (intros _; reflexivity);
        intros Hq;
        match goal with
        | Hl : llm_of tools = Some ?l, Hc : ?l ?p = Some _ |- _ =>
            rewrite (quiet_reply tools l p Hq Hl) in Hc; discriminate Hc
        end.
    - intros tl s1 (Hlab & Hq & Hst & Hmsg). apply wp_bind.
      destruct tl as [|item tl'].
      + destruct (fallback_timeline_entries (u :: us) 0) as (tl2 & Hfb & Hlab2 & _).
        rewrite Hfb. wp_run.
        rewrite (_overall_level_labels _ Hlab2). wp_run.
        rewrite (high_segments_of_labels _ Hlab2). wp_run.
        cbn [frustration_timeline step_count messages set_frustration_timeline
             set_step_count set_messages].
        split; [exact Hlab2|]. split; [lia|]. split; [|reflexivity].
        rewrite Hmsg. reflexivity.
      + wp_run.
        rewrite (_overall_level_labels _ Hlab). wp_run.
        rewrite (high_segments_of_labels _ Hlab). wp_run.
        cbn [frustration_timeline step_count messages set_frustration_timeline
             set_step_count set_messages].
        split; [exact Hlab|]. split; [lia|]. split.
        * rewrite Hmsg. reflexivity.
        * intros Hquiet. discriminate (Hq Hquiet).
    - intros e s' H. exact H. }
  destruct (utterances s) as [|u0 us0] eqn:Hu.
  - destruct (is_empty (transcript_of s)) eqn:He.
    + wp_run. cbn. split; [constructor|]. repeat split. discriminate.
    + eapply wp_conseq; [apply Hbody| |intros e s' H; exact H].
      cbv beta. intros _ s' (H1 & H2 & H3 & H4).
      split; [exact H1|]. split; [exact H2|]. split; [exact H3|].
      split; [discriminate|]. intros _. exact H4.
  - eapply wp_conseq; [apply Hbody| |intros e s' H; exact H].
    cbv beta. intros _ s' (H1 & H2 & H3 & H4).
    split; [exact H1|]. split; [exact H2|]. split; [exact H3|].
    split; [discriminate|]. intros _. exact H4.
Qed.

End FrustrationTimeline.

(** [frustration_loop_agent] always returns, every entry of the timeline
    it stores holds one of the three levels, and it counts one step. *)
Theorem frustration_timeline_levels {lib : PyLib} (tools : option Tools)
    (s : CallState) :
  let r := frustration_loop_agent tools s in
  out r = Returned tt
  /\ Forall level_in_labels (frustration_timeline (final r))
  /\ step_count (final r) = step_count s + 1.
Proof.
  intros r. pose proof (frustration_loop_agent_run tools s) as Hw.
  cbv zeta in Hw. unfold wp in Hw. fold r in Hw.
  destruct (out r) as [[]|e]; [|destruct Hw].
  destruct Hw as (H1 & H2 & _). auto.
Qed.

(** X13. When there is something to rate (utterances, or a transcript that
    is not empty), [frustration_loop_agent] never raises, every entry of
    the timeline it stores holds one of the three levels, and it appends
    exactly one [frustration_summary] message for the pain-point agent
    that agrees with the stored timeline: [high_segments] are the entries
    rated high, in order, [timeline_length] is the length of the timeline,
    and [overall_level] is high exactly when some entry is rated high,
    medium exactly when none is rated high and some is rated medium, and
    low otherwise. *)
Theorem frustration_summary_matches_timeline {lib : PyLib}
    (tools : option Tools) (s : CallState) :
  utterances s <> [] \/ transcript_of s <> "" ->
  let r := frustration_loop_agent tools s in
  let timeline := frustration_timeline (final r) in
  out r = Returned tt
  /\ Forall level_in_labels timeline
  /\ exists overall highs,
    messages (final r) =
      messages s ++
        [{| m_from := "frustration_loop"; m_to := "pain_points";
            m_type := "frustration_summary";
            m_payload :=
              [("overall_level", PStr overall);
               ("high_segments", PList (map PDict highs));
               ("timeline_length", PInt (Z.of_nat (List.length timeline)))] |}]
    /\ highs = filter (has_level "high") timeline
    /\ In overall FRUSTRATION_LABELS
    /\ (overall = "high" <-> highs <> [])
    /\ (overall = "medium" <->
        highs = [] /\ existsb (has_level "medium") timeline = true).
Proof.
  intros Hne r timeline. pose proof (frustration_loop_agent_run tools s) as Hw.
  cbv zeta in Hw. unfold wp in Hw. fold r in Hw.
  destruct (out r) as [[]|e]; [|destruct Hw].
  split; [reflexivity|].
  destruct Hw as (Hlab & _ & Hmsg & _).
  split; [exact Hlab|].
  assert (Hidle : match utterances s with
                  | [] => is_empty (transcript_of s)
                  | _ :: _ => false
                  end = false).
  { destruct (utterances s) as [|u us]; [|reflexivity].
    destruct Hne as [Hne|Hne]; [contradiction|].
    unfold is_empty. apply String.eqb_neq. exact Hne. }
  rewrite Hidle in Hmsg. fold timeline in Hmsg.
  unfold frustration_summary_of in Hmsg. cbv zeta in Hmsg.
  eexists _, _. split; [exact Hmsg|]. split; [reflexivity|].
  assert (Hex : existsb (has_level "high") timeline = true
                <-> filter (has_level "high") timeline <> []).
  { clear. induction timeline as [|item tl IH]; cbn [existsb filter].
    - split; [discriminate|intros H; contradiction].
    - destruct (has_level "high" item); cbn [orb].
      + split; [discriminate|reflexivity].
      + exact IH. }
  destruct (existsb (has_level "high") timeline) eqn:Hh.
  - split; [cbn; auto|]. split.
    + split; [intros _; apply Hex; reflexivity|reflexivity].
    + split; [discriminate|].
      intros [Hnil _]. exfalso. apply (proj1 Hex eq_refl). exact Hnil.
  - assert (Hnil : filter (has_level "high") timeline = []).
    { destruct (filter (has_level "high") timeline) eqn:Hf; [reflexivity|].
      exfalso. assert (Hd : false = true); [|discriminate Hd].
      apply Hex. discriminate. }
    destruct (existsb (has_level "medium") timeline) eqn:Hm.
    + split; [cbn; auto|]. split.
      * split; [discriminate|]. intros H. contradiction.
      * split; [intros _; split; [exact Hnil|reflexivity]|reflexivity].
    + split; [cbn; auto|]. split.
      * split; [discriminate|]. intros H. contradiction.
      * split; [discriminate|]. intros [_ H]. discriminate H.
Qed.

(** X14. With the language model absent or raising, and utterances to
    rate, the timeline has one entry for each utterance, in order: the
    entry at position [k] (from zero) holds the index [k + 1], the
    utterance itself, and the level that [_rule_based_frustration] gives
    the utterance. *)
Theorem frustration_fallback_timeline {lib : PyLib} (tools : option Tools)
    (s : CallState) :
  quiet tools -> utterances s <> [] ->
  let r := frustration_loop_agent tools s in
  let timeline := frustration_timeline (final r) in
  List.length timeline = List.length (utterances s)
  /\ forall (k : nat) (utt : string),
       nth_error (utterances s) k = Some utt ->
       exists item lvl,
         nth_error timeline k = Some item
         /\ dict_get "index" item = Some (PInt (Z.of_nat k + 1))
         /\ dict_get "utterance" item = Some (PStr utt)
         /\ _rule_based_frustration (PStr utt) = ok lvl
         /\ dict_get "level" item = Some (PStr lvl).
Proof.
  intros Hq Hne r timeline. pose proof (frustration_loop_agent_run tools s) as Hw.
  cbv zeta in Hw. unfold wp in Hw. fold r in Hw.
  destruct (out r) as [[]|e]; [|destruct Hw].
  destruct Hw as (_ & _ & _ & _ & Hfb).
  destruct (utterances s) as [|u us] eqn:Hu; [contradiction|].
  specialize (Hfb eq_refl Hq). fold timeline in Hfb.
  destruct (fallback_timeline_entries (u :: us) 0) as (tl & Htl & _ & Hlen & Hnth).
  rewrite Htl in Hfb. injection Hfb as <-.
  split; [exact Hlen|].
  intros k utt Hk. destruct (Hnth k utt Hk) as (item & H1 & H2 & H3 & lvl & H4 & H5).
  exists item, lvl. repeat split; assumption.
Qed.

(** An instance of [frustration_summary_matches_timeline]: two utterances,
    no language model. *)
Lemma frustration_summary_matches_timeline_witness :
  let s := set_utterances ["This is unacceptable."; "Thank you."]
             (new_CallState "This is unacceptable. Thank you." 0) in
  let r := @frustration_loop_agent example_lib None s in
  (utterances s <> [] \/ transcript_of s <> "")
  /\ exists overall highs,
       messages (final r) =
         messages s ++
           [{| m_from := "frustration_loop"; m_to := "pain_points";
               m_type := "frustration_summary";
               m_payload :=
                 [("overall_level", PStr overall);
                  ("high_segments", PList (map PDict highs));
                  ("timeline_length",
                   PInt (Z.of_nat (List.length (frustration_timeline (final r)))))] |}]
       /\ (overall = "high" <-> highs <> []).
Proof.
  intros s r.
  assert (H : utterances s <> [] \/ transcript_of s <> "") by (left; discriminate).
  split; [exact H|].
  destruct (@frustration_summary_matches_timeline example_lib None s H)
    as (_ & _ & overall & highs & H1 & _ & _ & H2 & _).
  exists overall, highs. split; [exact H1|exact H2].
Defined.

(** An instance of [frustration_fallback_timeline]: two utterances, no
    language model. *)
Lemma frustration_fallback_timeline_witness :
  let s := set_utterances ["This is unacceptable."; "Thank you."]
             (new_CallState "This is unacceptable. Thank you." 0) in
  let r := @frustration_loop_agent example_lib None s in
  quiet None /\ utterances s <> []
  /\ List.length (frustration_timeline (final r)) = 2%nat.
Proof.
  intros s r.
  assert (Hq : quiet None) by (left; reflexivity).
  assert (Hne : utterances s <> []) by discriminate.
  split; [exact Hq|]. split; [exact Hne|].
  destruct (@frustration_fallback_timeline example_lib None s Hq Hne) as [Hlen _].
  exact Hlen.
Defined.

(* ================================================================== *)
(** * Pain points and actions: what they return, what they raise       *)
(* ================================================================== *)

Section PainPointsAndActions.
Context {lib : PyLib}.

Lemma dedupe_raises_TypeError (items seen : list pyval) (e : exn) :
  dedupe seen items = inl e -> e = TypeError.
Proof.
  revert seen. induction items as [|p rest IH]; intros seen; cbn [dedupe].
  - discriminate.
  - destruct (hashable p); cbn [negb].
    + destruct (existsb (atom_eqb p) seen); [apply IH|].
      unfold rbind. destruct (dedupe (p :: seen) rest) as [e'|d] eqn:Hd.
      * intros H. injection H as <-. apply (IH _ Hd).
      * discriminate.
    + intros H. injection H as <-. reflexivity.
Qed.

Lemma _rule_based_pain_points_outcome (s : CallState) :
  wp _rule_based_pain_points
    (fun pps s' => s' = s /\ pps <> [])
    (fun e s' => e = TypeError /\ s' = s) s.
Proof.
  unfold _rule_based_pain_points.
  wp_step. wp_step. cbv zeta. wp_step. wp_step. wp_step. wp_step.
  match goal with
  | |- context [dedupe [] ?l] => destruct (dedupe [] l) as [e|d] eqn:Hd
  end.
  - split; [apply (dedupe_raises_TypeError _ _ _ Hd)|reflexivity].
  - destruct d; wp_run; (split; [reflexivity|discriminate]).
Qed.

(** The run of [pain_points_agent]: what holds when it returns and when it
    raises. *)
Lemma pain_points_agent_run (tools : option Tools) (s : CallState) :
  wp (pain_points_agent tools)
    (fun _ s' => pain_points s' <> [] /\ step_count s' = step_count s + 1)
    (fun e s' => e = TypeError
                 /\ pain_points s' = pain_points s
                 /\ step_count s' = step_count s) s.
Proof.
  unfold pain_points_agent. wp_step. wp_step. cbv zeta. apply wp_bind.
  apply wp_conseq with
    (Q := fun pps s' =>
            pain_points s' = pain_points s /\ step_count s' = step_count s)
    (E := no_exn).
  - wp_cases; split; reflexivity.
  - intros pps s1 (Hp & Hs). apply wp_bind.
    assert (Hrb : wp _rule_based_pain_points
                    (fun a s' => wp (modify (set_pain_points a) ;; incr_step_count)
                       (fun _ s'' => pain_points s'' <> []
                                     /\ step_count s'' = step_count s + 1)
                       (fun e s'' => e = TypeError
                                     /\ pain_points s'' = pain_points s
                                     /\ step_count s'' = step_count s) s')
                    (fun e s' => e = TypeError
                                 /\ pain_points s' = pain_points s
                                 /\ step_count s' = step_count s) s1).
    { eapply wp_conseq; [apply (_rule_based_pain_points_outcome s1)| |].
      - cbv beta. intros a s' [-> Ha]. wp_run. cbn. split; [exact Ha|lia].
      - cbv beta. intros e s' [-> ->]. auto. }
    destruct pps as [[|p ps]|]; [exact Hrb| |exact Hrb].
    wp_run. cbn. split; [discriminate|lia].
  - intros e s' H. destruct H.
Qed.

(** X15. [pain_points_agent] returns with a list of pain points that is
    not empty and one more step, or raises [TypeError] (an issue among the
    entities that cannot be hashed reaches the set of the de-duplication);
    when it raises, [pain_points] and [step_count] are as before. *)
Theorem pain_points_agent_outcome (tools : option Tools) (s : CallState) :
  let r := pain_points_agent tools s in
  match out r with
  | Returned _ =>
      pain_points (final r) <> []
      /\ step_count (final r) = step_count s + 1
  | Raised e =>
      e = TypeError
      /\ pain_points (final r) = pain_points s
      /\ step_count (final r) = step_count s
  end.
Proof.
  intros r. pose proof (pain_points_agent_run tools s) as Hw.
  unfold wp in Hw. fold r in Hw. exact Hw.
Qed.

Lemma dedupe_str_spec (items seen : list string) :
  NoDup (dedupe_str seen items)
  /\ forall a, In a (dedupe_str seen items) <-> In a items /\ ~ In a seen.
Proof.
  revert seen. induction items as [|a rest IH]; intros seen; cbn [dedupe_str].
  - split; [constructor|]. intros a. split; [intros []|intros [[] _]].
  - destruct (str_in a seen) eqn:Hin.
    + destruct (IH seen) as [Hnd Hiff]. split; [exact Hnd|].
      intros b. rewrite Hiff. cbn [In]. split; [tauto|].
      intros [[<-|Hb] Hs]; [|tauto].
      exfalso. apply Hs. unfold str_in in Hin. apply existsb_exists in Hin.
      destruct Hin as (x & Hx & He). apply String.eqb_eq in He. subst. exact Hx.
    + assert (Hnot : ~ In a seen).
      { intros Hs. unfold str_in in Hin.
        assert (Ht : existsb (String.eqb a) seen = true).
        { apply existsb_exists. exists a. split; [exact Hs|apply String.eqb_refl]. }
        congruence. }
      destruct (IH (a :: seen)) as [Hnd Hiff]. split.
      * constructor; [|exact Hnd]. intros Ha. apply Hiff in Ha.
        destruct Ha as [_ Ha]. apply Ha. left. reflexivity.
      * intros b. cbn [In]. rewrite Hiff. cbn [In]. split.
        -- intros [<-|[Hb Hs]]; [tauto|]. split; [tauto|]. tauto.
        -- intros [[<-|Hb] Hs]; [tauto|].
           destruct (string_dec a b) as [->|Hne]; [tauto|]. right. tauto.
Qed.

Lemma actions_for_all_raises (pain_points : list pyval) (e : exn) :
  actions_for_all pain_points = inl e ->
  e = AttributeError /\ Exists (fun p => is_str p = false) pain_points.
Proof.
  induction pain_points as [|p rest IH]; cbn [actions_for_all]; [discriminate|].
  destruct p as [| | | |t| |];
    try (cbn; intros H; injection H as <-; split; [reflexivity|left; reflexivity]).
  destruct (actions_for_str t) as [actions ->]. cbn [rbind].
  unfold rbind at 1.
  destruct (actions_for_all rest) as [e'|more]; [|discriminate].
  intros H. injection H as <-. destruct (IH eq_refl) as [He Hex].
  split; [exact He|right; exact Hex].
Qed.

(** [_rule_based_actions] returns actions without duplicates, at least
    one, with the apology when the sentiment is negative; it raises
    [AttributeError] only on a pain point that is not a string. *)
Lemma _rule_based_actions_rules (call_state : CallState) :
  match _rule_based_actions call_state with
  | inr actions =>
      actions <> [] /\ NoDup actions
      /\ (In (sentiment call_state) ["very_negative"; "negative"] ->
          In "Offer apology and consider goodwill credit or compensation." actions)
  | inl e =>
      e = AttributeError
      /\ Exists (fun p => is_str p = false) (pain_points call_state)
  end.
Proof.
  unfold _rule_based_actions. cbv zeta.
  destruct (actions_for_all (pain_points call_state)) as [e|actions] eqn:Ha.
  - cbn [rbind]. apply (actions_for_all_raises _ _ Ha).
  - cbn [rbind].
    match goal with
    | |- context [dedupe_str [] ?l] =>
        destruct (dedupe_str_spec l []) as [Hnd Hiff];
        destruct (dedupe_str [] l) as [|a more] eqn:Hd
    end.
    + split; [discriminate|]. split; [repeat constructor; intros []|].
      intros Hs. exfalso.
      assert (Hin : str_in (str_or (sentiment call_state) "neutral")
                      ["very_negative"; "negative"] = true).
      { unfold str_or, is_empty. cbn in Hs.
        destruct Hs as [<-|[<-|[]]]; reflexivity. }
      rewrite Hin in Hiff.
      apply (proj2 (Hiff "Offer apology and consider goodwill credit or compensation.")).
      split; [|intros []]. apply in_or_app. right. left. reflexivity.
    + split; [discriminate|]. split; [exact Hnd|].
      intros Hs.
      assert (Hin : str_in (str_or (sentiment call_state) "neutral")
                      ["very_negative"; "negative"] = true).
      { unfold str_or, is_empty. cbn in Hs.
        destruct Hs as [<-|[<-|[]]]; reflexivity. }
      rewrite Hin in Hiff. apply Hiff.
      split; [|intros []]. apply in_or_app. right. left. reflexivity.
Qed.

(** The run of [actions_agent]: what holds when it returns and when it
    raises. *)
Lemma actions_agent_run (tools : option Tools) (s : CallState) :
  wp (actions_agent tools)
    (fun _ s' => recommended_actions s' <> []
                 /\ step_count s' = step_count s + 1)
    (fun e s' => e = AttributeError
                 /\ Exists (fun p => is_str p = false) (pain_points s)
                 /\ recommended_actions s' = recommended_actions s
                 /\ step_count s' = step_count s) s.
Proof.
  unfold actions_agent. cbv zeta. apply wp_bind.
  apply wp_conseq with
    (Q := fun _ s' =>
            pain_points s' = pain_points s
            /\ recommended_actions s' = recommended_actions s
            /\ step_count s' = step_count s)
    (E := no_exn).
  - wp_cases; repeat split.
  - intros acts s1 (Hp & Hr & Hs). apply wp_bind.
    assert (Hrb : wp (call_state <- get ;; lift (_rule_based_actions call_state))
              (fun a s' => wp (modify (set_recommended_actions a) ;; incr_step_count)
                 (fun _ s'' => recommended_actions s'' <> []
                               /\ step_count s'' = step_count s + 1)
                 (fun e s'' => e = AttributeError
                               /\ Exists (fun p => is_str p = false) (pain_points s)
                               /\ recommended_actions s'' = recommended_actions s
                               /\ step_count s'' = step_count s) s')
              (fun e s' => e = AttributeError
                           /\ Exists (fun p => is_str p = false) (pain_points s)
                           /\ recommended_actions s' = recommended_actions s
                           /\ step_count s' = step_count s) s1).
    { wp_run. pose proof (_rule_based_actions_rules s1) as Ho.
      destruct (_rule_based_actions s1) as [e|actions].
      - destruct Ho as [-> Hex]. rewrite Hp in Hex. auto.
      - destruct Ho as (Hne & _). wp_run. cbn. split; [exact Hne|lia]. }
    destruct acts as [[|a more]|]; [exact Hrb| |exact Hrb].
    wp_run. cbn. split; [discriminate|lia].
  - intros e s' H. destruct H.
Qed.

(** X17. [actions_agent] returns with a list of actions that is not empty
    and one more step, or raises [AttributeError], which needs a pain
    point that is not a string; when it raises, [recommended_actions] and
    [step_count] are as before. *)
Theorem actions_agent_outcome (tools : option Tools) (s : CallState) :
  let r := actions_agent tools s in
  match out r with
  | Returned _ =>
      recommended_actions (final r) <> []
      /\ step_count (final r) = step_count s + 1
  | Raised e =>
      e = AttributeError
      /\ Exists (fun p => is_str p = false) (pain_points s)
      /\ recommended_actions (final r) = recommended_actions s
      /\ step_count (final r) = step_count s
  end.
Proof.
  intros r. pose proof (actions_agent_run tools s) as Hw.
  unfold wp in Hw. fold r in Hw. exact Hw.
Qed.

End PainPointsAndActions.

(* ================================================================== *)
(** * What the evaluation agent records                                *)
(* ================================================================== *)

Section EvaluationMetrics.
Context {lib : PyLib}.

Lemma py_get_data_error (v : pyval) (k : string) (default : pyval) (e : exn) :
  py_get v k default = inl e -> In e DATA_ERRORS.
Proof.
  destruct v; cbn; intros H; inversion H; subst; auto.
Qed.

Lemma py_float_data_error (v : pyval) (e : exn) :
  py_float v = inl e -> In e DATA_ERRORS.
Proof.
  unfold py_float, DATA_ERRORS.
  destruct v as [ | | z | | s | | ];
    try destruct (Z.abs z <? FLOAT_INT_LIMIT);
    try destruct (float_of_str s);
    intros H; inversion H; subst; cbn [In]; auto 6.
Qed.

Lemma score_of_data_error (v : pyval) (k : string) (e : exn) :
  score_of v k = inl e -> In e DATA_ERRORS.
Proof.
  unfold score_of, rbind.
  destruct (py_get v k (PFloat 1)) as [e'|w] eqn:Hg.
  - intros H. injection H as <-. apply (py_get_data_error _ _ _ _ Hg).
  - apply py_float_data_error.
Qed.

Lemma same_evaluation_refl (s : CallState) : same_evaluation s s.
Proof. split; reflexivity. Qed.

Lemma same_evaluation_trans (a b c : CallState) :
  same_evaluation a b -> same_evaluation b c -> same_evaluation a c.
Proof. unfold same_evaluation. intuition congruence. Qed.

Lemma settle_llm_scores_same_evaluation (tools : option Tools) :
  traces same_evaluation (settle_llm_scores tools).
Proof.
  unfold settle_llm_scores.
  traces_with ltac:(unfold same_evaluation; cbn; auto) fail.
Qed.

(** The run of [evaluation_agent]: the nine entries when it returns, and
    what is left alone when it raises. *)
Lemma evaluation_agent_metrics (now : Q) (tools : option Tools) (s : CallState) :
  wp (evaluation_agent now tools)
    (fun _ s' =>
       exists f c k notes,
         evaluation s' =
           [("tool_calls", PInt (tool_calls s'));
            ("tool_successes", PInt (tool_successes s'));
            ("tool_success_rate",
             PFloat (if tool_calls s' =? 0 then 1
                     else inject_Z (tool_successes s') / inject_Z (tool_calls s'))%Q);
            ("step_count", PInt (step_count s));
            ("duration_sec",
             PFloat (if Qle_bool (now - start_ts s') 0 then 0
                     else now - start_ts s')%Q);
            ("faithfulness_score", PFloat f);
            ("coverage_score", PFloat c);
            ("consistency_score", PFloat k);
            ("eval_notes", notes)]
         /\ step_count s' = step_count s + 1
         /\ (no_usable_reply tools s ->
             f = 1%Q /\ c = 1%Q /\ k = 1%Q
             /\ notes = PStr "LLM evaluation not available; using default scores."))
    (fun e s' =>
       In e DATA_ERRORS
       /\ evaluation s' = evaluation s /\ step_count s' = step_count s)
    s.
Proof.
  unfold evaluation_agent. cbv zeta. fold (settle_llm_scores tools).
  apply wp_bind.
  pose proof (wp_frame same_evaluation (settle_llm_scores tools) _ _ s
                same_evaluation_refl same_evaluation_trans
                (settle_llm_scores_same_evaluation tools)
                (settle_llm_scores_outcome tools s)) as Hsettle.
  eapply wp_conseq; [exact Hsettle| |intros e s' [H _]; destruct H].
  cbv beta. intros llm_scores s1 [[_ Hdef] [Hst Hev]].
  apply wp_bind. apply (wp_reads_only _ _ _ _ _ (compute_basic_eval_reads now)).
  cbv beta.
  wp_step. wp_step.
  destruct (score_of llm_scores "faithfulness_score") as [e|f] eqn:Hf;
    [split; [apply (score_of_data_error _ _ _ Hf)|split; congruence]|].
  wp_step. wp_step.
  destruct (score_of llm_scores "coverage_score") as [e|c] eqn:Hc;
    [split; [apply (score_of_data_error _ _ _ Hc)|split; congruence]|].
  wp_step. wp_step.
  destruct (score_of llm_scores "consistency_score") as [e|k] eqn:Hk;
    [split; [apply (score_of_data_error _ _ _ Hk)|split; congruence]|].
  wp_step. wp_step.
  destruct (py_get llm_scores "notes" (PStr "")) as [e|notes] eqn:Hn;
    [split; [apply (py_get_data_error _ _ _ _ Hn)|split; congruence]|].
  repeat wp_step.
  exists f, c, k, notes. split; [|split].
  - cbn [evaluation set_evaluation set_step_count tool_calls tool_successes].
    unfold basic_eval_of, compute_basic_eval, bind, get, ret.
    cbn [out final]. unfold dict_merge. cbn [fold_left fst snd].
    cbn [dict_set String.eqb Ascii.eqb Bool.eqb].
    rewrite Hst. reflexivity.
  - cbn. lia.
  - intros Hno. rewrite (Hdef Hno) in Hf, Hc, Hk, Hn.
    cbn in Hf, Hc, Hk, Hn.
    injection Hf as <-. injection Hc as <-. injection Hk as <-. injection Hn as <-.
    repeat split.
Qed.

(** X18. What [evaluation_agent] records.  When it returns, [evaluation]
    holds nine entries in this order: the five of [compute_basic_eval],
    taken after the call of the language model and before the agent counts
    its own step (the final counters, their ratio, or 1 when no call was
    made, the steps of the agents before it, and the time since
    [start_ts], or 0 when the clock went back), then the three scores as
    floats and the notes.  When it raises, [evaluation] and [step_count]
    are as before. *)
Theorem evaluation_agent_writes_the_metrics (now : Q) (tools : option Tools)
    (s : CallState) :
  let r := evaluation_agent now tools s in
  match out r with
  | Returned _ =>
      exists f c k notes,
        evaluation (final r) =
          [("tool_calls", PInt (tool_calls (final r)));
           ("tool_successes", PInt (tool_successes (final r)));
           ("tool_success_rate",
            PFloat (if tool_calls (final r) =? 0 then 1
                    else inject_Z (tool_successes (final r))
                         / inject_Z (tool_calls (final r)))%Q);
           ("step_count", PInt (step_count (final r) - 1));
           ("duration_sec",
            PFloat (if Qle_bool (now - start_ts (final r)) 0 then 0
                    else now - start_ts (final r))%Q);
           ("faithfulness_score", PFloat f);
           ("coverage_score", PFloat c);
           ("consistency_score", PFloat k);
           ("eval_notes", notes)]
        /\ step_count (final r) = step_count s + 1
  | Raised _ =>
      evaluation (final r) = evaluation s
      /\ step_count (final r) = step_count s
  end.
Proof.
  intros r. pose proof (evaluation_agent_metrics now tools s) as Hw.
  unfold wp in Hw. fold r in Hw.
  destruct (out r) as [[]|e]; [|exact (proj2 Hw)].
  destruct Hw as (f & c & k & notes & He & Hs & _).
  exists f, c, k, notes. split; [|exact Hs].
  rewrite He. repeat f_equal. lia.
Qed.

(** X19. When the language model is absent, its call raises, or its reply
    is not JSON, [evaluation_agent] returns and records the default
    scores, 1.0 each, with the note of [_default_llm_scores]. *)
Theorem evaluation_agent_default_scores (now : Q) (tools : option Tools)
    (s : CallState) :
  no_usable_reply tools s ->
  let r := evaluation_agent now tools s in
  out r = Returned tt
  /\ dict_get "faithfulness_score" (evaluation (final r)) = Some (PFloat 1)
  /\ dict_get "coverage_score" (evaluation (final r)) = Some (PFloat 1)
  /\ dict_get "consistency_score" (evaluation (final r)) = Some (PFloat 1)
  /\ dict_get "eval_notes" (evaluation (final r)) =
     Some (PStr "LLM evaluation not available; using default scores.").
Proof.
  intros Hno r.
  pose proof (evaluation_agent_defaults now tools s Hno) as Hret.
  pose proof (evaluation_agent_metrics now tools s) as Hw.
  unfold wp in Hw, Hret. fold r in Hw, Hret.
  destruct (out r) as [[]|e]; [|destruct Hret].
  destruct Hw as (f & c & k & notes & He & _ & Hd).
  destruct (Hd Hno) as (-> & -> & -> & ->).
  rewrite He. repeat split.
Qed.

End EvaluationMetrics.

(* ================================================================== *)
(** * The whole run: failures, counters, memory                        *)
(* ================================================================== *)

Section AtMostOneCall.
Context {lib : PyLib}.

Ltac one_call :=
  wp_cases;
  first [ exact I
        | cbn [tool_calls set_tool_calls set_tool_successes set_step_count
               set_cleaned_transcript set_utterances set_entities set_summary
               set_sentiment set_frustration_timeline set_pain_points
               set_recommended_actions set_messages set_evaluation]; lia ].

Lemma cleaning_agent_one_call : at_most_one_call cleaning_agent.
Proof. intros tools s. unfold cleaning_agent. one_call. Qed.

Lemma entities_agent_one_call : at_most_one_call entities_agent.
Proof. intros tools s. unfold entities_agent. one_call. Qed.

Lemma summarization_agent_one_call : at_most_one_call summarization_agent.
Proof. intros tools s. unfold summarization_agent. one_call. Qed.

Lemma sentiment_agent_one_call : at_most_one_call sentiment_agent.
Proof. intros tools s. unfold sentiment_agent. one_call. Qed.

Lemma frustration_loop_agent_one_call : at_most_one_call frustration_loop_agent.
Proof. intros tools s. unfold frustration_loop_agent. one_call. Qed.

Ltac one_call_after lemma :=
  wp_cases;
  try (apply (wp_of_traces same_tool_counters _ _ _ _
                same_tool_counters_refl same_tool_counters_trans);
       [ lemma
       | let Hc := fresh "Hc" in
         intros ? ? [Hc ?];
         cbn [tool_calls set_tool_calls set_tool_successes] in Hc;
         cbv beta; one_call
       | intros; exact I ]);
  try one_call.

Lemma pain_points_agent_one_call : at_most_one_call pain_points_agent.
Proof.
  intros tools s. unfold pain_points_agent.
  one_call_after ltac:(apply _rule_based_pain_points_same_tools).
Qed.

Lemma actions_agent_one_call : at_most_one_call actions_agent.
Proof. intros tools s. unfold actions_agent. one_call. Qed.

Lemma evaluation_agent_one_call (now : Q) : at_most_one_call (evaluation_agent now).
Proof.
  intros tools s. unfold evaluation_agent. cbv zeta.
  fold (settle_llm_scores tools). apply wp_bind.
  apply wp_conseq with
    (Q := fun _ s' => tool_calls s' <= tool_calls s + 1) (E := any_exn).
  - unfold settle_llm_scores. one_call.
  - intros scores s1 H1.
    apply (wp_of_traces same_tool_counters _ _ _ _
             same_tool_counters_refl same_tool_counters_trans).
    + traces_with same_tools_step ltac:(apply traces_compute_basic_eval).
    + intros _ s' [Hc _]. cbv beta. lia.
    + intros; exact I.
  - intros; exact I.
Qed.

(** Every agent of the default registry makes at most one call of a
    capability. *)
Lemma AGENT_REGISTRY_one_call (now : Q) (name : string) (agent : AgentFn) :
  registry_lookup (AGENT_REGISTRY now) name = Some agent ->
  at_most_one_call agent.
Proof.
  intros H. unfold AGENT_REGISTRY in H. cbn [registry_lookup] in H.
  repeat match type of H with
         | (if ?c then _ else _) = _ =>
             destruct c; [injection H as <-|]
         end;
    try discriminate.
  - apply cleaning_agent_one_call.
  - apply entities_agent_one_call.
  - apply summarization_agent_one_call.
  - apply sentiment_agent_one_call.
  - apply frustration_loop_agent_one_call.
  - apply pain_points_agent_one_call.
  - apply actions_agent_one_call.
  - apply evaluation_agent_one_call.
Qed.

End AtMostOneCall.

Lemma wp_and {S A} (m : M S A) (Q1 Q2 : A -> S -> Prop)
    (E1 E2 : exn -> S -> Prop) (s : S) :
  wp m Q1 E1 s -> wp m Q2 E2 s ->
  wp m (fun a s' => Q1 a s' /\ Q2 a s') (fun e s' => E1 e s' /\ E2 e s') s.
Proof. unfold wp. destruct (out (m s)); auto. Qed.

Section DataErrors.
Context {lib : PyLib}.

(** Every agent of the default registry raises data errors only. *)
Lemma AGENT_REGISTRY_raises_only (now : Q) (name : string) (agent : AgentFn) :
  registry_lookup (AGENT_REGISTRY now) name = Some agent ->
  raises_only DATA_ERRORS agent.
Proof.
  intros H. unfold AGENT_REGISTRY in H. cbn [registry_lookup] in H.
  repeat match type of H with
         | (if ?c then _ else _) = _ =>
             destruct c; [injection H as <-|]
         end;
    try discriminate; intros tools s.
  - eapply wp_conseq; [apply cleaning_agent_returns|auto|intros e s' []].
  - eapply wp_conseq; [apply entities_agent_run|auto|intros e s' []].
  - eapply wp_conseq; [apply summarization_agent_returns|auto|intros e s' []].
  - eapply wp_conseq; [apply sentiment_agent_returns|auto|intros e s' []].
  - eapply wp_conseq; [apply frustration_loop_agent_returns|auto|intros e s' []].
  - eapply wp_conseq; [apply pain_points_agent_run|auto|].
    cbv beta. intros e s' [-> _]. cbn. auto.
  - eapply wp_conseq; [apply actions_agent_run|auto|].
    cbv beta. intros e s' [-> _]. cbn. auto.
  - eapply wp_conseq; [apply evaluation_agent_metrics|auto|].
    cbv beta. intros e s' [He _]. exact He.
Qed.

Lemma data_error_not_KeyError (e : exn) : In e DATA_ERRORS -> is_KeyError e = false.
Proof. cbn. intros [<-|[<-|[<-|[<-|[]]]]]; reflexivity. Qed.

End DataErrors.

(** The supervisor's loop and evaluation step, for a relation that
    every registered agent establishes when it returns and for
    exceptions that are never a [KeyError]. *)
Lemma run_agents_rel (R : CallState -> CallState -> Prop) (E : exn -> Prop)
    (registry : Registry) (order : list string) (tools : Tools) :
  (forall x, R x x) -> (forall a b c, R a b -> R b c -> R a c) ->
  (forall e, E e -> is_KeyError e = false) ->
  (forall name, In name order -> registry_lookup registry name <> None) ->
  (forall name agent,
     registry_lookup registry name = Some agent ->
     forall s, wp (agent (Some tools)) (fun _ s' => R s s') (fun e _ => E e) s) ->
  forall s,
    wp (run_agents registry order tools) (fun _ s' => R s s') (fun e _ => E e) s.
Proof.
  intros Hrefl Htrans HE Hin Hreg s. unfold run_agents.
  fold (lookup_and_run registry tools "evaluation").
  change (fun agent_name : string =>
            bind (lift (get_agent_in registry agent_name))
              (fun agent_fn : AgentFn => agent_fn (Some tools)))
    with (lookup_and_run registry tools).
  apply wp_bind.
  assert (Hloop : forall s0,
            wp (for_each order (lookup_and_run registry tools))
              (fun _ s' => R s0 s') (fun e _ => E e) s0).
  { clear s. induction order as [|name order IH]; intros s0.
    - apply wp_ret. apply Hrefl.
    - cbn [for_each]. apply wp_bind.
      destruct (registry_lookup registry name) as [agent|] eqn:Hlook.
      + apply wp_ext with (m' := agent (Some tools));
          [apply lookup_and_run_found; exact Hlook|].
        eapply wp_conseq; [apply (Hreg name agent Hlook)| |auto].
        cbv beta. intros _ s1 H1.
        eapply wp_conseq; [apply IH| |auto].
        * intros n Hn. apply Hin. right. exact Hn.
        * cbv beta. intros _ s2 H2. apply (Htrans _ _ _ H1 H2).
      + exfalso. apply (Hin name); [left; reflexivity|exact Hlook]. }
  eapply wp_conseq; [apply Hloop| |auto].
  cbv beta. intros _ s1 H1.
  unfold try_except_KeyError. apply wp_try_except.
  destruct (registry_lookup registry "evaluation") as [agent|] eqn:Hlook.
  - apply wp_ext with (m' := agent (Some tools));
      [apply lookup_and_run_found; exact Hlook|].
    eapply wp_conseq; [apply (Hreg "evaluation" agent Hlook)| |].
    + cbv beta. intros _ s2 H2. apply (Htrans _ _ _ H1 H2).
    + cbv beta. intros e s2 He. rewrite (HE e He). apply wp_raise. exact He.
  - apply wp_ext with (m' := raise (KeyError "evaluation"));
      [apply lookup_and_run_missing; exact Hlook|].
    apply wp_raise. cbn [is_KeyError]. apply wp_ret. exact H1.
Qed.

Section PipelineOutcome.
Context {lib : PyLib}.

Lemma execution_order_registered (now : Q) (name : string) :
  In name AGENT_EXECUTION_ORDER ->
  registry_lookup (AGENT_REGISTRY now) name <> None.
Proof.
  cbn. intros [<-|[<-|[<-|[<-|[<-|[<-|[<-|[]]]]]]]]; discriminate.
Qed.

Lemma calls_within_steps_refl (s : CallState) : calls_within_steps s s.
Proof. unfold calls_within_steps. lia. Qed.

Lemma calls_within_steps_trans (a b c : CallState) :
  calls_within_steps a b -> calls_within_steps b c -> calls_within_steps a c.
Proof. unfold calls_within_steps. lia. Qed.

(** The default run makes no more calls than steps, and raises data errors
    only. *)
Lemma run_agents_default_run (now : Q) (tools : Tools) (s : CallState) :
  wp (run_agents (AGENT_REGISTRY now) AGENT_EXECUTION_ORDER tools)
    (fun _ s' => calls_within_steps s s')
    (fun e _ => In e DATA_ERRORS) s.
Proof.
  apply run_agents_rel.
  - apply calls_within_steps_refl.
  - apply calls_within_steps_trans.
  - apply data_error_not_KeyError.
  - apply execution_order_registered.
  - intros name agent Hlook s0.
    pose proof (wp_and _ _ _ _ _ s0
                  (AGENT_REGISTRY_one_step now name agent Hlook (Some tools) s0)
                  (wp_and _ _ _ _ _ s0
                     (AGENT_REGISTRY_one_call now name agent Hlook (Some tools) s0)
                     (AGENT_REGISTRY_raises_only now name agent Hlook (Some tools) s0)))
      as H.
    eapply wp_conseq; [exact H| |].
    + cbv beta. intros _ s' (Hs & Hc & _). unfold calls_within_steps. lia.
    + cbv beta. intros e s' (_ & _ & He). exact He.
Qed.

(** A fold into a memory that has counted no negative number of calls
    raises data errors only. *)
Lemma update_memory_from_call_data_errors (cs : CallState) (mem : MemoryState) :
  0 <= total_calls mem ->
  wp (update_memory_from_call cs) (fun _ _ => True)
    (fun e _ => In e DATA_ERRORS) mem.
Proof.
  intros Hpos. unfold update_memory_from_call.
  wp_run. unfold count_bump at 1. cbn [hashable ok]. wp_run.
  cbn [total_calls set_total_calls].
  assert (Hscore : forall key read write m',
             wp (fold_score key (evaluation cs) (total_calls mem + 1) read write)
               (fun _ _ => True) (fun e _ => In e DATA_ERRORS) m').
  { intros key read write m'. unfold fold_score.
    destruct (dict_get key (evaluation cs)) as [v|]; [|wp_run; exact I].
    wp_run. destruct (py_float v) as [e|q] eqn:Hq.
    - apply (py_float_data_error v e Hq).
    - wp_run. unfold _update_running_avg.
      destruct (Z.eqb_spec (total_calls mem + 1) 0) as [H0|_]; [lia|].
      wp_run. exact I. }
  apply wp_conseq with (Q := fun _ _ => True) (E := fun e _ => In e DATA_ERRORS);
    [| |auto].
  - apply wp_for_each; [|exact I].
    intros p m' _ _. wp_run. unfold count_bump.
    destruct (hashable p); wp_run; [exact I|cbn; auto].
  - intros _ m2 _. apply wp_bind.
    apply wp_conseq with (Q := fun _ _ => True) (E := fun e _ => In e DATA_ERRORS);
      [| |auto].
    + destruct (truthy _); [|wp_run; exact I].
      wp_run. unfold count_bump.
      destruct (hashable _); wp_run; [exact I|cbn; auto].
    + intros _ m3 _. apply wp_bind.
      eapply wp_conseq; [apply Hscore| |auto].
      cbv beta. intros _ m4 _. apply wp_bind.
      eapply wp_conseq; [apply Hscore| |auto].
      cbv beta. intros _ m5 _. apply Hscore.
Qed.

(** The outcome of [run_pipeline], by the outcome of the agents and of the
    fold. *)
Lemma run_pipeline_in_fst (registry : Registry) (order : list string)
    (raw : string) (l : option LLMClient) (c : option TranscriptCleaner)
    (d : option DataLoader) (update_memory : bool) (t0 : Q) (mem : MemoryState) :
  let r := pipeline_run registry order raw (default_tools l c d) t0 in
  fst (run_pipeline_in registry order raw l c d update_memory t0 mem) =
  match out r with
  | Raised e => Raised e
  | Returned _ =>
      if update_memory then
        match out (update_memory_from_call (final r) mem) with
        | Raised e => Raised e
        | Returned _ => Returned (final r)
        end
      else Returned (final r)
  end.
Proof.
  intros r. unfold run_pipeline_in. fold r.
  destruct (out r); [|reflexivity].
  destruct update_memory; [|reflexivity].
  destruct (out (update_memory_from_call (final r) mem)); reflexivity.
Qed.

(** Where an exception that leaves [run_pipeline] comes from: the
    agents, or the memory fold after them. *)
Lemma run_pipeline_in_raises (registry : Registry) (order : list string)
    (raw : string) (l : option LLMClient) (c : option TranscriptCleaner)
    (d : option DataLoader) (update_memory : bool) (t0 : Q) (mem : MemoryState)
    (e : exn) :
  fst (run_pipeline_in registry order raw l c d update_memory t0 mem) = Raised e ->
  out (pipeline_run registry order raw (default_tools l c d) t0) = Raised e
  \/ exists cs, out (update_memory_from_call cs mem) = Raised e.
Proof.
  rewrite run_pipeline_in_fst.
  destruct (out (pipeline_run registry order raw (default_tools l c d) t0)) as [u|e'].
  - destruct update_memory; [|discriminate].
    destruct (out (update_memory_from_call _ mem)) as [u'|e'] eqn:Hu; [discriminate|].
    intros H. injection H as <-. right. eexists. exact Hu.
  - intros H. injection H as <-. left. reflexivity.
Qed.

(** X24. What never leaves [run_pipeline].  With the default registry and
    a memory that has not counted a negative number of calls, an exception
    that leaves [run_pipeline] is not the failure of a capability, not a
    JSON parse error, not a division by zero and not the [KeyError] of an
    unknown agent: the first two are caught by the agents and the last two
    cannot occur.  What is left comes from the data handed from one agent
    to the next. *)
Theorem run_pipeline_contains_capability_failures (now t0 : Q) (raw : string)
    (llm_client : option LLMClient) (cleaner : option TranscriptCleaner)
    (data_loader : option DataLoader) (update_memory : bool)
    (GLOBAL_MEMORY : MemoryState) (e : exn) :
  0 <= total_calls GLOBAL_MEMORY ->
  fst (run_pipeline now raw llm_client cleaner data_loader update_memory
         t0 GLOBAL_MEMORY) = Raised e ->
  e <> CapabilityError /\ e <> JSONDecodeError /\ e <> ZeroDivisionError
  /\ forall name, e <> KeyError name.
Proof.
  intros Hpos H.
  assert (Hin : In e DATA_ERRORS);
    [|cbn in Hin; split; [|split; [|split]];
      [intros Heq|intros Heq|intros Heq|intros name Heq]; subst e;
      intuition discriminate].
  destruct (run_pipeline_in_raises _ _ _ _ _ _ _ _ _ _ H) as [H1|[cs H2]].
  - unfold pipeline_run in H1.
    pose proof (run_agents_default_run now
                  (default_tools llm_client cleaner data_loader)
                  (new_CallState raw t0)) as Hrun.
    unfold wp in Hrun. rewrite H1 in Hrun. exact Hrun.
  - pose proof (update_memory_from_call_data_errors cs GLOBAL_MEMORY Hpos) as Hmem.
    unfold wp in Hmem. rewrite H2 in Hmem. exact Hmem.
Qed.

(** X25. In a call state that [run_pipeline] returns, [0 <= tool_successes
    <= tool_calls <= step_count = 8]: each of the eight agents makes at
    most one call of a capability. *)
Theorem run_pipeline_tool_calls_bounded (now t0 : Q) (raw : string)
    (llm_client : option LLMClient) (cleaner : option TranscriptCleaner)
    (data_loader : option DataLoader) (update_memory : bool)
    (GLOBAL_MEMORY : MemoryState) (s : CallState) :
  fst (run_pipeline now raw llm_client cleaner data_loader update_memory t0
         GLOBAL_MEMORY) = Returned s ->
  0 <= tool_successes s /\ tool_successes s <= tool_calls s
  /\ tool_calls s <= step_count s /\ step_count s = 8.
Proof.
  unfold run_pipeline, run_pipeline_in, pipeline_run.
  set (tools := default_tools llm_client cleaner data_loader).
  set (s0 := new_CallState raw t0).
  pose proof (run_agents_default_run now tools s0) as Hrun.
  pose proof (run_agents_default_outcome now tools s0) as Hsteps.
  destruct (run_agents_well_behaved (AGENT_REGISTRY now) AGENT_EXECUTION_ORDER
              tools (AGENT_REGISTRY_well_behaved now)) as [Ht Hk].
  assert (H0 : successes_le_calls s0) by (unfold successes_le_calls; simpl; lia).
  destruct (Hk s0 H0) as [_ Hinv].
  pose proof (traces_final counters_le counters_le_refl counters_le_trans _ s0 Ht)
    as Hle.
  unfold wp in Hrun, Hsteps.
  destruct (out (run_agents (AGENT_REGISTRY now) AGENT_EXECUTION_ORDER tools s0))
    as [u|e]; [|cbn [fst]; discriminate].
  assert (Hs : forall s',
             Returned (final (run_agents (AGENT_REGISTRY now)
                                AGENT_EXECUTION_ORDER tools s0)) = Returned s' ->
             0 <= tool_successes s' /\ tool_successes s' <= tool_calls s'
             /\ tool_calls s' <= step_count s' /\ step_count s' = 8).
  { intros s' Hs'. injection Hs' as <-. destruct Hsteps as [H8 _].
    unfold calls_within_steps, counters_le, successes_le_calls in *.
    cbn [tool_calls tool_successes step_count s0 new_CallState] in *. lia. }
  destruct update_memory; [|exact (Hs s)].
  destruct (out (update_memory_from_call _ GLOBAL_MEMORY)); cbn [fst].
  - exact (Hs s).
  - discriminate.
Qed.

(** X27. What [run_pipeline] does to the memory.  When an agent raises, or
    when [update_memory] is false, the memory is as before; when the
    agents return and [update_memory] is true, the call is counted, even
    if the update of the memory then raises. *)
Theorem run_pipeline_memory (now t0 : Q) (raw : string)
    (llm_client : option LLMClient) (cleaner : option TranscriptCleaner)
    (data_loader : option DataLoader) (update_memory : bool)
    (GLOBAL_MEMORY : MemoryState) :
  let agents :=
    pipeline_run (AGENT_REGISTRY now) AGENT_EXECUTION_ORDER raw
      (default_tools llm_client cleaner data_loader) t0 in
  let memory' :=
    snd (run_pipeline now raw llm_client cleaner data_loader update_memory t0
           GLOBAL_MEMORY) in
  match out agents with
  | Raised _ => memory' = GLOBAL_MEMORY
  | Returned _ =>
      if update_memory
      then total_calls memory' = total_calls GLOBAL_MEMORY + 1
      else memory' = GLOBAL_MEMORY
  end.
Proof.
  intros agents memory'. subst memory'.
  unfold run_pipeline, run_pipeline_in. fold agents.
  destruct (out agents) as [u|e]; [|reflexivity].
  destruct update_memory; [|reflexivity].
  destruct (update_memory_from_call_counts (final agents) GLOBAL_MEMORY) as [Ht _].
  destruct (out (update_memory_from_call (final agents) GLOBAL_MEMORY));
    cbn [snd]; exact Ht.
Qed.

(** A loop over the execution order that returns has found every name in
    the registry. *)
Lemma for_each_agent_registered (registry : Registry) (tools : Tools)
    (order : list string) (s : CallState) :
  wp (for_each order (lookup_and_run registry tools))
    (fun _ _ => forall name, In name order -> registry_lookup registry name <> None)
    any_exn s.
Proof.
  revert s. induction order as [|name order IH]; intros s.
  - apply wp_ret. intros name [].
  - cbn [for_each]. apply wp_bind.
    destruct (registry_lookup registry name) as [agent|] eqn:Hlook.
    + apply wp_ext with (m' := agent (Some tools));
        [apply lookup_and_run_found; exact Hlook|].
      apply wp_top; [|intros; exact I].
      intros _ s1. eapply wp_conseq; [apply IH| |auto].
      cbv beta. intros _ s2 Hall n [<-|Hn]; [congruence|apply Hall; exact Hn].
    + apply wp_ext with (m' := raise (KeyError name));
        [apply lookup_and_run_missing; exact Hlook|].
      apply wp_raise. exact I.
Qed.

(** X28. A name of the execution order that the registry does not hold:
    the run raises and the memory is left as it was; when the name is the
    first of the order, the exception is the [KeyError] of the unknown
    agent, for that name. *)
Theorem run_pipeline_unregistered_agent (registry : Registry)
    (order : list string) (name : string) (raw : string)
    (llm_client : option LLMClient) (cleaner : option TranscriptCleaner)
    (data_loader : option DataLoader) (update_memory : bool) (t0 : Q)
    (GLOBAL_MEMORY : MemoryState) :
  In name order -> registry_lookup registry name = None ->
  let result :=
    run_pipeline_in registry order raw llm_client cleaner data_loader
      update_memory t0 GLOBAL_MEMORY in
  (exists e, fst result = Raised e)
  /\ snd result = GLOBAL_MEMORY
  /\ (hd_error order = Some name -> fst result = Raised (KeyError name)).
Proof.
  intros Hin Hnone result. subst result.
  unfold run_pipeline_in, pipeline_run.
  set (tools := default_tools llm_client cleaner data_loader).
  set (s0 := new_CallState raw t0).
  assert (Hraise : exists e, out (run_agents registry order tools s0) = Raised e).
  { unfold run_agents.
    change (fun agent_name : string =>
              bind (lift (get_agent_in registry agent_name))
                (fun agent_fn : AgentFn => agent_fn (Some tools)))
      with (lookup_and_run registry tools).
    rewrite out_bind.
    pose proof (for_each_agent_registered registry tools order s0) as Hw.
    unfold wp in Hw.
    destruct (out (for_each order (lookup_and_run registry tools) s0)) as [u|e].
    - exfalso. apply (Hw name Hin). exact Hnone.
    - exists e. reflexivity. }
  destruct Hraise as [e He].
  split; [|split].
  - exists e. rewrite He. reflexivity.
  - rewrite He. reflexivity.
  - intros Hhd. destruct order as [|n rest]; [discriminate|].
    injection Hhd as ->.
    rewrite (run_agents_unknown_agent registry tools name rest s0 Hnone).
    reflexivity.
Qed.

(** X26. What the evaluation of a returned run says about the run.  It has
    the nine keys, in order; its [tool_calls], [tool_successes] and their
    rate are those of the returned state; its [step_count] is 7, the steps
    of the agents of the execution order, while the returned state has
    counted 8; and its [duration_sec] is the time from the creation of the
    call state to the evaluation, or 0 when the clock went back. *)
Theorem run_pipeline_evaluation_records_the_run (now t0 : Q) (raw : string)
    (llm_client : option LLMClient) (cleaner : option TranscriptCleaner)
    (data_loader : option DataLoader) (update_memory : bool)
    (GLOBAL_MEMORY : MemoryState) (s : CallState) :
  fst (run_pipeline now raw llm_client cleaner data_loader update_memory t0
         GLOBAL_MEMORY) = Returned s ->
  map fst (evaluation s) =
    ["tool_calls"; "tool_successes"; "tool_success_rate"; "step_count";
     "duration_sec"; "faithfulness_score"; "coverage_score";
     "consistency_score"; "eval_notes"]
  /\ dict_get "tool_calls" (evaluation s) = Some (PInt (tool_calls s))
  /\ dict_get "tool_successes" (evaluation s) = Some (PInt (tool_successes s))
  /\ dict_get "tool_success_rate" (evaluation s) =
     Some (PFloat (if tool_calls s =? 0 then 1
                   else inject_Z (tool_successes s) / inject_Z (tool_calls s))%Q)
  /\ dict_get "step_count" (evaluation s) = Some (PInt 7)
  /\ step_count s = 8
  /\ dict_get "duration_sec" (evaluation s) =
     Some (PFloat (if Qle_bool (now - t0) 0 then 0 else now - t0)%Q).
Proof.
  unfold run_pipeline, run_pipeline_in, pipeline_run.
  set (tools := default_tools llm_client cleaner data_loader).
  set (s0 := new_CallState raw t0).
  assert (Hrun : wp (run_agents (AGENT_REGISTRY now) AGENT_EXECUTION_ORDER tools)
                   (fun _ s' =>
                      exists f c k notes,
                        evaluation s' =
                          [("tool_calls", PInt (tool_calls s'));
                           ("tool_successes", PInt (tool_successes s'));
                           ("tool_success_rate",
                            PFloat (if tool_calls s' =? 0 then 1
                                    else inject_Z (tool_successes s')
                                         / inject_Z (tool_calls s'))%Q);
                           ("step_count", PInt (step_count s' - 1));
                           ("duration_sec",
                            PFloat (if Qle_bool (now - start_ts s') 0 then 0
                                    else now - start_ts s')%Q);
                           ("faithfulness_score", PFloat f);
                           ("coverage_score", PFloat c);
                           ("consistency_score", PFloat k);
                           ("eval_notes", notes)])
                   any_exn s0).
  { unfold run_agents.
    change (fun agent_name : string =>
              bind (lift (get_agent_in (AGENT_REGISTRY now) agent_name))
                (fun agent_fn : AgentFn => agent_fn (Some tools)))
      with (lookup_and_run (AGENT_REGISTRY now) tools).
    fold (lookup_and_run (AGENT_REGISTRY now) tools "evaluation").
    apply wp_bind. apply wp_top; [|intros; exact I].
    intros _ s7. unfold try_except_KeyError. apply wp_try_except.
    apply wp_ext with (m' := evaluation_agent now (Some tools));
      [apply lookup_and_run_found; reflexivity|].
    eapply wp_conseq; [apply evaluation_agent_metrics| |].
    - cbv beta. intros _ s8 (f & c & k & notes & He & Hs & _).
      exists f, c, k, notes. rewrite He. repeat f_equal. lia.
    - cbv beta. intros e s8 [He _].
      rewrite (data_error_not_KeyError e He). apply wp_raise. exact I. }
  pose proof (run_agents_default_outcome now tools s0) as Hsteps.
  pose proof (traces_final (same_field FStartTs) (same_field_refl FStartTs)
                (same_field_trans FStartTs) _ s0
                (run_agents_keeps_field now AGENT_EXECUTION_ORDER tools FStartTs
                   eq_refl)) as Hts.
  cbn [same_field] in Hts.
  unfold wp in Hrun, Hsteps.
  destruct (out (run_agents (AGENT_REGISTRY now) AGENT_EXECUTION_ORDER tools s0))
    as [u|e]; [|cbn [fst]; discriminate].
  assert (Hs : forall s',
             Returned (final (run_agents (AGENT_REGISTRY now)
                                AGENT_EXECUTION_ORDER tools s0)) = Returned s' ->
             map fst (evaluation s') =
               ["tool_calls"; "tool_successes"; "tool_success_rate"; "step_count";
                "duration_sec"; "faithfulness_score"; "coverage_score";
                "consistency_score"; "eval_notes"]
             /\ dict_get "tool_calls" (evaluation s') = Some (PInt (tool_calls s'))
             /\ dict_get "tool_successes" (evaluation s') =
                Some (PInt (tool_successes s'))
             /\ dict_get "tool_success_rate" (evaluation s') =
                Some (PFloat (if tool_calls s' =? 0 then 1
                              else inject_Z (tool_successes s')
                                   / inject_Z (tool_calls s'))%Q)
             /\ dict_get "step_count" (evaluation s') = Some (PInt 7)
             /\ step_count s' = 8
             /\ dict_get "duration_sec" (evaluation s') =
                Some (PFloat (if Qle_bool (now - t0) 0 then 0 else now - t0)%Q)).
  { intros s' Hs'. injection Hs' as <-.
    destruct Hrun as (f & c & k & notes & He). destruct Hsteps as [H8 _].
    rewrite He. rewrite <- Hts, H8.
    cbn [map fst dict_get String.eqb Ascii.eqb Bool.eqb start_ts s0 new_CallState].
    repeat split. }
  destruct update_memory; [|exact (Hs s)].
  destruct (out (update_memory_from_call _ GLOBAL_MEMORY)); cbn [fst].
  - exact (Hs s).
  - discriminate.
Qed.

End PipelineOutcome.

(* ================================================================== *)
(** * Summaries, and the way from the timeline to the pain points      *)
(* ================================================================== *)

Section Summarization.
Context {lib : PyLib}.

(** X9. [summarization_agent] never raises.  The summary is the reply of
    the language model, stripped, when the transcript is not empty, the
    model is called and returns, and the stripped reply is not empty; it
    is [_rule_based_summary] (500 characters) in every other case.
    [step_count] grows by one, and [tool_successes] by one exactly when
    the model returned a reply. *)
Theorem summarization_agent_result (tools : option Tools) (s : CallState) :
  let r := summarization_agent tools s in
  let reply :=
    if is_empty (transcript_of s) then None
    else match llm_of tools with
         | Some client => client (summary_prompt_at s)
         | None => None
         end in
  out r = Returned tt
  /\ summary (final r) =
     match reply with
     | Some content =>
         if is_empty (strip content) then _rule_based_summary s 500
         else strip content
     | None => _rule_based_summary s 500
     end
  /\ step_count (final r) = step_count s + 1
  /\ tool_successes (final r) =
     tool_successes s + match reply with Some _ => 1 | None => 0 end.
Proof.
  intros r reply.
  assert (Hw : wp (summarization_agent tools)
                 (fun _ s' =>
                    summary s' =
                      match reply with
                      | Some content =>
                          if is_empty (strip content) then _rule_based_summary s 500
                          else strip content
                      | None => _rule_based_summary s 500
                      end
                    /\ step_count s' = step_count s + 1
                    /\ tool_successes s' =
                       tool_successes s + match reply with Some _ => 1 | None => 0 end)
                 no_exn s).
  { subst reply. unfold summarization_agent, summary_prompt_at. wp_step. wp_step.
    unfold _rule_based_summary.
    destruct (is_empty (transcript_of s)) eqn:He.
    - wp_run. cbn. split; [|split; [reflexivity|lia]].
      assert (Ht : transcript_of s = "").
      { unfold is_empty in He. apply String.eqb_eq in He. exact He. }
      rewrite Ht. reflexivity.
    - cbv zeta. wp_step. wp_step.
      destruct (llm_of tools) as [client|].
      + wp_run.
        destruct (client _) as [content|]; cbv beta iota.
        * wp_run. destruct (is_empty (strip content)); wp_run;
            cbn; (split; [reflexivity|split; [reflexivity|lia]]).
        * wp_run. cbn. split; [reflexivity|split; [reflexivity|lia]].
      + wp_run. cbn. split; [reflexivity|split; [reflexivity|lia]]. }
  unfold wp in Hw. fold r in Hw.
  destruct (out r) as [[]|e]; [|destruct Hw].
  split; [reflexivity|exact Hw].
Qed.

End Summarization.

Section FrustrationToPainPoints.
Context {lib : PyLib}.

Lemma dedupe_keeps_str (t : string) (items seen deduped : list pyval) :
  dedupe seen items = inr deduped ->
  In (PStr t) items ->
  existsb (atom_eqb (PStr t)) seen = false ->
  In (PStr t) deduped.
Proof.
  revert seen deduped. induction items as [|p rest IH]; intros seen deduped.
  - intros _ [].
  - cbn [dedupe]. destruct (hashable p); cbn [negb]; [|discriminate].
    destruct (existsb (atom_eqb p) seen) eqn:Hseen.
    + intros Hd [Hp|Hin] Hs.
      * subst p. congruence.
      * apply (IH seen deduped Hd Hin Hs).
    + unfold rbind, ok.
      destruct (dedupe (p :: seen) rest) as [e|d] eqn:Hd; [discriminate|].
      intros H [Hp|Hin] Hs; injection H as <-.
      * left. exact Hp.
      * destruct (atom_eqb (PStr t) p) eqn:Hp.
        -- left. apply atom_eqb_str in Hp. exact Hp.
        -- right. apply (IH (p :: seen) d Hd Hin).
           cbn [existsb]. rewrite Hp, Hs. reflexivity.
Qed.

Lemma _rule_based_pain_points_frustrated (s : CallState) (payload : dict) :
  latest_payload
    (filter (wanted "pain_points" (Some "frustration_summary")) (messages s))
  = payload ->
  filter (wanted "pain_points" (Some "frustration_summary")) (messages s) <> [] ->
  dict_get "overall_level" payload = Some (PStr "high") ->
  wp _rule_based_pain_points
    (fun pps s' =>
       s' = s
       /\ In (PStr "customer is highly frustrated after multiple attempts") pps)
    (fun e s' => e = TypeError /\ s' = s) s.
Proof.
  intros Hpay Hne Hhigh. unfold _rule_based_pain_points.
  wp_step. wp_step. cbv zeta. wp_step. wp_step.
  rewrite Hpay.
  destruct (filter (wanted "pain_points" (Some "frustration_summary")) (messages s))
    as [|m ms]; [contradiction|].
  replace (dict_get_default "overall_level" PNone payload) with (PStr "high")
    by (unfold dict_get_default; rewrite Hhigh; reflexivity).
  cbn [atom_eqb String.eqb Ascii.eqb Bool.eqb].
  wp_step.
  match goal with
  | |- context [dedupe [] ?l] =>
      destruct (dedupe [] l) as [e|d] eqn:Hd;
      [|pose proof (dedupe_keeps_str
                      "customer is highly frustrated after multiple attempts"
                      l [] d Hd) as Hin]
  end.
  - split; [apply (dedupe_raises_TypeError _ _ _ Hd)|reflexivity].
  - assert (Hd' : In (PStr "customer is highly frustrated after multiple attempts") d).
    { apply Hin; [|reflexivity]. apply in_or_app. right. left. reflexivity. }
    destruct d as [|p d']; [destruct Hd'|].
    wp_run. split; [reflexivity|exact Hd'].
Qed.

(** A summary with the overall level high, waiting on the bus, reaches the
    pain points. *)
Lemma pain_points_agent_frustrated (tools : option Tools) (s : CallState)
    (payload : dict) :
  quiet tools ->
  latest_payload
    (filter (wanted "pain_points" (Some "frustration_summary")) (messages s))
  = payload ->
  filter (wanted "pain_points" (Some "frustration_summary")) (messages s) <> [] ->
  dict_get "overall_level" payload = Some (PStr "high") ->
  wp (pain_points_agent tools)
    (fun _ s' =>
       In (PStr "customer is highly frustrated after multiple attempts")
         (pain_points s'))
    (fun e _ => e = TypeError) s.
Proof.
  intros Hq Hpay Hne Hhigh. unfold pain_points_agent. wp_step. wp_step. cbv zeta.
  destruct Hq as [Hl|Hl]; rewrite Hl.
  - wp_run.
    eapply wp_conseq;
      [apply (_rule_based_pain_points_frustrated s payload Hpay Hne Hhigh)| |].
    + cbv beta. intros pps s' [-> Hin]. wp_run. exact Hin.
    + cbv beta. intros e s' [-> _]. reflexivity.
  - repeat first [wp_step | progress cbn [ok throw failing_llm]].
    eapply wp_conseq;
      [apply (_rule_based_pain_points_frustrated
                (set_tool_calls (tool_calls s + 1) s) payload Hpay Hne Hhigh)| |].
    + cbv beta. intros pps s' [-> Hin]. wp_run. exact Hin.
    + cbv beta. intros e s' [-> _]. reflexivity.
Qed.

(** X16. From the timeline to the pain points, over the message bus.  With
    the language model absent or raising, when the rules rate some
    utterance as high, running [frustration_loop_agent] and then
    [pain_points_agent] puts the pain point of the highly frustrated
    customer in the list, unless the second agent raises [TypeError]. *)
Theorem high_frustration_reaches_the_pain_points (tools : option Tools)
    (s : CallState) :
  quiet tools ->
  Exists (fun utt => _rule_based_frustration (PStr utt) = ok "high")
    (utterances s) ->
  let s1 := final (frustration_loop_agent tools s) in
  let r := pain_points_agent tools s1 in
  match out r with
  | Returned _ =>
      In (PStr "customer is highly frustrated after multiple attempts")
        (pain_points (final r))
  | Raised e => e = TypeError
  end.
Proof.
  intros Hq Hex s1 r.
  assert (Hne : utterances s <> []).
  { intros Hnil. rewrite Hnil in Hex. inversion Hex. }
  pose proof (frustration_loop_agent_run tools s) as Hw.
  cbv zeta in Hw. unfold wp in Hw. fold s1 in Hw.
  destruct (out (frustration_loop_agent tools s)) as [[]|e]; [|destruct Hw].
  destruct Hw as (_ & _ & Hmsg & _ & Hfb).
  destruct (utterances s) as [|u us] eqn:Hu; [contradiction|].
  specialize (Hfb eq_refl Hq).
  destruct (fallback_timeline_entries (u :: us) 0) as (tl & Htl & _ & _ & Hnth).
  rewrite Htl in Hfb. injection Hfb as Hfb.
  assert (Hhigh : existsb (has_level "high") (frustration_timeline s1) = true).
  { rewrite <- Hfb. apply Exists_exists in Hex. destruct Hex as (utt & Hin & Hutt).
    apply In_nth_error in Hin. destruct Hin as [k Hk].
    destruct (Hnth k utt Hk) as (item & Hitem & _ & _ & lvl & Hlvl & Hlevel).
    rewrite Hutt in Hlvl. injection Hlvl as <-.
    apply existsb_exists. exists item. split.
    - apply (nth_error_In _ _ Hitem).
    - apply (has_level_of item "high" "high" Hlevel). }
  pose proof (pain_points_agent_frustrated tools s1
                (m_payload (frustration_summary_of (frustration_timeline s1))) Hq)
    as Hpp.
  unfold wp in Hpp. fold r in Hpp. apply Hpp.
  - rewrite Hmsg, filter_app. cbn [filter].
    change (wanted "pain_points" (Some "frustration_summary")
              (frustration_summary_of (frustration_timeline s1))) with true.
    cbv iota. unfold latest_payload. rewrite rev_app_distr. reflexivity.
  - rewrite Hmsg, filter_app. cbn [filter].
    change (wanted "pain_points" (Some "frustration_summary")
              (frustration_summary_of (frustration_timeline s1))) with true.
    cbv iota. intros H. apply app_eq_nil in H. destruct H as [_ H]. discriminate H.
  - unfold frustration_summary_of. cbv zeta. cbn [m_payload dict_get String.eqb
      Ascii.eqb Bool.eqb]. rewrite Hhigh. reflexivity.
Qed.

End FrustrationToPainPoints.

Section NoCapability.
Context {lib : PyLib}.

Ltac no_capability Hl :=
  unfold llm_of, get_llm; rewrite Hl; traces_with same_tools_step fail.

(** With no language model and no cleaner, a registered agent leaves the
    tool counters alone. *)
Lemma AGENT_REGISTRY_no_capability (now : Q) (name : string) (agent : AgentFn)
    (tools : Tools) :
  llm tools = None -> cleaner tools = None ->
  registry_lookup (AGENT_REGISTRY now) name = Some agent ->
  traces same_tool_counters (agent (Some tools)).
Proof.
  intros Hl Hc H. unfold AGENT_REGISTRY in H. cbn [registry_lookup] in H.
  repeat match type of H with
         | (if ?c then _ else _) = _ =>
             destruct c; [injection H as <-|]
         end;
    try discriminate.
  - unfold cleaning_agent, get_cleaner. rewrite Hc.
    traces_with same_tools_step fail.
  - unfold entities_agent. no_capability Hl.
  - unfold summarization_agent. no_capability Hl.
  - unfold sentiment_agent. no_capability Hl.
  - unfold frustration_loop_agent. no_capability Hl.
  - unfold pain_points_agent, llm_of, get_llm. rewrite Hl.
    traces_with same_tools_step ltac:(apply _rule_based_pain_points_same_tools).
  - unfold actions_agent. no_capability Hl.
  - unfold evaluation_agent, llm_of, get_llm. rewrite Hl.
    traces_with same_tools_step ltac:(apply traces_compute_basic_eval).
Qed.

(** With no language model and no cleaner, no agent of the default
    registry moves [tool_calls] or [tool_successes], in any order of
    agents and after every write. *)
Theorem no_capability_no_tool_call (now : Q) (order : list string)
    (tools : Tools) (s : CallState) :
  llm tools = None -> cleaner tools = None ->
  let r := run_agents (AGENT_REGISTRY now) order tools s in
  Forall (fun s' => tool_calls s' = tool_calls s
                    /\ tool_successes s' = tool_successes s)
    (writes r ++ [final r]).
Proof.
  intros Hl Hc r.
  assert (Ht : traces same_tool_counters
                 (run_agents (AGENT_REGISTRY now) order tools)).
  { apply run_agents_traces. intros name agent Hlook.
    apply (AGENT_REGISTRY_no_capability now name agent tools Hl Hc Hlook). }
  assert (Hall : Forall (same_tool_counters s) (writes r ++ [final r])).
  { apply Forall_app. split.
    - apply (traces_writes same_tool_counters same_tool_counters_refl
               same_tool_counters_trans _ s Ht).
    - constructor; [|constructor].
      apply (traces_final same_tool_counters same_tool_counters_refl
               same_tool_counters_trans _ s Ht). }
  apply Forall_impl with (P := same_tool_counters s); [|exact Hall].
  intros s' [H1 H2]. split; congruence.
Qed.

End NoCapability.

(* ================================================================== *)
(** * The fallback cleaner                                             *)
(* ================================================================== *)

Lemma only_plain_spaces_cons (c : ascii) (s : string) :
  only_plain_spaces (String c s) <->
  (is_space c = true -> c = " "%char) /\ only_plain_spaces s.
Proof.
  unfold only_plain_spaces. cbn [list_ascii_of_string]. split.
  - intros H. inversion H; subst. split; assumption.
  - intros [H1 H2]. constructor; assumption.
Qed.

Lemma collapse_ws_from_normal (in_run : bool) (s : string) :
  only_plain_spaces (collapse_ws_from in_run s)
  /\ (String.length (collapse_ws_from in_run s) <= String.length s)%nat.
Proof.
  revert in_run. induction s as [|c r IH]; intros in_run; cbn [collapse_ws_from].
  - split; [constructor|apply Nat.le_refl].
  - destruct (is_space c) eqn:Hc.
    + destruct in_run.
      * destruct (IH true) as [H1 H2]. split; [exact H1|]. cbn [String.length]. lia.
      * destruct (IH true) as [H1 H2]. split.
        -- apply only_plain_spaces_cons. split; [reflexivity|exact H1].
        -- cbn [String.length]. lia.
    + destruct (IH false) as [H1 H2]. split.
      * apply only_plain_spaces_cons. split; [congruence|exact H1].
      * cbn [String.length]. lia.
Qed.

Lemma lstrip_normal (s : string) :
  (only_plain_spaces s -> only_plain_spaces (lstrip s))
  /\ (String.length (lstrip s) <= String.length s)%nat.
Proof.
  induction s as [|c r [IH1 IH2]]; cbn [lstrip].
  - split; [auto|apply Nat.le_refl].
  - destruct (is_space c).
    + split.
      * intros H. apply only_plain_spaces_cons in H. apply IH1, H.
      * cbn [String.length]. lia.
    + split; [auto|apply Nat.le_refl].
Qed.

Lemma rstrip_normal (s : string) :
  (only_plain_spaces s -> only_plain_spaces (rstrip s))
  /\ (String.length (rstrip s) <= String.length s)%nat.
Proof.
  induction s as [|c r [IH1 IH2]]; cbn [rstrip].
  - split; [auto|apply Nat.le_refl].
  - destruct (is_space c && is_empty (rstrip r)).
    + split; [intros _; constructor|cbn [String.length]; lia].
    + split.
      * intros H. apply only_plain_spaces_cons in H.
        apply only_plain_spaces_cons. split; [apply H|apply IH1, H].
      * cbn [String.length]. lia.
Qed.

Lemma remove_tags_from_normal (tags : list string) (s : string) (skip : nat) :
  (only_plain_spaces s -> only_plain_spaces (remove_tags_from tags skip s))
  /\ (String.length (remove_tags_from tags skip s) <= String.length s)%nat.
Proof.
  revert skip. induction s as [|c r IH]; intros skip; cbn [remove_tags_from].
  - split; [auto|apply Nat.le_refl].
  - destruct skip as [|k].
    + destruct (find _ tags) as [t|].
      * destruct (IH (String.length t - 1)%nat) as [H1 H2]. split.
        -- intros H. apply only_plain_spaces_cons in H. apply H1, H.
        -- cbn [String.length]. lia.
      * destruct (IH O) as [H1 H2]. split.
        -- intros H. apply only_plain_spaces_cons in H.
           apply only_plain_spaces_cons. split; [apply H|apply H1, H].
        -- cbn [String.length]. lia.
    + destruct (IH k) as [H1 H2]. split.
      * intros H. apply only_plain_spaces_cons in H. apply H1, H.
      * cbn [String.length]. lia.
Qed.

(** X5. [_fallback_clean] returns a text in which every white-space
    character is the plain space, which is never longer than its input,
    and which is empty when the input is. *)
Theorem _fallback_clean_normalizes (text : string) :
  only_plain_spaces (_fallback_clean text)
  /\ (String.length (_fallback_clean text) <= String.length text)%nat
  /\ (text = "" -> _fallback_clean text = "").
Proof.
  unfold _fallback_clean. destruct (is_empty text) eqn:He.
  - split; [constructor|]. split; [cbn; lia|reflexivity].
  - cbv zeta. unfold strip, collapse_ws, remove_tags.
    destruct (collapse_ws_from_normal false text) as [C1 C2].
    destruct (lstrip_normal (collapse_ws_from false text)) as [L1 L2].
    destruct (rstrip_normal (lstrip (collapse_ws_from false text))) as [R1 R2].
    destruct (remove_tags_from_normal ["[noise]"; "[music]"; "[silence]"]
                (rstrip (lstrip (collapse_ws_from false text))) O) as [T1 T2].
    split; [auto|]. split; [lia|].
    intros ->. discriminate He.
Qed.

(* ================================================================== *)
(** * The transcript of a row                                          *)
(* ================================================================== *)

Lemma cells_at_In (col : string) (row : Row) (v : pyval) :
  In v (cells_at col row) -> In v (map snd row).
Proof.
  unfold cells_at. intros H. apply in_map_iff in H.
  destruct H as (cell & <- & Hcell). apply filter_In in Hcell.
  apply in_map. apply Hcell.
Qed.

Lemma first_str_column_cell (row : Row) (cols : list string) (text : string) :
  first_str_column row cols = Some text ->
  exists col, In col cols /\ cells_at col row = [PStr text].
Proof.
  induction cols as [|col rest IH]; cbn [first_str_column]; [discriminate|].
  destruct (cells_at col row) as [|[| | | |t| |] [|v more]] eqn:Hc;
    try (intros H; destruct (IH H) as (c & Hin & Hcell);
         exists c; split; [right; exact Hin|exact Hcell]).
  intros H. injection H as <-. exists col. split; [left; reflexivity|exact Hc].
Qed.

Lemma first_str_column_In (row : Row) (cols : list string) (text : string) :
  first_str_column row cols = Some text -> In (PStr text) (map snd row).
Proof.
  intros H. destruct (first_str_column_cell row cols text H) as (col & _ & Hc).
  apply (cells_at_In col). rewrite Hc. left. reflexivity.
Qed.

Lemma first_str_value_spec (values : list pyval) :
  match first_str_value values with
  | Some text => In (PStr text) values
  | None => Forall (fun v => is_str v = false) values
  end.
Proof.
  induction values as [|v rest IH]; cbn [first_str_value]; [constructor|].
  destruct v; try (destruct (first_str_value rest);
                   [right; exact IH|constructor; [reflexivity|exact IH]]).
  left. reflexivity.
Qed.

(** A label that no cell carries. *)
Lemma cells_at_missing (col : string) (row : Row) :
  ~ In col (map fst row) -> cells_at col row = [].
Proof.
  unfold cells_at. induction row as [|[k v] rest IH]; [reflexivity|].
  cbn [map fst filter]. intros Hn.
  destruct (String.eqb_spec k col) as [->|Hne].
  - exfalso. apply Hn. left. reflexivity.
  - apply IH. intros Hin. apply Hn. right. exact Hin.
Qed.

(** On a row whose labels are distinct, [row[col]] is the plain lookup. *)
Lemma cells_at_distinct_labels (col : string) (row : Row) (v : pyval) :
  NoDup (map fst row) ->
  cells_at col row = [v] <-> dict_get col row = Some v.
Proof.
  induction row as [|[k w] rest IH]; intros Hnd.
  - cbn. split; discriminate.
  - inversion Hnd as [|? ? Hnotin Hrest]; subst.
    unfold cells_at in *. cbn [map fst snd filter dict_get].
    rewrite (String.eqb_sym col k).
    destruct (String.eqb_spec k col) as [->|Hne].
    + cbn [map snd]. fold (cells_at col rest).
      rewrite (cells_at_missing col rest Hnotin).
      split; intros H; injection H as <-; reflexivity.
    + apply IH. exact Hrest.
Qed.

(** X30. [get_transcript_from_row] returns the text of the [transcript]
    column whenever the row has one cell with that label and the cell is
    a string; when one of the four preferred columns is such a cell, the
    result is the string of a preferred column; when some cell of the
    row is a string, the result is a string cell of the row; and it is
    the empty string when no cell is a string.  On a row whose labels
    are distinct, as [pandas.read_csv] makes them, the cell of a column
    is the plain lookup. *)
Theorem get_transcript_from_row_picks_a_cell (row : Row) :
  let text := get_transcript_from_row row in
  (Exists (fun v => is_str v = true) (map snd row) ->
   In (PStr text) (map snd row))
  /\ (Forall (fun v => is_str v = false) (map snd row) -> text = "")
  /\ (forall t, cells_at "transcript" row = [PStr t] -> text = t)
  /\ (forall col t,
        In col ["transcript"; "text"; "call_text"; "utterance"] ->
        cells_at col row = [PStr t] ->
        exists col',
          In col' ["transcript"; "text"; "call_text"; "utterance"]
          /\ cells_at col' row = [PStr text])
  /\ (NoDup (map fst row) ->
      forall t, dict_get "transcript" row = Some (PStr t) -> text = t).
Proof.
  intros text. subst text. unfold get_transcript_from_row.
  assert (Hfirst : forall t, cells_at "transcript" row = [PStr t] ->
            first_str_column row ["transcript"; "text"; "call_text"; "utterance"]
            = Some t).
  { intros t Ht. cbn [first_str_column]. rewrite Ht. reflexivity. }
  split; [|split; [|split; [|split]]].
  - intros Hex.
    destruct (first_str_column row _) as [t|] eqn:Hc.
    + apply (first_str_column_In row _ t Hc).
    + pose proof (first_str_value_spec (map snd row)) as Hv.
      destruct (first_str_value (map snd row)) as [t|]; [exact Hv|].
      exfalso. apply Exists_exists in Hex. destruct Hex as (v & Hin & Hs).
      rewrite Forall_forall in Hv. rewrite (Hv v Hin) in Hs. discriminate Hs.
  - intros Hall.
    destruct (first_str_column row _) as [t|] eqn:Hc.
    + apply first_str_column_In in Hc. rewrite Forall_forall in Hall.
      discriminate (Hall _ Hc).
    + pose proof (first_str_value_spec (map snd row)) as Hv.
      destruct (first_str_value (map snd row)) as [t|]; [|reflexivity].
      rewrite Forall_forall in Hall. discriminate (Hall _ Hv).
  - intros t Ht. rewrite (Hfirst t Ht). reflexivity.
  - intros col t Hcol Hcell.
    assert (Hsome : forall cols,
               In col cols -> exists t', first_str_column row cols = Some t').
    { intros cols. induction cols as [|c rest IH]; [intros []|].
      intros Hin. cbn [first_str_column].
      destruct (cells_at c row) as [|[| | | |t'| |] [|v more]] eqn:Hc;
        try (destruct Hin as [->|Hin];
             [rewrite Hcell in Hc; discriminate Hc|exact (IH Hin)]).
      exists t'. reflexivity. }
    destruct (Hsome _ Hcol) as (t' & Ht').
    rewrite Ht'.
    destruct (first_str_column_cell row _ t' Ht') as (col' & Hin & Hc').
    exists col'. split; assumption.
  - intros Hnd t Ht. apply cells_at_distinct_labels in Ht; [|exact Hnd].
    rewrite (Hfirst t Ht). reflexivity.
Qed.

(** A label that two cells carry: [row["transcript"]] is a series, not a
    string, so the column is passed over and the first string of the row
    is returned. *)
Lemma get_transcript_from_row_duplicated_label :
  get_transcript_from_row
    [("id", PStr "id-9"); ("transcript", PStr "first");
     ("transcript", PStr "second")] = "id-9".
Proof. reflexivity. Qed.

(* ================================================================== *)
(** * Scores taken from a reply                                        *)
(* ================================================================== *)

Section EvaluationFromReply.
Context {lib : PyLib}.

(** X20. When the reply of the language model parses to an object and
    [float] accepts every score the object holds, [evaluation_agent]
    returns, and for each of the three score keys [evaluation] holds
    [float] of the value the reply gives, or the default 1.0 when the
    reply omits the key. *)
Theorem evaluation_agent_scores_from_reply (now : Q) (tools : option Tools)
    (client : LLMClient) (content : string) (d : dict) (s : CallState) :
  llm_of tools = Some client ->
  client (_build_eval_prompt s) = Some content ->
  json_loads (strip content) = Some (PDict d) ->
  (forall key v, In key SCORE_KEYS -> dict_get key d = Some v ->
     exists q, py_float v = ok q) ->
  let r := evaluation_agent now tools s in
  out r = Returned tt
  /\ forall key, In key SCORE_KEYS ->
       exists q,
         dict_get key (evaluation (final r)) = Some (PFloat q)
         /\ match dict_get key d with
            | Some v => py_float v = ok q
            | None => q = 1%Q
            end.
Proof.
  intros Hllm Hreply Hjson Hnum r.
  assert (Hw : wp (evaluation_agent now tools)
                 (fun _ s' =>
                    forall key, In key SCORE_KEYS ->
                      exists q,
                        dict_get key (evaluation s') = Some (PFloat q)
                        /\ match dict_get key d with
                           | Some v => py_float v = ok q
                           | None => q = 1%Q
                           end)
                 no_exn s).
  { unfold evaluation_agent. cbv zeta. fold (settle_llm_scores tools).
    destruct (fill_missing_scores_dict d) as (d' & Hfill & Hd').
    assert (Hscore : forall key, In key SCORE_KEYS ->
               exists q, score_of (PDict d') key = ok q
                 /\ match dict_get key d with
                    | Some v => py_float v = ok q
                    | None => q = 1%Q
                    end).
    { intros key Hkey. unfold score_of. cbn [py_get rbind ok].
      unfold dict_get_default. rewrite (Hd' key Hkey).
      destruct (dict_get key d) as [v|] eqn:Hv.
      - destruct (Hnum key v Hkey Hv) as [q Hq]. exists q. split; exact Hq.
      - exists 1%Q. split; reflexivity. }
    apply wp_bind.
    apply wp_conseq with
      (Q := fun v s1 => step_count s1 = step_count s /\ v = PDict d')
      (E := no_exn).
    - unfold settle_llm_scores. rewrite Hllm. wp_run. rewrite Hreply. wp_run.
      unfold py_json_loads. rewrite Hjson. wp_run. rewrite Hfill. wp_run.
      split; reflexivity.
    - intros v s1 [Hs1 ->].
      destruct (Hscore "faithfulness_score") as (f & Hf & Hf'); [cbn; auto|].
      destruct (Hscore "coverage_score") as (c & Hc & Hc'); [cbn; auto|].
      destruct (Hscore "consistency_score") as (k & Hk & Hk'); [cbn; auto|].
      apply wp_bind.
      apply (wp_reads_only _ _ _ _ _ (compute_basic_eval_reads now)).
      cbv beta. wp_run. rewrite Hf. wp_run. rewrite Hc. wp_run. rewrite Hk.
      wp_run. cbn [py_get ok]. wp_run.
      intros key [<-|[<-|[<-|[]]]].
      + exists f. split; [reflexivity|exact Hf'].
      + exists c. split; [reflexivity|exact Hc'].
      + exists k. split; [reflexivity|exact Hk'].
    - intros e s' H. destruct H. }
  unfold wp in Hw. fold r in Hw.
  destruct (out r) as [[]|e]; [|destruct Hw].
  split; [reflexivity|exact Hw].
Qed.

End EvaluationFromReply.

Section ScoreTooLarge.
Context {lib : PyLib}.

(** [float] refuses an integer from [FLOAT_INT_LIMIT] on, and accepts the
    one before it. *)
Lemma py_float_int_limit :
  py_float (PInt FLOAT_INT_LIMIT) = throw OverflowError
  /\ py_float (PInt (FLOAT_INT_LIMIT - 1)) = ok (inject_Z (FLOAT_INT_LIMIT - 1))
  /\ py_float (PInt (10 ^ 400)) = throw OverflowError.
Proof. repeat split; vm_compute; reflexivity. Qed.

(** A score that is an integer too large for a double: [float], which
    stands after the [try] block, raises [OverflowError], and the
    exception leaves the agent. *)
Lemma evaluation_agent_score_too_large (now : Q) (tools : option Tools)
    (client : LLMClient) (content : string) (d : dict) (s : CallState) :
  llm_of tools = Some client ->
  client (_build_eval_prompt s) = Some content ->
  json_loads (strip content) = Some (PDict d) ->
  dict_get "faithfulness_score" d = Some (PInt (10 ^ 400)) ->
  out (evaluation_agent now tools s) = Raised OverflowError.
Proof.
  intros Hllm Hreply Hjson Hbig.
  assert (Hw : wp (evaluation_agent now tools)
                 (fun _ _ => False) (fun e _ => e = OverflowError) s).
  { unfold evaluation_agent. cbv zeta. fold (settle_llm_scores tools).
    destruct (fill_missing_scores_dict d) as (d' & Hfill & Hd').
    assert (Hscore : score_of (PDict d') "faithfulness_score"
                     = throw OverflowError).
    { unfold score_of. cbn [py_get rbind ok].
      unfold dict_get_default. rewrite (Hd' "faithfulness_score");
        [|cbn; auto].
      rewrite Hbig. apply py_float_int_limit. }
    apply wp_bind.
    apply wp_conseq with
      (Q := fun v s1 => v = PDict d') (E := no_exn).
    - unfold settle_llm_scores. rewrite Hllm. wp_run. rewrite Hreply. wp_run.
      unfold py_json_loads. rewrite Hjson. wp_run. rewrite Hfill. wp_run.
      reflexivity.
    - intros v s1 ->.
      apply wp_bind.
      apply (wp_reads_only _ _ _ _ _ (compute_basic_eval_reads now)).
      cbv beta. wp_run. rewrite Hscore. wp_run. reflexivity.
    - intros e s' H. destruct H. }
  unfold wp in Hw.
  destruct (out (evaluation_agent now tools s)) as [[]|e]; [destruct Hw|].
  rewrite Hw. reflexivity.
Qed.

End ScoreTooLarge.

(** An instance of [evaluation_agent_scores_from_reply]: the reply gives
    the coverage score and omits the other two. *)
Lemma evaluation_agent_scores_from_reply_witness :
  let tools := Some (default_tools (Some (constant_llm ONE_SCORE_REPLY)) None None) in
  let s := new_CallState "hello" 0 in
  let r := @evaluation_agent one_score_lib 1 tools s in
  out r = Returned tt
  /\ dict_get "coverage_score" (evaluation (final r)) = Some (PFloat (1 # 2))
  /\ dict_get "faithfulness_score" (evaluation (final r)) = Some (PFloat 1).
Proof.
  intros tools s r.
  destruct (@evaluation_agent_scores_from_reply one_score_lib 1 tools
              (constant_llm ONE_SCORE_REPLY) ONE_SCORE_REPLY
              [("coverage_score", PFloat (1 # 2))] s)
    as [Hout Hscores].
  - reflexivity.
  - reflexivity.
  - vm_compute. reflexivity.
  - intros key v Hkey Hv. cbn in Hv.
    destruct (String.eqb key "coverage_score"); [|discriminate Hv].
    injection Hv as <-. exists (1 # 2)%Q. reflexivity.
  - split; [exact Hout|]. split.
    + destruct (Hscores "coverage_score") as (q & Hq & Hv); [cbn; auto|].
      cbn in Hv. injection Hv as <-. exact Hq.
    + destruct (Hscores "faithfulness_score") as (q & Hq & Hv); [cbn; auto|].
      cbn in Hv. subst q. exact Hq.
Defined.

(* ================================================================== *)
(** * Instances                                                        *)
(* ================================================================== *)

(** An instance of [running_average_stays_within_the_scores]: two calls,
    with the scores 1 and 0. *)
Lemma running_average_stays_within_the_scores_witness :
  let calls := [scored_call 1 1 1; scored_call 0 1 1] in
  let vs := [1%Q; 0%Q] in
  Forall2 (fun c v =>
             dict_get "faithfulness_score" (evaluation c) = Some (PFloat v))
    calls vs
  /\ Forall (fun v => (0 <= v <= 1)%Q) vs
  /\ calls <> []
  /\ out (@fold_calls example_lib calls new_MemoryState) = Returned tt
  /\ (0 <= avg_faithfulness (final (@fold_calls example_lib calls new_MemoryState))
      <= 1)%Q.
Proof.
  intros calls vs.
  assert (H1 : Forall2 (fun c v =>
             dict_get "faithfulness_score" (evaluation c) = Some (PFloat v))
             calls vs).
  { repeat constructor. }
  assert (H2 : Forall (fun v => (0 <= v <= 1)%Q) vs).
  { repeat constructor; discriminate. }
  assert (H3 : calls <> []) by discriminate.
  assert (H4 : out (@fold_calls example_lib calls new_MemoryState) = Returned tt)
    by (vm_compute; reflexivity).
  split; [exact H1|]. split; [exact H2|]. split; [exact H3|]. split; [exact H4|].
  apply (@running_average_stays_within_the_scores example_lib calls vs 0 1
           H1 H2); [discriminate|discriminate|exact H3|exact H4].
Defined.

(** An instance of [evaluation_agent_default_scores]: a reply that is not
    JSON. *)
Lemma evaluation_agent_default_scores_witness :
  let tools := Some (default_tools (Some (constant_llm NOT_JSON_REPLY)) None None) in
  let s := new_CallState "hello" 0 in
  let r := @evaluation_agent example_lib 1 tools s in
  @no_usable_reply example_lib tools s
  /\ out r = Returned tt
  /\ dict_get "faithfulness_score" (evaluation (final r)) = Some (PFloat 1).
Proof.
  intros tools s r.
  assert (H : @no_usable_reply example_lib tools s) by reflexivity.
  split; [exact H|].
  destruct (@evaluation_agent_default_scores example_lib 1 tools s H)
    as (H1 & H2 & _).
  split; [exact H1|exact H2].
Defined.

(** An instance of [run_pipeline_contains_capability_failures]: the run on
    the reply with a null score raises [TypeError]. *)
Lemma run_pipeline_contains_capability_failures_witness :
  let result :=
    @run_pipeline example_lib 1 "hello" (Some (constant_llm NULL_SCORE_REPLY))
      None None true 0 new_MemoryState in
  0 <= total_calls new_MemoryState
  /\ fst result = Raised TypeError
  /\ TypeError <> CapabilityError /\ TypeError <> JSONDecodeError
  /\ TypeError <> ZeroDivisionError /\ forall name, TypeError <> KeyError name.
Proof.
  intros result.
  assert (H0 : 0 <= total_calls new_MemoryState) by (cbn; lia).
  assert (H : fst result = Raised TypeError) by (vm_compute; reflexivity).
  split; [exact H0|]. split; [exact H|].
  exact (@run_pipeline_contains_capability_failures example_lib 1 0 "hello"
           (Some (constant_llm NULL_SCORE_REPLY)) None None true new_MemoryState
           TypeError H0 H).
Defined.

(** An instance of [run_pipeline_tool_calls_bounded]: a cleaner that
    returns its input, a language model whose replies are not JSON. *)
Lemma run_pipeline_tool_calls_bounded_witness :
  let cleaner : TranscriptCleaner := fun text => Some text in
  exists s,
    fst (@run_pipeline example_lib 1 "I was overcharged. This is unacceptable."
           (Some (constant_llm NOT_JSON_REPLY)) (Some cleaner) None true 0
           new_MemoryState) = Returned s
    /\ 0 <= tool_successes s /\ tool_successes s <= tool_calls s
    /\ tool_calls s <= step_count s /\ step_count s = 8.
Proof.
  intros cleaner.
  set (r := pipeline_run (@AGENT_REGISTRY example_lib 1) AGENT_EXECUTION_ORDER
              "I was overcharged. This is unacceptable."
              (default_tools (Some (constant_llm NOT_JSON_REPLY)) (Some cleaner) None)
              0).
  assert (H : fst (@run_pipeline example_lib 1
                     "I was overcharged. This is unacceptable."
                     (Some (constant_llm NOT_JSON_REPLY)) (Some cleaner) None true 0
                     new_MemoryState) = Returned (final r)).
  { vm_compute. reflexivity. }
  exists (final r). split; [exact H|].
  exact (@run_pipeline_tool_calls_bounded example_lib 1 0
           "I was overcharged. This is unacceptable."
           (Some (constant_llm NOT_JSON_REPLY)) (Some cleaner) None true
           new_MemoryState (final r) H).
Defined.

(** An instance of [run_pipeline_unregistered_agent]: a registry with the
    cleaning agent only. *)
Lemma run_pipeline_unregistered_agent_witness :
  let registry : Registry := [("cleaning", cleaning_agent)] in
  let result :=
    @run_pipeline_in example_lib registry ["cleaning"; "entities"] "hello"
      None None None true 0 new_MemoryState in
  In "entities" ["cleaning"; "entities"]
  /\ registry_lookup registry "entities" = None
  /\ (exists e, fst result = Raised e)
  /\ snd result = new_MemoryState.
Proof.
  intros registry result.
  assert (H1 : In "entities" ["cleaning"; "entities"]) by (right; left; reflexivity).
  assert (H2 : registry_lookup registry "entities" = None) by reflexivity.
  split; [exact H1|]. split; [exact H2|].
  destruct (@run_pipeline_unregistered_agent example_lib registry
              ["cleaning"; "entities"] "entities" "hello" None None None true 0
              new_MemoryState H1 H2) as (Ha & Hb & _).
  split; [exact Ha|exact Hb].
Defined.

(** An instance of [run_pipeline_evaluation_records_the_run]: no
    capability, three seconds between the two readings of the clock. *)
Lemma run_pipeline_evaluation_records_the_run_witness :
  exists s,
    fst (@run_pipeline example_lib 5 "I was overcharged." None None None true 2
           new_MemoryState) = Returned s
    /\ dict_get "step_count" (evaluation s) = Some (PInt 7)
    /\ step_count s = 8
    /\ dict_get "duration_sec" (evaluation s) = Some (PFloat 3).
Proof.
  set (r := pipeline_run (@AGENT_REGISTRY example_lib 5) AGENT_EXECUTION_ORDER
              "I was overcharged." (default_tools None None None) 2).
  assert (H : fst (@run_pipeline example_lib 5 "I was overcharged." None None None
                     true 2 new_MemoryState) = Returned (final r)).
  { vm_compute. reflexivity. }
  exists (final r). split; [exact H|].
  destruct (@run_pipeline_evaluation_records_the_run example_lib 5 2
              "I was overcharged." None None None true new_MemoryState (final r) H)
    as (_ & _ & _ & _ & H5 & H6 & H7).
  split; [exact H5|]. split; [exact H6|].
  rewrite H7. vm_compute. reflexivity.
Defined.

(** An instance of [run_pipeline_returns_without_llm]: no capability at
    all. *)
Lemma run_pipeline_returns_without_llm_witness :
  unavailable (@None LLMClient)
  /\ 0 <= total_calls new_MemoryState
  /\ exists s,
       fst (@run_pipeline example_lib 1 "I was overcharged." None None None true 0
              new_MemoryState) = Returned s
       /\ step_count s = 8
       /\ scores_default s.
Proof.
  assert (Hl : unavailable (@None LLMClient)).
  { intros f H. discriminate H. }
  assert (Hm : 0 <= total_calls new_MemoryState) by (cbn; lia).
  split; [exact Hl|]. split; [exact Hm|].
  destruct (@run_pipeline_returns_without_llm example_lib 1 0 "I was overcharged."
              None None None true new_MemoryState Hl (fun _ => Hm))
    as (s & H1 & H2 & H3 & _).
  exists s. split; [exact H1|]. split; [exact H2|exact H3].
Defined.

(** An instance of [run_agents_without_evaluation]: a registry with the
    cleaning agent only. *)
Lemma run_agents_without_evaluation_witness :
  let registry : Registry := [("cleaning", cleaning_agent)] in
  let tools := default_tools None None None in
  let s := new_CallState "hello" 0 in
  registry_lookup registry "evaluation" = None
  /\ run_agents registry ["cleaning"] tools s =
     for_each ["cleaning"] (lookup_and_run registry tools) s.
Proof.
  intros registry tools s.
  assert (H : registry_lookup registry "evaluation" = None) by reflexivity.
  split; [exact H|].
  exact (run_agents_without_evaluation registry tools ["cleaning"] s H).
Defined.

(** An instance of [high_frustration_reaches_the_pain_points]: one
    utterance that the rules rate high, no language model. *)
Lemma high_frustration_reaches_the_pain_points_witness :
  let s := set_utterances ["This is unacceptable."]
             (new_CallState "This is unacceptable." 0) in
  let s1 := final (@frustration_loop_agent example_lib None s) in
  let r := @pain_points_agent example_lib None s1 in
  quiet None
  /\ Exists (fun utt => _rule_based_frustration (PStr utt) = ok "high")
       (utterances s)
  /\ out r = Returned tt
  /\ In (PStr "customer is highly frustrated after multiple attempts")
       (pain_points (final r)).
Proof.
  intros s s1 r.
  assert (Hq : quiet None) by (left; reflexivity).
  assert (Hex : Exists (fun utt => _rule_based_frustration (PStr utt) = ok "high")
                  (utterances s)).
  { left. vm_compute. reflexivity. }
  assert (Hout : out r = Returned tt) by (vm_compute; reflexivity).
  split; [exact Hq|]. split; [exact Hex|]. split; [exact Hout|].
  pose proof (@high_frustration_reaches_the_pain_points example_lib None s Hq Hex)
    as H.
  cbv zeta in H. fold s1 in H. fold r in H. rewrite Hout in H. exact H.
Defined.
